(** * hkg: a package manager for the home directory

    A shallow embedding of [hkg.py] (package record store, archive
    validation, repository synchronisation, the install / update /
    remove engines, the settings file, the listings and the package
    skeleton) together with the properties its specification states
    about it and further properties that the code shows.

    Modelling conventions.
    - Python exceptions are values of [exn]; a computation that may raise
      returns a [result].  Code that touches the file system is a state
      transformer over [world]; the state reached when an exception
      escapes is kept, as side effects done before a [raise] persist.
    - Text is ASCII: [string] stands for Python's [str], and the [str]
      predicates ([islower], [isalpha], [isdigit]) are the ASCII ones.
    - A path is the list of its components; [home] is the expansion of
      [~].  Package and file names are single components: non-empty and
      without [/].
    - The file system is a table from paths to nodes; permissions are
      not modelled, and a file can always be opened when its directory
      exists.
    - [requests.get] is a parameter: for a URL it gives the body of the
      response, or the exception raised.  [ConnectionError] is Python's
      builtin class, the one that [hkg.py] names in its handlers; the
      exception of [requests] for a host that cannot be reached is
      another class.
    - A file in [configparser] syntax is represented by what the parser
      reads from it: the ordered sections with their ordered options.
      The [DEFAULT] section and value interpolation are outside the
      model: statements that depend on them are for files without a
      [DEFAULT] section, and for names and values that the parser reads
      back as they were written.
    - Console output is not modelled. *)

From Stdlib Require Import String Ascii List Bool Arith Lia.
From stdpp Require Import base tactics option list strings.

Local Open Scope string_scope.
Local Open Scope list_scope.

(** ** Python values, exceptions and [str] methods *)

Module Py.

Inductive exn : Type :=
| KeyError
| ValueError
| IndexError
| AttributeError
| ConnectionError
| FileNotFoundError
| FileExistsError
| NotADirectoryError
| IsADirectoryError
| ParsingError
| ReadError
| OtherError (name : string).

Inductive result (A : Type) : Type :=
| Ret (a : A)
| Raise (e : exn).

Arguments Ret {A} a.
Arguments Raise {A} e.

(** What the functions of [hkg.py] return: booleans mostly, but
    [package_database_api] also returns a version or a list of names. *)
Inductive value : Type :=
| VBool (b : bool)
| VStr (s : string)
| VList (l : list string).

(** Truth value of a Python object, as tested by [if] and [not]. *)
Definition truthy (v : value) : bool :=
  match v with
  | VBool b => b
  | VStr s => negb (String.eqb s "")
  | VList l => negb (Nat.eqb (length l) 0)
  end.

Definition is_upper (c : ascii) : bool :=
  Nat.leb 65 (nat_of_ascii c) && Nat.leb (nat_of_ascii c) 90.

Definition is_lower (c : ascii) : bool :=
  Nat.leb 97 (nat_of_ascii c) && Nat.leb (nat_of_ascii c) 122.

Definition is_digit (c : ascii) : bool :=
  Nat.leb 48 (nat_of_ascii c) && Nat.leb (nat_of_ascii c) 57.

Definition lower_char (c : ascii) : ascii :=
  if is_upper c then ascii_of_nat (nat_of_ascii c + 32) else c.

(** [s.lower()] *)
Definition lower (s : string) : string :=
  string_of_list_ascii (map lower_char (list_ascii_of_string s)).

(** [s.islower()]: some cased character, and no upper-case one. *)
Definition islower (s : string) : bool :=
  let l := list_ascii_of_string s in
  existsb is_lower l && forallb (fun c => negb (is_upper c)) l.

(** [s.isalpha()]: non-empty and letters only. *)
Definition isalpha (s : string) : bool :=
  let l := list_ascii_of_string s in
  negb (Nat.eqb (length l) 0) && forallb (fun c => is_lower c || is_upper c) l.

(** [s.isdigit()]: non-empty and digits only. *)
Definition isdigit (s : string) : bool :=
  let l := list_ascii_of_string s in
  negb (Nat.eqb (length l) 0) && forallb is_digit l.

(** [s.replace(c, '', 1)]: drop the first occurrence of [c]. *)
Fixpoint remove_first_char (c : ascii) (l : list ascii) : list ascii :=
  match l with
  | [] => []
  | x :: l' => if Ascii.eqb x c then l' else x :: remove_first_char c l'
  end.

Definition replace_first (c : ascii) (s : string) : string :=
  string_of_list_ascii (remove_first_char c (list_ascii_of_string s)).

(** [s[-n:]] and [s[:-n]] for [n > 0]. *)
Definition slice_last (n : nat) (s : string) : string :=
  let l := list_ascii_of_string s in
  string_of_list_ascii (drop (length l - n) l).

Definition slice_but_last (n : nat) (s : string) : string :=
  let l := list_ascii_of_string s in
  string_of_list_ascii (take (length l - n) l).

(** [a > b] on [str]. *)
Definition str_gt (a b : string) : bool := String.ltb b a.

(** [l.remove(x)]: drops the first occurrence, [ValueError] when there
    is none. *)
Fixpoint list_remove (x : string) (l : list string) : result (list string) :=
  match l with
  | [] => Raise ValueError
  | y :: l' =>
      if String.eqb y x then Ret l'
      else match list_remove x l' with
           | Ret r => Ret (y :: r)
           | Raise e => Raise e
           end
  end.

(** [x in l] *)
Definition contains (x : string) (l : list string) : bool :=
  existsb (String.eqb x) l.

End Py.

Export Py.

(** ** Insertion-ordered dictionaries

    Python's [dict] and the parser's sections keep insertion order:
    assigning to a present key changes its value in place, assigning to
    a new key appends it. *)

Module Dict.
Section Dict.
Context {K V : Type} `{EqDecision K}.

Fixpoint get (k : K) (d : list (K * V)) : option V :=
  match d with
  | [] => None
  | (k', v) :: d' => if decide (k' = k) then Some v else get k d'
  end.

Fixpoint set (k : K) (v : V) (d : list (K * V)) : list (K * V) :=
  match d with
  | [] => [(k, v)]
  | (k', v') :: d' =>
      if decide (k' = k) then (k', v) :: d' else (k', v') :: set k v d'
  end.

Fixpoint del (k : K) (d : list (K * V)) : list (K * V) :=
  match d with
  | [] => []
  | (k', v') :: d' =>
      if decide (k' = k) then del k d' else (k', v') :: del k d'
  end.

Definition keys (d : list (K * V)) : list K := map fst d.
Definition values (d : list (K * V)) : list V := map snd d.

Definition mem (k : K) (d : list (K * V)) : bool :=
  bool_decide (k ∈ keys d).
End Dict.
End Dict.

(** ** The [configparser] module *)

Module ConfigParser.

Abbreviation options := (list (string * string)) (only parsing).
Abbreviation config := (list (string * list (string * string))) (only parsing).

(** Option names go through [optionxform], which lower-cases them, on
    every access through the parser. *)
Definition optionxform (s : string) : string := Py.lower s.

Definition sections (c : config) : list string := Dict.keys c.

(** [c[section]] *)
Definition section (c : config) (sec : string) : result options :=
  match Dict.get sec c with
  | Some o => Ret o
  | None => Raise KeyError
  end.

Definition has_option (c : config) (sec name : string) : bool :=
  match Dict.get sec c with
  | Some o => Dict.mem (optionxform name) o
  | None => false
  end.

(** [c[section][name]] *)
Definition getitem (c : config) (sec name : string) : result string :=
  match Dict.get sec c with
  | None => Raise KeyError
  | Some o =>
      match Dict.get (optionxform name) o with
      | Some v => Ret v
      | None => Raise KeyError
      end
  end.

(** [c[section][name] = v] *)
Definition setitem (c : config) (sec name v : string) : result config :=
  match Dict.get sec c with
  | None => Raise KeyError
  | Some o => Ret (Dict.set sec (Dict.set (optionxform name) v o) c)
  end.

(** [del c[section][name]] *)
Definition delitem (c : config) (sec name : string) : result config :=
  match Dict.get sec c with
  | None => Raise KeyError
  | Some o =>
      if Dict.mem (optionxform name) o
      then Ret (Dict.set sec (Dict.del (optionxform name) o) c)
      else Raise KeyError
  end.

(** [list(c[section].keys())] *)
Definition keys (c : config) (sec : string) : result (list string) :=
  match section c sec with
  | Ret o => Ret (Dict.keys o)
  | Raise e => Raise e
  end.

End ConfigParser.

Import ConfigParser.

(** ** The file system

    The file system is a table from paths to nodes, kept in the order in
    which [os.listdir] reports the entries.  A symbolic link is followed
    when it is the last component of a path, one level deep. *)

Module FS.

Abbreviation path := (list string) (only parsing).

(** The text of a file: either text in [configparser] syntax (the empty
    file is [Config []]), or bytes the parser rejects. *)
Inductive filedata : Type :=
| Data (bytes : string)
| Config (c : config).

(** A member of a tar archive, under its name in the archive
    ([./hello/metadata] is [["hello"; "metadata"]]). *)
Inductive member : Type :=
| MDir
| MFile (d : filedata).

Inductive content : Type :=
| Plain (d : filedata)
| Archive (members : list (path * member)).

Inductive node : Type :=
| Dir
| File (c : content)
| Symlink (target : path).

(** [opened] logs every path opened for writing, oldest first. *)
Record world : Type := World {
  files : list (path * node);
  opened : list path
}.

Definition empty_file : content := Plain (Config []).

(** [lstat]: the node at a path, links not followed. *)
Definition lstat (w : world) (p : path) : option node :=
  match p with
  | [] => Some Dir
  | _ => Dict.get p (files w)
  end.

(** The path that an access through [p] reaches. *)
Definition realpath (w : world) (p : path) : path :=
  match lstat w p with
  | Some (Symlink t) => t
  | _ => p
  end.

(** [stat]: the node at a path, a final link followed. *)
Definition stat (w : world) (p : path) : option node :=
  match lstat w (realpath w p) with
  | Some (Symlink _) => None
  | r => r
  end.

Definition isfile (w : world) (p : path) : bool :=
  match stat w p with Some (File _) => true | _ => false end.

Definition isdir (w : world) (p : path) : bool :=
  match stat w p with Some Dir => true | _ => false end.

Definition exists_ (w : world) (p : path) : bool :=
  match stat w p with Some _ => true | None => false end.

Definition islink (w : world) (p : path) : bool :=
  match lstat w p with Some (Symlink _) => true | _ => false end.

(** [os.path.basename(os.path.normpath(p))] *)
Definition basename (p : path) : string := List.last p "".

(** [os.path.dirname] *)
Definition dirname (p : path) : path := removelast p.

(** [q] with the leading [d] taken off, when [d] is a prefix of [q]. *)
Fixpoint strip_prefix (d q : path) : option path :=
  match d, q with
  | [], _ => Some q
  | x :: d', y :: q' => if decide (x = y) then strip_prefix d' q' else None
  | _ :: _, [] => None
  end.

Definition under (d q : path) : bool :=
  match strip_prefix d q with Some _ => true | None => false end.

Definition child_name (d : path) (e : path * node) : option string :=
  match strip_prefix d (fst e) with
  | Some [n] => Some n
  | _ => None
  end.

Definition children (fs : list (path * node)) (d : path) : list string :=
  omap (child_name d) fs.

(** Re-rooting of the entries below [src] at [dst]. *)
Definition rekey (src dst : path) (e : path * node) : path * node :=
  match strip_prefix src (fst e) with
  | Some rest => (dst ++ rest, snd e)
  | None => e
  end.

End FS.

Export FS.

(** ** Computations over the file system *)

Definition M (A : Type) : Type := world -> result A * world.

#[global] Instance M_ret : MRet M := fun A a w => (Ret a, w).

#[global] Instance M_bind : MBind M := fun A B k m w =>
  match m w with
  | (Ret a, w') => k a w'
  | (Raise e, w') => (Raise e, w')
  end.

Definition raise {A : Type} (e : exn) : M A := fun w => (Raise e, w).

(** A pure computation that may raise. *)
Definition lift {A : Type} (r : result A) : M A := fun w => (r, w).

(** A test on the current state. *)
Definition gets {A : Type} (f : world -> A) : M A := fun w => (Ret (f w), w).

Definition set_node (p : path) (n : node) : M unit := fun w =>
  (Ret tt, World (Dict.set p n (files w)) (opened w)).

Module Os.

(** [os.listdir(p)] *)
Definition listdir (p : path) : M (list string) := fun w =>
  match stat w p with
  | Some Dir => (Ret (children (files w) (realpath w p)), w)
  | Some _ => (Raise NotADirectoryError, w)
  | None => (Raise FileNotFoundError, w)
  end.

(** [os.makedirs(p, exist_ok=True)], [done] being the part of [p]
    already walked. *)
Fixpoint makedirs_from (done rest : path) : M unit :=
  match rest with
  | [] => mret tt
  | x :: rest' =>
      let q := done ++ [x] in
      n ← gets (fun w => stat w q);
      match n with
      | Some Dir => makedirs_from q rest'
      | Some _ =>
          raise (match rest' with [] => FileExistsError | _ => NotADirectoryError end)
      | None => set_node q Dir;; makedirs_from q rest'
      end
  end.

Definition makedirs (p : path) : M unit := makedirs_from [] p.

(** [open(p, 'w')] and [open(p, 'wb')]: the file is created or emptied. *)
Definition open_w (p : path) : M path := fun w =>
  let q := realpath w p in
  let w' := World (files w) (opened w ++ [p]) in
  match lstat w q with
  | Some (File _) => (Ret q, World (Dict.set q (File empty_file) (files w)) (opened w'))
  | Some Dir => (Raise IsADirectoryError, w)
  | Some (Symlink _) => (Raise (OtherError "OSError"), w)
  | None =>
      if isdir w (dirname q)
      then (Ret q, World (Dict.set q (File empty_file) (files w)) (opened w'))
      else (Raise FileNotFoundError, w)
  end.

(** Everything written to an open file, up to [close]. *)
Definition write (f : path) (c : content) : M unit := set_node f (File c).

(** [os.remove(p)], [os.unlink(p)] *)
Definition remove (p : path) : M unit := fun w =>
  match lstat w p with
  | Some Dir => (Raise IsADirectoryError, w)
  | Some _ => (Ret tt, World (Dict.del p (files w)) (opened w))
  | None => (Raise FileNotFoundError, w)
  end.

(** [shutil.rmtree(p)] *)
Definition rmtree (p : path) : M unit := fun w =>
  match lstat w p with
  | Some Dir =>
      (Ret tt, World (List.filter (fun e => negb (under p (fst e))) (files w)) (opened w))
  | Some _ => (Raise NotADirectoryError, w)
  | None => (Raise FileNotFoundError, w)
  end.

(** [os.rename(src, dst)]: an existing file or link at [dst] is
    replaced, a directory there is refused. *)
Definition rename (src dst : path) : M unit := fun w =>
  match lstat w src with
  | None => (Raise FileNotFoundError, w)
  | Some _ =>
      if negb (isdir w (dirname dst)) then (Raise FileNotFoundError, w)
      else match lstat w dst with
           | Some Dir => (Raise IsADirectoryError, w)
           | _ => (Ret tt, World (map (rekey src dst) (Dict.del dst (files w))) (opened w))
           end
  end.

(** [os.symlink(target, p)] *)
Definition symlink (target p : path) : M unit := fun w =>
  match lstat w p with
  | Some _ => (Raise FileExistsError, w)
  | None =>
      if isdir w (dirname p)
      then (Ret tt, World (Dict.set p (Symlink target) (files w)) (opened w))
      else (Raise FileNotFoundError, w)
  end.

End Os.

Module Tarfile.

(** [tarfile.open(p, 'r')] *)
Definition open_r (p : path) : M (list (path * member)) := fun w =>
  match stat w p with
  | Some (File (Archive ms)) => (Ret ms, w)
  | Some (File _) => (Raise ReadError, w)
  | Some Dir => (Raise IsADirectoryError, w)
  | _ => (Raise FileNotFoundError, w)
  end.

(** [archive.extractfile(archive.getmember(name)).read()]: [getmember]
    raises [KeyError] for an unknown name, and [extractfile] gives [None]
    for a directory, on which [read] fails. *)
Definition read_member (ms : list (path * member)) (name : path) : result filedata :=
  match Dict.get name ms with
  | None => Raise KeyError
  | Some MDir => Raise AttributeError
  | Some (MFile d) => Ret d
  end.

Definition extract (root : path) (m : path * member) : M unit :=
  let target := root ++ fst m in
  match snd m with
  | MDir => Os.makedirs target
  | MFile d =>
      Os.makedirs (dirname target);;
      f ← Os.open_w target;
      Os.write f (Plain d)
  end.

(** [archive.extractall(path=root)] *)
Fixpoint extractall (root : path) (ms : list (path * member)) : M unit :=
  match ms with
  | [] => mret tt
  | m :: ms' => extract root m;; extractall root ms'
  end.

End Tarfile.

(** [ConfigParser.read(p)]: a file that cannot be opened is skipped and
    leaves the parser empty. *)
Definition read_config (p : path) : M config := fun w =>
  match stat w p with
  | Some (File (Plain (Config c))) => (Ret c, w)
  | Some (File _) => (Raise ParsingError, w)
  | _ => (Ret [], w)
  end.

(** [ConfigParser.read_string(text)] *)
Definition read_string (d : filedata) : result config :=
  match d with
  | Config c => Ret c
  | Data _ => Raise ParsingError
  end.

(** The text of a response or of an archive member. *)
Definition text_of (c : content) : filedata :=
  match c with
  | Plain d => d
  | Archive _ => Data "tar"
  end.

(** ** hkg.py *)

(** [try: m  except OSError: h] *)
Definition is_OSError (e : exn) : bool :=
  match e with
  | ConnectionError | FileNotFoundError | FileExistsError
  | NotADirectoryError | IsADirectoryError => true
  | OtherError name => String.eqb name "OSError"
  | _ => false
  end.

Definition try_except_OSError {A : Type} (m h : M A) : M A := fun w =>
  match m w with
  | (Raise e, w') => if is_OSError e then h w' else (Raise e, w')
  | r => r
  end.

(** [for x in l: body x], the loop variable aside no state but the world. *)
Fixpoint for_each {A : Type} (l : list A) (body : A -> M unit) : M unit :=
  match l with
  | [] => mret tt
  | x :: l' => body x;; for_each l' body
  end.

Definition packages_hdb (d : path) : path := d ++ ["packages.hdb"].

(** *** The package record store *)

(** [package_database_api(db_location, db_action, db_section, db_pkgname,
    db_pkgver)] *)
Definition package_database_api (db_location : path)
    (db_action db_section db_pkgname db_pkgver : string) : M value :=
  pkg_db ← read_config db_location;
  if String.eqb db_action "create" then
    pkg_db ← lift (setitem pkg_db db_section db_pkgname db_pkgver);
    pkg_db_file ← Os.open_w db_location;
    Os.write pkg_db_file (Plain (Config pkg_db));;
    mret (VBool true)
  else if String.eqb db_action "delete" then
    pkg_db ← lift (setitem pkg_db db_section db_pkgname db_pkgver);
    pkg_db_file ← Os.open_w db_location;
    pkg_db ← lift (delitem pkg_db db_section db_pkgname);
    Os.write pkg_db_file (Plain (Config pkg_db));;
    mret (VBool true)
  else if String.eqb db_action "update" then
    pkg_db ← lift (setitem pkg_db db_section db_pkgname db_pkgver);
    pkg_db_file ← Os.open_w db_location;
    Os.write pkg_db_file (Plain (Config pkg_db));;
    mret (VBool true)
  else if String.eqb db_action "check" then
    ks ← lift (ConfigParser.keys pkg_db db_section);
    mret (VBool (contains db_pkgname ks))
  else if String.eqb db_action "version" then
    v ← lift (getitem pkg_db db_section db_pkgname);
    mret (VStr v)
  else if String.eqb db_action "list" then
    ks ← lift (ConfigParser.keys pkg_db db_section);
    mret (VList ks)
  else
    mret (VBool false).

(** The text [init_package_database] writes. *)
Definition skeleton : config := [("INSTALLED", []); ("AVAILABLE", [])].

(** [open(p, 'a')] followed by the three [write]s of the skeleton: the
    text is appended to what the file holds. *)
Definition append_skeleton (p : path) : M unit := fun w =>
  let q := realpath w p in
  let log := opened w ++ [p] in
  match lstat w q with
  | Some (File (Plain (Config old))) =>
      let new :=
        if Dict.mem "INSTALLED" old || Dict.mem "AVAILABLE" old
        then Data "[INSTALLED]"
        else Config (old ++ skeleton) in
      (Ret tt, World (Dict.set q (File (Plain new)) (files w)) log)
  | Some (File _) =>
      (Ret tt, World (Dict.set q (File (Plain (Data "[INSTALLED]"))) (files w)) log)
  | Some Dir => (Raise IsADirectoryError, w)
  | Some (Symlink _) => (Raise (OtherError "OSError"), w)
  | None =>
      if isdir w (dirname q)
      then (Ret tt, World (Dict.set q (File (Plain (Config skeleton))) (files w)) log)
      else (Raise FileNotFoundError, w)
  end.

(** [init_package_database(db_location)] *)
Definition init_package_database (db_location : path) : M value :=
  try_except_OSError
    (d ← gets (fun w => isdir w db_location);
     (if d : bool then append_skeleton (packages_hdb db_location)
      else if String.eqb (basename db_location) "packages.hdb"
      then append_skeleton db_location
      else Os.makedirs db_location;; append_skeleton (packages_hdb db_location));;
     mret (VBool true))
    (mret (VBool false)).

(** [validate_package_database(db_location)] *)
Definition version_ok (package_ver : string) : bool :=
  isdigit (replace_first "." package_ver).

Definition validate_package_database (db_location : path) : M value :=
  db_data ← read_config db_location;
  let names := Dict.keys db_data in
  if Nat.eqb (length names) 2
     && contains "INSTALLED" names && contains "AVAILABLE" names
  then
    let installed := default [] (Dict.get "INSTALLED" db_data) in
    let available := default [] (Dict.get "AVAILABLE" db_data) in
    if forallb islower (Dict.keys installed)
       && forallb islower (Dict.keys available)
       && forallb isalpha (Dict.keys installed)
       && forallb isalpha (Dict.keys available)
    then
      if forallb version_ok (Dict.values installed)
         && forallb version_ok (Dict.values available)
      then mret (VBool true)
      else mret (VBool false)
    else mret (VBool false)
  else mret (VBool false).

(** *** Archives and source trees *)

(** [validate_source_directory(source_location)] *)
Definition validate_source_directory (source_location : path) : M value :=
  top ← Os.listdir source_location;
  let check_status_1 :=
    Nat.eqb (length top) 2
    && contains "metadata" top
    && contains (basename source_location) top in
  inner ← Os.listdir (source_location ++ [basename source_location]);
  let check_status_2 :=
    Nat.eqb (length inner) 3
    && contains "etc" inner
    && contains "lib" inner in
  mret (VBool (check_status_1 && check_status_2)).

(** [validate_metadata(metadata_path)] *)
Definition validate_metadata (metadata_path : path) : M value :=
  metadata_data ← read_config metadata_path;
  match metadata_data with
  | [(name, opts)] =>
      let ks := Dict.keys opts in
      mret (VBool
        (String.eqb name "METADATA"
         && Nat.eqb (length ks) 6
         && contains "name" ks && contains "version" ks
         && contains "description" ks && contains "author_name" ks
         && contains "author_email" ks && contains "website" ks))
  | _ => mret (VBool false)
  end.

(** *** Repository synchronisation *)

Definition is_hkg (name : string) : bool := String.eqb (slice_last 4 name) ".hkg".

(** The clean-up loop of [update_repo]:
    [for i in range(0, len(l)): if l[i][-4:] != '.hkg': l.remove(l[i])].
    The range is fixed when the loop starts; [todo] counts the
    iterations left. *)
Fixpoint drop_non_hkg (repo_pkg_list : list string) (i todo : nat)
    : result (list string) :=
  match todo with
  | O => Ret repo_pkg_list
  | S todo' =>
      match repo_pkg_list !! i with
      | None => Raise IndexError
      | Some name =>
          if negb (is_hkg name)
          then match list_remove name repo_pkg_list with
               | Ret l' => drop_non_hkg l' (S i) todo'
               | Raise e => Raise e
               end
          else drop_non_hkg repo_pkg_list (S i) todo'
      end
  end.

(** The version recorded in the archive [repo_location/i]. *)
Definition archive_version (repo_location : path) (i : string) : M string :=
  repo_pkg_archive ← Tarfile.open_r (repo_location ++ [i]);
  repo_pkg_metadata_content ←
    lift (Tarfile.read_member repo_pkg_archive [slice_but_last 4 i; "metadata"]);
  repo_pkg_data ← lift (read_string repo_pkg_metadata_content);
  lift (getitem repo_pkg_data "METADATA" "version").

(** The loop that fills [repo_pkg_version_dict]. *)
Fixpoint read_versions (repo_location : path) (repo_pkg_list : list string)
    (repo_pkg_version_dict : list (string * string)) : M (list (string * string)) :=
  match repo_pkg_list with
  | [] => mret repo_pkg_version_dict
  | i :: rest =>
      v ← archive_version repo_location i;
      read_versions repo_location rest
        (Dict.set (slice_but_last 4 i) v repo_pkg_version_dict)
  end.

(** One round of the loop that adds new packages and newer versions. *)
Definition add_or_update (db : path) (entry : string * string) : M unit :=
  let i := fst entry in
  let version := snd entry in
  known ← package_database_api db "check" "AVAILABLE" i "-1";
  if negb (truthy known) then
    package_database_api db "create" "AVAILABLE" i version;; mret tt
  else
    old ← package_database_api db "version" "AVAILABLE" i "-1";
    match old with
    | VStr old =>
        if str_gt version old
        then package_database_api db "update" "AVAILABLE" i version;; mret tt
        else mret tt
    | _ => raise (OtherError "TypeError")
    end.

(** One round of the loop that drops packages no longer on disk. *)
Definition delete_stale (db : path) (on_disk : list string) (i : string) : M unit :=
  if negb (contains i on_disk)
  then package_database_api db "delete" "AVAILABLE" i "-1";; mret tt
  else mret tt.

(** The scan of the repository directory: the listing without
    [packages.hdb], the clean-up loop, and the versions read from the
    archives that remain. *)
Definition repo_versions (repo_location : path) : M (list (string * string)) :=
  repo_pkg_list ← Os.listdir repo_location;
  repo_pkg_list ← lift (list_remove "packages.hdb" repo_pkg_list);
  repo_pkg_list ←
    (if Nat.ltb 0 (length repo_pkg_list)
     then lift (drop_non_hkg repo_pkg_list 0 (length repo_pkg_list))
     else mret repo_pkg_list);
  read_versions repo_location repo_pkg_list [].

(** [update_repo(repo_location)] *)
Definition update_repo (repo_location : path) : M value :=
  let db := packages_hdb repo_location in
  has_db ← gets (fun w => isfile w db);
  if negb has_db then mret (VBool false) else
  repo_pkg_version_dict ← repo_versions repo_location;
  for_each repo_pkg_version_dict (add_or_update db);;
  repo_pkg_db ← read_config db;
  available ← lift (ConfigParser.keys repo_pkg_db "AVAILABLE");
  for_each available (delete_stale db (Dict.keys repo_pkg_version_dict));;
  mret (VBool true).

(** *** Install, remove and update *)

Section Engines.

(** The expansion of [~], and the HTTP collaborator: the body of the
    response to a [GET], or the exception [requests.get] raises. *)
Variable home : path.
Variable requests_get : string -> result content.

Definition cache_dir : path := home ++ [".cache"; "hkg"].
Definition install_dir : path := home ++ [".local"; "share"; "hkg"].
Definition bin_dir : path := home ++ ["bin"].
Definition temp_dir : path := cache_dir ++ ["temp"].
Definition local_db : path := packages_hdb install_dir.
Definition settings_conf (prefix : path) : path :=
  prefix ++ [".config"; "hkg"; "settings.conf"].
Definition etc_dir (p : string) : path := install_dir ++ [p; p; "etc"].

(** [load_config(prefix)] *)
Definition load_config (prefix : path) : M config :=
  read_config (settings_conf prefix).

(** [if not os.path.isdir(d): os.makedirs(d, exist_ok=True)] *)
Definition ensure_dir (d : path) : M unit :=
  present ← gets (fun w => isdir w d);
  if present : bool then mret tt else Os.makedirs d.

(** The search loop of [install_package]: the cache path of the
    downloaded archive, or [None] when the loop runs into its [else]. *)
Fixpoint install_fetch (pkg_name : string) (sources : list string)
    : M (option path) :=
  match sources with
  | [] => mret None
  | s :: rest =>
      match requests_get (s +:+ "/packages.hdb") with
      | Raise ConnectionError => install_fetch pkg_name rest
      | Raise e => raise e
      | Ret remote_db =>
          remote_pkg_data ← lift (read_string (text_of remote_db));
          available ← lift (ConfigParser.keys remote_pkg_data "AVAILABLE");
          if contains pkg_name available then
            pkg_download ← lift (requests_get (s +:+ "/" +:+ pkg_name +:+ ".hkg"));
            let write_pkg_path := cache_dir ++ [pkg_name +:+ ".hkg"] in
            write_pkg ← Os.open_w write_pkg_path;
            Os.write write_pkg pkg_download;;
            mret (Some write_pkg_path)
          else install_fetch pkg_name rest
      end
  end.

(** [install_package(pkg_name, source_override)] *)
Definition install_package (pkg_name source_override : string) : M value :=
  has_db ← gets (fun w => isfile w local_db);
  installed ←
    (if has_db : bool
     then package_database_api local_db "check" "INSTALLED" pkg_name "0"
     else mret (VBool false));
  if truthy installed then mret (VBool false) else
  ensure_dir cache_dir;;
  ensure_dir install_dir;;
  ensure_dir bin_dir;;
  config_data ← load_config home;
  sources ←
    (if String.eqb source_override ""
     then lift (ConfigParser.keys config_data "SOURCES")
     else mret [source_override]);
  found ← install_fetch pkg_name sources;
  match found with
  | None => mret (VBool false)
  | Some write_pkg_path =>
      write_pkg ← Tarfile.open_r write_pkg_path;
      Tarfile.extractall install_dir write_pkg;;
      bin_target ← Os.listdir (install_dir ++ [pkg_name; pkg_name]);
      bin_target ← lift (list_remove "etc" bin_target);
      bin_target ← lift (list_remove "lib" bin_target);
      match bin_target with
      | [executable] =>
          taken ← gets (fun w => exists_ w (bin_dir ++ [pkg_name]));
          (if taken : bool then mret tt
           else Os.symlink (install_dir ++ [pkg_name; pkg_name; executable])
                           (bin_dir ++ [pkg_name]));;
          has_db ← gets (fun w => isfile w local_db);
          (if has_db : bool then mret tt
           else init_package_database install_dir;; mret tt);;
          metadata ← read_config (install_dir ++ [pkg_name; "metadata"]);
          pkg_installed_version ← lift (getitem metadata "METADATA" "version");
          package_database_api local_db "create" "INSTALLED" pkg_name
                               pkg_installed_version;;
          mret (VBool true)
      | _ => mret (VBool false)
      end
  end.

(** [remove_package(pkg_name)] *)
Definition remove_package (pkg_name : string) : M value :=
  has_db ← gets (fun w => isfile w local_db);
  if negb has_db then mret (VBool false) else
  installed ← package_database_api local_db "check" "INSTALLED" pkg_name "0";
  if negb (truthy installed) then mret (VBool false) else
  package_database_api local_db "delete" "INSTALLED" pkg_name "0";;
  (if negb (String.eqb pkg_name "")
   then Os.rmtree (install_dir ++ [pkg_name]) else mret tt);;
  cached ← gets (fun w => isfile w (cache_dir ++ [pkg_name +:+ ".hkg"]));
  (if cached : bool then Os.remove (cache_dir ++ [pkg_name +:+ ".hkg"]) else mret tt);;
  linked ← gets (fun w => islink w (bin_dir ++ [pkg_name]));
  (if linked : bool then Os.remove (bin_dir ++ [pkg_name]) else mret tt);;
  mret (VBool true).

(** The staging of the [etc] files of [p] before its update. *)
Definition stage_etc_files (p : string) (pkg_etc_files : list string) : M unit :=
  Os.makedirs temp_dir;;
  for_each pkg_etc_files (fun f =>
    Os.rename (etc_dir p ++ [f]) (temp_dir ++ [f +:+ ".hkg_old"])).

(** The way back after the update. *)
Definition restore_etc_files (p : string) : M unit :=
  pkg_etc_files ← Os.listdir temp_dir;
  for_each pkg_etc_files (fun f =>
    Os.rename (temp_dir ++ [f]) (etc_dir p ++ [f]));;
  Os.rmtree temp_dir.

(** The update of [p] from the source [s] that has a newer version;
    [post_update_cleanup] goes in and comes out. *)
Definition update_from (p s : string) (no_preserve_flag post_update_cleanup : bool)
    : M bool :=
  pkg_etc_files ← Os.listdir (etc_dir p);
  let staging := Nat.ltb 0 (length pkg_etc_files) && negb no_preserve_flag in
  (if staging then stage_etc_files p pkg_etc_files else mret tt);;
  let post_update_cleanup := post_update_cleanup || staging in
  remove_package p;;
  install_package p s;;
  (if post_update_cleanup then restore_etc_files p else mret tt);;
  mret post_update_cleanup.

(** The loop over the sources, for one package. *)
Fixpoint update_over_sources (local_pkg_db : config) (p : string)
    (no_preserve_flag : bool) (sources : list string) (post_update_cleanup : bool)
    : M bool :=
  match sources with
  | [] => mret post_update_cleanup
  | s :: rest =>
      match requests_get (s +:+ "/packages.hdb") with
      | Raise ConnectionError =>
          update_over_sources local_pkg_db p no_preserve_flag rest post_update_cleanup
      | Raise e => raise e
      | Ret remote_db =>
          remote_pkg_data ← lift (read_string (text_of remote_db));
          available ← lift (ConfigParser.keys remote_pkg_data "AVAILABLE");
          if contains p available then
            remote_version ← lift (getitem remote_pkg_data "AVAILABLE" p);
            local_version ← lift (getitem local_pkg_db "INSTALLED" p);
            if str_gt remote_version local_version then
              flag ← update_from p s no_preserve_flag post_update_cleanup;
              update_over_sources local_pkg_db p no_preserve_flag rest flag
            else
              update_over_sources local_pkg_db p no_preserve_flag rest post_update_cleanup
          else
            update_over_sources local_pkg_db p no_preserve_flag rest post_update_cleanup
      end
  end.

(** The loop over the packages. *)
Fixpoint update_over_packages (local_pkg_db : config) (no_preserve_flag : bool)
    (sources packages_to_check : list string) (post_update_cleanup : bool)
    : M bool :=
  match packages_to_check with
  | [] => mret post_update_cleanup
  | p :: rest =>
      flag ← update_over_sources local_pkg_db p no_preserve_flag sources
               post_update_cleanup;
      update_over_packages local_pkg_db no_preserve_flag sources rest flag
  end.

(** [update_package(pkg_name, no_preserve_flag)] *)
Definition update_package (pkg_name : string) (no_preserve_flag : bool) : M value :=
  has_db ← gets (fun w => isfile w local_db);
  if negb has_db then mret (VBool false) else
  local_pkg_db ← read_config local_db;
  config_data ← load_config home;
  sources ← lift (ConfigParser.keys config_data "SOURCES");
  packages_to_check ←
    (if String.eqb pkg_name "all"
     then lift (ConfigParser.keys local_pkg_db "INSTALLED")
     else mret [pkg_name]);
  update_over_packages local_pkg_db no_preserve_flag sources packages_to_check false;;
  mret (VBool true).

End Engines.

(** *** The source list *)

(** [add_repo(prefix, repo_url)] *)
Definition add_repo (prefix : path) (repo_url : string) : M value :=
  let config_path := settings_conf prefix in
  config_data ← read_config config_path;
  config_data ← lift (setitem config_data "SOURCES" repo_url "enabled");
  write_config ← Os.open_w config_path;
  Os.write write_config (Plain (Config config_data));;
  mret (VBool true).

(** [del_repo(prefix, repo_url)] *)
Definition del_repo (prefix : path) (repo_url : string) : M value :=
  let config_path := settings_conf prefix in
  config_data ← read_config config_path;
  sources ← lift (ConfigParser.keys config_data "SOURCES");
  if contains repo_url sources then
    config_data ← lift (delitem config_data "SOURCES" repo_url);
    write_config ← Os.open_w config_path;
    Os.write write_config (Plain (Config config_data));;
    mret (VBool true)
  else mret (VBool false).

(** ** Sample states

    Small file systems on which the functions above are run: the store
    of the test suite, and a settings file with one source. *)

Module Sample.

Definition test_hdb : path := ["tmp"; "test.hdb"].

Definition test_store : config :=
  [("INSTALLED", [("scripta", "1.1")]);
   ("AVAILABLE", [("scripta", "1.1"); ("dostuff", "2.4")])].

Definition store_world : world :=
  World [(["tmp"], Dir); (test_hdb, File (Plain (Config test_store)))] [].

Definition testhome : path := ["tmp"; "testhome"].

Definition one_source : config :=
  [("SOURCES", [("http://127.0.0.1/tmp/hkg", "enabled")]); ("OPTIONS", [])].

Definition settings_world : world :=
  World [(["tmp"], Dir);
         (testhome, Dir);
         (testhome ++ [".config"], Dir);
         (testhome ++ [".config"; "hkg"], Dir);
         (settings_conf testhome, File (Plain (Config one_source)))] [].

(** A store with a version that ends in a decimal point. *)
Definition dotted_store : config :=
  [("INSTALLED", [("scripta", "5.")]); ("AVAILABLE", [])].

Definition dotted_world : world :=
  World [(["tmp"], Dir); (test_hdb, File (Plain (Config dotted_store)))] [].

(** The source tree of the test suite, and the same tree with the inner
    directory under another name. *)
Definition testsrc : path := ["tmp"; "testsrc"].

Definition source_tree (inner : string) : list (path * node) :=
  [(["tmp"], Dir);
   (testsrc, Dir);
   (testsrc ++ [inner], Dir);
   (testsrc ++ [inner; "lib"], Dir);
   (testsrc ++ [inner; "etc"], Dir);
   (testsrc ++ ["metadata"], File empty_file);
   (testsrc ++ [inner; "program.bin"], File empty_file)].

Definition source_world : world := World (source_tree "testsrc") [].
Definition misnamed_world : world := World (source_tree "source") [].
Definition crowded_world : world :=
  World (source_tree "testsrc" ++ [(testsrc ++ ["bad.file"], File empty_file)]) [].

(** A package archive: [./name/metadata] and [./name/name/] with the
    given entries. *)
Definition metadata_of (name version : string) : config :=
  [("METADATA",
    [("name", name); ("version", version);
     ("description", "An example package"); ("author_name", "Eadrom");
     ("author_email", "eadrom@example.com"); ("website", "http://example.com")])].

Definition archive_of (name version : string) (inner : list (path * member))
    : content :=
  Archive
    ([([name], MDir);
      ([name; "metadata"], MFile (Config (metadata_of name version)));
      ([name; name], MDir)]
     ++ map (fun e => (name :: name :: fst e, snd e)) inner).

Definition hello_inner (conf : string) : list (path * member) :=
  [(["etc"], MDir);
   (["etc"; "settings.conf"], MFile (Data conf));
   (["lib"], MDir);
   (["hello.sh"], MFile (Data "echo hello"))].

(** A repository directory: [README] comes before the one archive in
    the listing. *)
Definition repo : path := ["srv"; "repo"].

Definition repo_world : world :=
  World [(["srv"], Dir);
         (repo, Dir);
         (repo ++ ["packages.hdb"], File (Plain (Config skeleton)));
         (repo ++ ["README"], File (Plain (Data "read me")));
         (repo ++ ["hello.hkg"], File (archive_of "hello" "1.0" (hello_inner "colour = red")))] [].

(** The same repository without the [README], and with a stale entry
    in its store. *)
Definition tidy_repo_world : world :=
  World [(["srv"], Dir);
         (repo, Dir);
         (repo ++ ["packages.hdb"],
          File (Plain (Config [("INSTALLED", []); ("AVAILABLE", [("gone", "0.9")])])));
         (repo ++ ["hello.hkg"], File (archive_of "hello" "1.0" (hello_inner "colour = red")));
         (repo ++ ["tool.hkg"], File (archive_of "tool" "2.0" (hello_inner "")))] [].

(** A home directory with [hello] 1.0 installed, and three sources: one
    for which the request ends in the builtin [ConnectionError], one
    that does not have the package, one that has [hello] 1.2 and a
    package [broken] without its [etc]. *)
Definition user : path := ["home"; "user"].

Definition sources_conf : config :=
  [("SOURCES", [("http://down", "enabled"); ("http://other", "enabled");
                ("http://repo", "enabled")]);
   ("OPTIONS", [])].

Definition net (url : string) : result content :=
  if String.eqb url "http://down/packages.hdb" then Raise ConnectionError
  else if String.eqb url "http://other/packages.hdb" then
    Ret (Plain (Config [("INSTALLED", []); ("AVAILABLE", [("tool", "2.0")])]))
  else if String.eqb url "http://repo/packages.hdb" then
    Ret (Plain (Config [("INSTALLED", []);
                        ("AVAILABLE", [("hello", "1.2"); ("broken", "0.1")])]))
  else if String.eqb url "http://repo/hello.hkg" then
    Ret (archive_of "hello" "1.2" (hello_inner "colour = blue"))
  else if String.eqb url "http://repo/broken.hkg" then
    Ret (archive_of "broken" "0.1" [(["lib"], MDir); (["broken.sh"], MFile (Data "exit"))])
  else Raise ConnectionError.

Definition fresh_home : world :=
  World [(["home"], Dir);
         (user, Dir);
         (user ++ [".config"], Dir);
         (user ++ [".config"; "hkg"], Dir);
         (settings_conf user, File (Plain (Config sources_conf)))] [].

Definition hello_home : world :=
  World [(["home"], Dir);
         (user, Dir);
         (user ++ [".config"], Dir);
         (user ++ [".config"; "hkg"], Dir);
         (settings_conf user, File (Plain (Config sources_conf)));
         (user ++ [".cache"], Dir);
         (cache_dir user, Dir);
         (user ++ [".local"], Dir);
         (user ++ [".local"; "share"], Dir);
         (install_dir user, Dir);
         (bin_dir user, Dir);
         (install_dir user ++ ["hello"], Dir);
         (install_dir user ++ ["hello"; "metadata"],
          File (Plain (Config (metadata_of "hello" "1.0"))));
         (install_dir user ++ ["hello"; "hello"], Dir);
         (etc_dir user "hello", Dir);
         (etc_dir user "hello" ++ ["settings.conf"], File (Plain (Data "colour = red")));
         (install_dir user ++ ["hello"; "hello"; "lib"], Dir);
         (install_dir user ++ ["hello"; "hello"; "hello.sh"], File (Plain (Data "echo hello")));
         (bin_dir user ++ ["hello"], Symlink (install_dir user ++ ["hello"; "hello"; "hello.sh"]));
         (local_db user,
          File (Plain (Config [("INSTALLED", [("hello", "1.0")]); ("AVAILABLE", [])])))] [].

(** What [requests.get] raises for a host that cannot be reached: its
    own [requests.exceptions.ConnectionError], a class that the builtin
    [ConnectionError] named in [hkg.py] does not cover. *)
Definition requests_ConnectionError : exn :=
  OtherError "requests.exceptions.ConnectionError".

(** The same three sources with the first one unreachable. *)
Definition unreachable (url : string) : result content :=
  if String.eqb url "http://down/packages.hdb" then Raise requests_ConnectionError
  else net url.

(** A repository with one archive, whose name has a capital letter. *)
Definition capital_repo_world : world :=
  World [(["srv"], Dir);
         (repo, Dir);
         (repo ++ ["packages.hdb"], File (Plain (Config skeleton)));
         (repo ++ ["Hello.hkg"], File (archive_of "Hello" "1.0" (hello_inner "colour = red")))] [].

End Sample.

(** ** The version pattern of the specification

    The pattern as the specification words it -- a run of digits, or two
    runs of digits with a single decimal point between them -- to be
    compared with [version_ok], the test the code makes. *)

Module Spec.

Fixpoint split_at_point (l : list ascii) : list ascii * option (list ascii) :=
  match l with
  | [] => ([], None)
  | c :: l' =>
      if Ascii.eqb c "."
      then ([], Some l')
      else (c :: fst (split_at_point l'), snd (split_at_point l'))
  end.

Definition digits (l : list ascii) : bool :=
  negb (Nat.eqb (length l) 0) && forallb is_digit l.

Definition version_pattern (v : string) : bool :=
  match split_at_point (list_ascii_of_string v) with
  | (whole, None) => digits whole
  | (whole, Some fraction) => digits whole && digits fraction
  end.

End Spec.

(** ** Views of the state *)

(** The store at [db] reads as [c]: the file that [db] reaches holds it. *)
Definition store_at (w : world) (db : path) (c : config) : Prop :=
  lstat w (realpath w db) = Some (File (Plain (Config c))).

(** [w] with the file of the store holding [c] and the log [log]. *)
Definition with_store (w : world) (db : path) (c : config) (log : list path)
    : world :=
  World (Dict.set (realpath w db) (File (Plain (Config c))) (files w)) log.

(** The section [o] makes a write for the entry [name = version] of the
    repository needless: the name is there, with a version that the one
    on disk does not exceed. *)
Definition up_to_date (o : options) (entry : string * string) : Prop :=
  fst entry ∈ Dict.keys o
  /\ exists stored, Dict.get (fst entry) o = Some stored
                    /\ str_gt (snd entry) stored = false.

(** Option names as the parser hands them out. *)
Definition normal_names (names : list string) : Prop :=
  Forall (fun name => optionxform name = name) names.

(** The store at [db] has an [AVAILABLE] section, [o]. *)
Definition available_at (w : world) (db : path) (o : options) : Prop :=
  exists c, store_at w db c /\ Dict.get "AVAILABLE" c = Some o.

(** [m] only reads, and what it reads is not the store at [db]: on [w]
    with any other store it gives what it gives on [w]. *)
Definition oblivious {A : Type} (w : world) (db : path) (m : M A) : Prop :=
  forall c log,
    m (with_store w db c log) = (fst (m w), with_store w db c log).

(** No symbolic link of [w] leads to a path below [d]. *)
Definition no_links_into (d : path) (w : world) : Prop :=
  forall p t, (p, Symlink t) ∈ files w -> under d t = false.

(** [m] leaves the part of the file system below [d] alone, provided no
    link leads there; what it returns satisfies [post]. *)
Definition keeps {A : Type} (d : path) (m : M A) (post : A -> Prop) : Prop :=
  forall w r w',
    m w = (r, w') ->
    no_links_into d w ->
    no_links_into d w'
    /\ (forall q, under d q = true -> Dict.get q (files w') = Dict.get q (files w))
    /\ (forall a, r = Ret a -> post a).

(** ** The names and values that a file keeps as they are

    A store or settings file is text: the parser reads back an option
    name or a value as it was assigned when it is made of ordinary
    characters.  Package names are letters ([isalpha]) and versions are
    what [version_ok] accepts; the two predicates below are for path
    components and for URLs. *)

Definition word_char (c : ascii) : bool :=
  is_lower c || is_upper c || is_digit c
  || Ascii.eqb c "_" || Ascii.eqb c "-".

(** A file or directory name of letters, digits, [_] and [-]. *)
Definition is_word (s : string) : bool :=
  let l := list_ascii_of_string s in
  negb (Nat.eqb (length l) 0) && forallb word_char l.

(** A URL of letters, digits and [_ - . / :]. *)
Definition is_url (s : string) : bool :=
  let l := list_ascii_of_string s in
  negb (Nat.eqb (length l) 0)
  && forallb (fun c => word_char c || Ascii.eqb c "." || Ascii.eqb c "/"
                       || Ascii.eqb c ":") l.

(** A package name as the store wants it: lower-case letters. *)
Definition valid_name (s : string) : bool := islower s && isalpha s.

(** No [%] in a value: reading it through the parser gives it back
    as it is. *)
Definition no_percent (s : string) : bool :=
  negb (existsb (Ascii.eqb "%") (list_ascii_of_string s)).

(** A file that the parser reads as it is written: no [DEFAULT]
    section, and no [%] in a value. *)
Definition literal (c : config) : bool :=
  negb (Dict.mem "DEFAULT" c)
  && forallb (fun sec => forallb (fun entry => no_percent (snd entry)) (snd sec)) c.

(** The source [s] gives no reason to update [p]: the request ends in
    the builtin [ConnectionError] that the loop catches, or its store
    has no [DEFAULT] section and does not list [p], or lists it with a
    version that is not above the installed one; the versions compared
    are ones that [version_ok] accepts. *)
Definition nothing_newer (requests_get : string -> result content)
    (local_pkg_db : config) (p s : string) : Prop :=
  requests_get (s +:+ "/packages.hdb") = Raise ConnectionError
  \/ exists remote_db remote available,
       requests_get (s +:+ "/packages.hdb") = Ret remote_db
       /\ read_string (text_of remote_db) = Ret remote
       /\ Dict.get "DEFAULT" remote = None
       /\ Dict.get "AVAILABLE" remote = Some available
       /\ (p ∉ Dict.keys available
           \/ exists remote_version local_version,
                getitem remote "AVAILABLE" p = Ret remote_version
                /\ getitem local_pkg_db "INSTALLED" p = Ret local_version
                /\ version_ok remote_version = true
                /\ version_ok local_version = true
                /\ str_gt remote_version local_version = false).

(** ** Settings, listings and package skeletons *)

(** [os.makedirs(p)] without [exist_ok]: the last component has to be
    new. *)
Definition makedirs_new (p : path) : M unit :=
  present ← gets (fun w => lstat w p);
  match present with
  | Some _ => raise FileExistsError
  | None => Os.makedirs p
  end.

(** [open(p, 'a').close()]: the file is created when it is not there and
    left as it is when it is. *)
Definition touch (p : path) : M unit := fun w =>
  let q := realpath w p in
  let log := opened w ++ [p] in
  match lstat w q with
  | Some (File _) => (Ret tt, World (files w) log)
  | Some Dir => (Raise IsADirectoryError, w)
  | Some (Symlink _) => (Raise (OtherError "OSError"), w)
  | None =>
      if isdir w (dirname q)
      then (Ret tt, World (Dict.set q (File empty_file) (files w)) log)
      else (Raise FileNotFoundError, w)
  end.

(** What [create_default_config] writes. *)
Definition default_config : config := [("SOURCES", []); ("OPTIONS", [])].

(** The [metadata] that [init_package_directory] writes; the float
    [0.0] is stored as its [str]. *)
Definition skeleton_metadata : config :=
  [("METADATA",
    [("name", "your_program");
     ("version", "0.0");
     ("description", "A brief description of your program goes here.");
     ("author_name", "your_name");
     ("author_email", "your_email@example.com");
     ("website", "http://example.com")])].

(** [list_repo(prefix)]; the loop prints the sources and does nothing
    else. *)
Definition list_repo (prefix : path) : M value :=
  there ← gets (fun w => isfile w (settings_conf prefix));
  if negb there then mret (VBool false) else
  config_data ← read_config (settings_conf prefix);
  sources ← lift (ConfigParser.keys config_data "SOURCES");
  mret (VBool true).

(** [create_repo(repo_location)]; paths are absolute here. *)
Definition create_repo (repo_location : path) : M value :=
  init_package_database repo_location.

(** [init_package_directory(source_location)] *)
Definition init_package_directory (source_location : path) : M value :=
  let inner := source_location ++ [basename source_location] in
  try_except_OSError
    (Os.makedirs source_location;;
     Os.makedirs inner;;
     Os.makedirs (inner ++ ["etc"]);;
     Os.makedirs (inner ++ ["lib"]);;
     touch (source_location ++ ["metadata"]);;
     touch (inner ++ ["your_program.bin"]);;
     metadata_file ← Os.open_w (source_location ++ ["metadata"]);
     Os.write metadata_file (Plain (Config skeleton_metadata));;
     mret (VBool true))
    (mret (VBool false)).

Section Tools.

Variable home : path.
Variable requests_get : string -> result content.

(** [check_config_exists(prefix)] *)
Definition check_config_exists (prefix : path) : M value :=
  ensure_dir (cache_dir home);;
  ensure_dir (install_dir home);;
  ensure_dir (bin_dir home);;
  found ← gets (fun w => isfile w (settings_conf prefix));
  mret (VBool found).

(** [create_default_config(prefix)] *)
Definition create_default_config (prefix : path) : M value :=
  let config_path := settings_conf prefix in
  there ← gets (fun w => exists_ w (dirname config_path));
  (if there : bool then mret tt else makedirs_new (dirname config_path));;
  write_config ← Os.open_w config_path;
  Os.write write_config (Plain (Config default_config));;
  check_config_exists prefix.

(** The loop of [list_packages] over the remote sources: the first
    source whose request ends in the builtin [ConnectionError] ends the
    listing. *)
Fixpoint list_remote (source_list : list string) : M value :=
  match source_list with
  | [] => mret (VBool true)
  | s :: rest =>
      match requests_get (s +:+ "/packages.hdb") with
      | Raise ConnectionError => mret (VBool false)
      | Raise e => raise e
      | Ret remote_db =>
          remote_pkg_data ← lift (read_string (text_of remote_db));
          available ← lift (ConfigParser.keys remote_pkg_data "AVAILABLE");
          for_each available (fun i =>
            lift (getitem remote_pkg_data "AVAILABLE" i);; mret tt);;
          list_remote rest
      end
  end.

(** [list_packages(pkg_source)]; the version argument of the calls that
    ask for a version is [None], which that action does not look at. *)
Definition list_packages (pkg_source : string) : M value :=
  config_data ← load_config home;
  if String.eqb pkg_source "local" then
    source_list ← package_database_api (local_db home) "list" "INSTALLED" "none" "none";
    match source_list with
    | VList names =>
        for_each names (fun i =>
          package_database_api (local_db home) "version" "INSTALLED" i "";;
          mret tt);;
        mret (VBool true)
    | _ => raise (OtherError "TypeError")
    end
  else
    sources ← lift (ConfigParser.keys config_data "SOURCES");
    if contains pkg_source sources || String.eqb pkg_source "all" then
      list_remote (if String.eqb pkg_source "all" then sources else [pkg_source])
    else mret (VBool false).

(** [package_info(pkg_name)]: the download loop is the one of
    [install_package]. *)
Definition package_info (pkg_name : string) : M value :=
  let cached_path := cache_dir home ++ [pkg_name +:+ ".hkg"] in
  cached ← gets (fun w => isfile w cached_path);
  found ←
    (if cached : bool then mret true else
     config_data ← load_config home;
     sources ← lift (ConfigParser.keys config_data "SOURCES");
     found ← install_fetch home requests_get pkg_name sources;
     mret (match found with Some _ => true | None => false end));
  if negb found then mret (VBool false) else
  pkg_archive ← Tarfile.open_r cached_path;
  pkg_metadata_content ←
    lift (Tarfile.read_member pkg_archive [pkg_name; "metadata"]);
  pkg_data ← lift (read_string pkg_metadata_content);
  names ← lift (ConfigParser.keys pkg_data "METADATA");
  for_each names (fun i => lift (getitem pkg_data "METADATA" i);; mret tt);;
  mret (VBool true).

(** What [package_info] does once the archive is in the cache. *)
Definition info_tail (pkg_name : string) : M value :=
  pkg_archive ← Tarfile.open_r (cache_dir home ++ [pkg_name +:+ ".hkg"]);
  pkg_metadata_content ←
    lift (Tarfile.read_member pkg_archive [pkg_name; "metadata"]);
  pkg_data ← lift (read_string pkg_metadata_content);
  names ← lift (ConfigParser.keys pkg_data "METADATA");
  for_each names (fun i => lift (getitem pkg_data "METADATA" i);; mret tt);;
  mret (VBool true).

End Tools.

(** * Properties *)

(** ** Dictionaries *)

Section DictFacts.
Context {K V : Type} `{EqDecision K}.
Implicit Types (k : K) (v : V) (d : list (K * V)).

Lemma dict_get_set_eq k v d : Dict.get k (Dict.set k v d) = Some v.
Proof.
  induction d as [|[k' v'] d IH]; simpl.
  - by rewrite decide_True.
  - destruct (decide (k' = k)) as [->|Hne]; simpl.
    + by rewrite decide_True.
    + by rewrite decide_False.
Qed.

Lemma dict_get_set_ne k k' v d :
  k ≠ k' -> Dict.get k' (Dict.set k v d) = Dict.get k' d.
Proof.
  intros Hne. induction d as [|[k0 v0] d IH]; simpl.
  - by rewrite decide_False.
  - destruct (decide (k0 = k)) as [->|Hk0]; simpl.
    + by rewrite !decide_False.
    + destruct (decide (k0 = k')); [done|apply IH].
Qed.

Lemma dict_set_id k v d : Dict.get k d = Some v -> Dict.set k v d = d.
Proof.
  induction d as [|[k' v'] d IH]; simpl; [done|].
  destruct (decide (k' = k)) as [->|Hne]; intros Hget.
  - congruence.
  - f_equal. by apply IH.
Qed.

Lemma dict_set_set k v v' d :
  Dict.set k v (Dict.set k v' d) = Dict.set k v d.
Proof.
  induction d as [|[k0 v0] d IH]; simpl.
  - by rewrite decide_True.
  - destruct (decide (k0 = k)) as [->|Hne]; simpl.
    + by rewrite decide_True.
    + rewrite decide_False by done. by rewrite IH.
Qed.

Lemma dict_keys_set_present k v d :
  k ∈ Dict.keys d -> Dict.keys (Dict.set k v d) = Dict.keys d.
Proof.
  unfold Dict.keys. induction d as [|[k0 v0] d IH]; simpl.
  - by intros ?%elem_of_nil.
  - intros Hin. destruct (decide (k0 = k)) as [->|Hne]; simpl; [done|].
    f_equal. apply IH. apply elem_of_cons in Hin as [?|?]; [congruence|done].
Qed.

Lemma dict_keys_set_absent k v d :
  k ∉ Dict.keys d -> Dict.keys (Dict.set k v d) = Dict.keys d ++ [k].
Proof.
  unfold Dict.keys. induction d as [|[k0 v0] d IH]; simpl; [done|].
  intros Hin. apply not_elem_of_cons in Hin as [Hne Hin].
  rewrite decide_False by done. simpl. f_equal. by apply IH.
Qed.

Lemma dict_elem_of_keys_set k k' v d :
  k' ∈ Dict.keys (Dict.set k v d) <-> k' = k \/ k' ∈ Dict.keys d.
Proof.
  destruct (decide (k ∈ Dict.keys d)) as [Hin|Hin].
  - rewrite dict_keys_set_present by done. naive_solver.
  - rewrite dict_keys_set_absent by done.
    rewrite elem_of_app, list_elem_of_singleton. naive_solver.
Qed.

Lemma dict_get_None k d : Dict.get k d = None <-> k ∉ Dict.keys d.
Proof.
  unfold Dict.keys. induction d as [|[k0 v0] d IH]; simpl.
  - split; [intros _; apply not_elem_of_nil|done].
  - rewrite not_elem_of_cons. destruct (decide (k0 = k)) as [->|Hne].
    + split; [done|]. intros [? _]. done.
    + rewrite IH. naive_solver.
Qed.

Lemma dict_get_is_Some k d : is_Some (Dict.get k d) <-> k ∈ Dict.keys d.
Proof.
  rewrite <- not_eq_None_Some, dict_get_None.
  destruct (decide (k ∈ Dict.keys d)); naive_solver.
Qed.

Lemma dict_mem_true k d : Dict.mem k d = true <-> k ∈ Dict.keys d.
Proof. unfold Dict.mem. by rewrite bool_decide_eq_true. Qed.


Lemma dict_del_absent k d : k ∉ Dict.keys d -> Dict.del k d = d.
Proof.
  unfold Dict.keys. induction d as [|[k0 v0] d IH]; simpl; [done|].
  intros [Hne Hin]%not_elem_of_cons.
  rewrite decide_False by done. f_equal. by apply IH.
Qed.


Lemma dict_get_del_ne k k' d :
  k ≠ k' -> Dict.get k' (Dict.del k d) = Dict.get k' d.
Proof.
  intros Hne. induction d as [|[k0 v0] d IH]; simpl; [done|].
  destruct (decide (k0 = k)) as [->|Hk0]; simpl.
  - by rewrite decide_False.
  - destruct (decide (k0 = k')); [done|apply IH].
Qed.


Lemma dict_elem_of_keys_del k k' d :
  k' ∈ Dict.keys (Dict.del k d) <-> k' ≠ k /\ k' ∈ Dict.keys d.
Proof.
  unfold Dict.keys. induction d as [|[k0 v0] d IH]; simpl.
  - rewrite elem_of_nil. naive_solver.
  - destruct (decide (k0 = k)) as [->|Hk0]; simpl.
    + rewrite IH, elem_of_cons. naive_solver.
    + rewrite !elem_of_cons, IH. naive_solver.
Qed.
Lemma dict_del_set k v d : Dict.del k (Dict.set k v d) = Dict.del k d.
Proof.
  induction d as [|[k0 v0] d IH]; simpl.
  - by rewrite decide_True.
  - destruct (decide (k0 = k)) as [->|Hk0]; simpl.
    + by rewrite decide_True.
    + rewrite decide_False by done. by rewrite IH.
Qed.

Lemma dict_keys_NoDup_set k v d :
  NoDup (Dict.keys d) -> NoDup (Dict.keys (Dict.set k v d)).
Proof.
  intros Hnd. destruct (decide (k ∈ Dict.keys d)) as [Hin|Hin].
  - by rewrite dict_keys_set_present.
  - rewrite dict_keys_set_absent by done.
    apply NoDup_app. split; [done|]. split; [|apply NoDup_singleton].
    intros x Hx ->%list_elem_of_singleton. done.
Qed.

Lemma dict_get_elem_of k v d : Dict.get k d = Some v -> (k, v) ∈ d.
Proof.
  induction d as [|[k0 v0] d IH]; simpl; [done|].
  destruct (decide (k0 = k)) as [->|Hk0].
  - intros [= ->]. by left.
  - intros H1. right. by apply IH.
Qed.
End DictFacts.

(** ** Strings *)

Lemma contains_true x l : contains x l = true <-> x ∈ l.
Proof.
  unfold contains. induction l as [|y l IH]; simpl.
  - rewrite elem_of_nil. split; [discriminate|done].
  - rewrite orb_true_iff, IH, elem_of_cons, String.eqb_eq. done.
Qed.

Lemma contains_false x l : contains x l = false <-> x ∉ l.
Proof.
  rewrite <- contains_true. destruct (contains x l); naive_solver.
Qed.

(** ** The package record store *)

Lemma read_config_world loc w : snd (read_config loc w) = w.
Proof.
  unfold read_config. destruct (stat w loc) as [[|[[|]|]|]|]; done.
Qed.


(** A store with a section is a file in the parser's syntax. *)
Lemma read_config_section loc w c sec :
  read_config loc w = (Ret c, w) ->
  is_Some (Dict.get sec c) ->
  lstat w (realpath w loc) = Some (File (Plain (Config c))).
Proof.
  unfold read_config, stat. intros Hread [o Ho].
  destruct (lstat w (realpath w loc)) as [[|[[|]|]|]|]; simplify_eq/=; done.
Qed.

Lemma lstat_file_get w q c :
  lstat w q = Some (File c) -> Dict.get q (files w) = Some (File c).
Proof. destruct q; [discriminate|done]. Qed.

Lemma setitem_section c sec name v o :
  Dict.get sec c = Some o ->
  setitem c sec name v = Ret (Dict.set sec (Dict.set (optionxform name) v o) c).
Proof. unfold setitem. by intros ->. Qed.


(** Reading a store that has just been written gives what was written. *)
Lemma read_after_write w loc c c' log' :
  lstat w (realpath w loc) = Some (File c) ->
  let w' := World (Dict.set (realpath w loc) (File (Plain (Config c'))) (files w)) log' in
  read_config loc w' = (Ret c', w').
Proof.
  intros Hfile w'.
  assert (realpath w loc <> []) as Hq.
  { intros E. rewrite E in Hfile. discriminate. }
  assert (realpath w' loc = realpath w loc) as Hreal.
  { destruct loc as [|x loc].
    { exfalso. apply Hq. reflexivity. }
    unfold realpath at 1. unfold lstat, w'. simpl files.
    destruct (decide (realpath w (x :: loc) = x :: loc)) as [Heq|Hne].
    - by rewrite Heq, dict_get_set_eq.
    - by rewrite dict_get_set_ne. }
  unfold read_config, stat. rewrite Hreal.
  unfold lstat. destruct (realpath w loc) as [|y q] eqn:E; [done|].
  unfold w'. simpl files. by rewrite dict_get_set_eq.
Qed.




(** C10. The actions [check], [version] and [list] are read-only:
    whatever the location, section, name and version, the world after
    the call is the world before it -- same files, and nothing more in
    the log of files opened for writing. *)
Theorem read_only_actions_leave_world :
  forall (db_location : path) (db_section db_pkgname db_pkgver : string)
         (w : world),
    snd (package_database_api db_location "check" db_section db_pkgname db_pkgver w) = w
    /\ snd (package_database_api db_location "version" db_section db_pkgname db_pkgver w) = w
    /\ snd (package_database_api db_location "list" db_section db_pkgname db_pkgver w) = w.
Proof.
  intros loc sec name ver w.
  unfold package_database_api, mbind, M_bind. simpl.
  pose proof (read_config_world loc w) as Hw.
  destruct (read_config loc w) as [[c|e] w']; simpl in Hw; subst w'.
  - unfold lift, mret, M_ret. repeat split.
    + by destruct (ConfigParser.keys c sec).
    + by destruct (getitem c sec name).
    + by destruct (ConfigParser.keys c sec).
  - done.
Qed.

(** C5, as the code has it.  Adding a URL that [SOURCES] already lists
    is reported as success: [add_repo] returns [True], the entry is
    [enabled], and the list of sources is the one it was. *)
Theorem add_repo_again_succeeds :
  forall (prefix : path) (repo_url : string) (w : world) (settings : config),
    read_config (settings_conf prefix) w = (Ret settings, w) ->
    has_option settings "SOURCES" repo_url = true ->
    exists w' settings',
      add_repo prefix repo_url w = (Ret (VBool true), w')
      /\ read_config (settings_conf prefix) w' = (Ret settings', w')
      /\ ConfigParser.keys settings' "SOURCES" = ConfigParser.keys settings "SOURCES"
      /\ getitem settings' "SOURCES" repo_url = Ret "enabled".
Proof.
  intros prefix url w settings Hread Hhas.
  unfold has_option in Hhas.
  destruct (Dict.get "SOURCES" settings) as [o|] eqn:Ho; [|discriminate].
  apply dict_mem_true in Hhas.
  assert (is_Some (Dict.get "SOURCES" settings)) as Hsec by (by eexists).
  pose proof (read_config_section _ _ _ _ Hread Hsec) as Hfile.
  unfold add_repo, mbind, M_bind. rewrite Hread. simpl.
  unfold lift. rewrite (setitem_section _ _ _ _ _ Ho).
  unfold Os.open_w. rewrite Hfile.
  unfold Os.write, set_node, mret, M_ret. simpl.
  rewrite dict_set_set.
  set (q := realpath w (settings_conf prefix)) in *.
  set (settings' := Dict.set "SOURCES" (Dict.set (optionxform url) "enabled" o) settings).
  eexists _, settings'. split; [reflexivity|].
  split; [|split].
  - by apply read_after_write with (c := Plain (Config settings)).
  - unfold ConfigParser.keys, section, settings'.
    rewrite dict_get_set_eq, Ho. by rewrite dict_keys_set_present.
  - unfold getitem, settings'. by rewrite !dict_get_set_eq.
Qed.

Lemma add_repo_again_succeeds_witness :
  exists w' settings',
    add_repo Sample.testhome "http://127.0.0.1/tmp/hkg" Sample.settings_world
      = (Ret (VBool true), w')
    /\ read_config (settings_conf Sample.testhome) w' = (Ret settings', w')
    /\ ConfigParser.keys settings' "SOURCES"
       = ConfigParser.keys Sample.one_source "SOURCES"
    /\ getitem settings' "SOURCES" "http://127.0.0.1/tmp/hkg" = Ret "enabled".
Proof.
  apply (add_repo_again_succeeds Sample.testhome "http://127.0.0.1/tmp/hkg"
           Sample.settings_world Sample.one_source).
  - reflexivity.
  - reflexivity.
Defined.

(** C5, as the specification has it, fails: the URL is listed in
    [SOURCES], and adding it once more returns [True], not a failure. *)
Lemma add_repo_duplicate_reported_as_success :
  has_option Sample.one_source "SOURCES" "http://127.0.0.1/tmp/hkg" = true
  /\ read_config (settings_conf Sample.testhome) Sample.settings_world
     = (Ret Sample.one_source, Sample.settings_world)
  /\ fst (add_repo Sample.testhome "http://127.0.0.1/tmp/hkg" Sample.settings_world)
     = Ret (VBool true)
  /\ fst (add_repo Sample.testhome "http://127.0.0.1/tmp/hkg" Sample.settings_world)
     <> Ret (VBool false).
Proof. repeat split; vm_compute; congruence. Qed.

(** *** Validation of a store *)

Lemma digits_app a b :
  Spec.digits a = true -> Spec.digits b = true ->
  negb (Nat.eqb (length (a ++ b)) 0) && forallb is_digit (a ++ b) = true.
Proof.
  unfold Spec.digits. rewrite !andb_true_iff, !negb_true_iff, !Nat.eqb_neq.
  intros [Ha Hda] [Hb Hdb]. rewrite forallb_app, Hda, Hdb, length_app.
  split; [lia|done].
Qed.

Lemma remove_first_char_split l :
  remove_first_char "." l =
    match Spec.split_at_point l with
    | (whole, None) => whole
    | (whole, Some fraction) => whole ++ fraction
    end.
Proof.
  induction l as [|c l IH]; simpl; [done|].
  destruct (Ascii.eqb c "."); [done|].
  rewrite IH. by destruct (Spec.split_at_point l) as [whole [fraction|]].
Qed.

(** Every version the specification's pattern admits passes the test of
    the code. *)
Lemma version_pattern_version_ok v :
  Spec.version_pattern v = true -> version_ok v = true.
Proof.
  unfold Spec.version_pattern, version_ok, isdigit, replace_first.
  rewrite list_ascii_of_string_of_list_ascii, remove_first_char_split.
  destruct (Spec.split_at_point (list_ascii_of_string v)) as [whole [fraction|]].
  - rewrite andb_true_iff. intros [? ?]. by apply digits_app.
  - done.
Qed.

(** What [validate_package_database] accepts: a store of exactly two
    sections, [INSTALLED] and [AVAILABLE], whose names are lower-case
    letters and whose versions pass [version_ok]. *)
Lemma validate_package_database_true (db_location : path) (w : world) :
  validate_package_database db_location w = (Ret (VBool true), w) <->
  exists store,
    read_config db_location w = (Ret store, w)
    /\ length store = 2
    /\ "INSTALLED" ∈ sections store /\ "AVAILABLE" ∈ sections store
    /\ (forall sec opts, sec ∈ ["INSTALLED"; "AVAILABLE"] ->
          Dict.get sec store = Some opts ->
          Forall (fun name => islower name = true /\ isalpha name = true) (Dict.keys opts)
          /\ Forall (fun ver => version_ok ver = true) (Dict.values opts)).
Proof.
  unfold validate_package_database, mbind, M_bind.
  pose proof (read_config_world db_location w) as Hw.
  destruct (read_config db_location w) as [[store|e] w']; simpl in Hw; subst w'.
  2:{ split; [done|]. intros (? & [=] & _). }
  unfold mret, M_ret, sections.
  split.
  - intros Hrun. exists store. split; [done|].
    repeat case_match; simplify_eq.
    repeat match goal with
           | H : _ && _ = true |- _ => apply andb_true_iff in H as [? ?]
           end.
    repeat match goal with
           | H : contains _ _ = true |- _ => apply contains_true in H
           | H : Nat.eqb _ _ = true |- _ => apply Nat.eqb_eq in H
           | H : forallb _ _ = true |- _ => rewrite forallb_forall in H
           end.
    split; [by rewrite <- (length_map fst)|]. split; [done|]. split; [done|].
    intros sec opts Hsec Hopts.
    rewrite !Forall_forall.
    apply elem_of_cons in Hsec as [->|Hsec];
      [|apply list_elem_of_singleton in Hsec as ->];
      rewrite Hopts in *; simpl in *;
      split; intros x Hx%list_elem_of_In; auto.
  - intros (store' & [= <-] & Hlen & Hi & Ha & Hall).
    assert (Nat.eqb (length (Dict.keys store)) 2 = true) as ->.
    { unfold Dict.keys. rewrite length_map. by apply Nat.eqb_eq. }
    apply contains_true in Hi as Hi'. apply contains_true in Ha as Ha'.
    rewrite Hi', Ha'. simpl.
    apply dict_get_is_Some in Hi as [oi Hoi]. apply dict_get_is_Some in Ha as [oa Hoa].
    destruct (Hall "INSTALLED" oi) as [Hki Hvi]; [by left|done|].
    destruct (Hall "AVAILABLE" oa) as [Hka Hva]; [by right; left|done|].
    rewrite Hoi, Hoa. simpl.
    rewrite Forall_forall in Hki, Hka, Hvi, Hva.
    assert (forall (f : string -> bool) l,
              (forall x, x ∈ l -> f x = true) -> forallb f l = true) as Hfb.
    { intros f l Hf. apply forallb_forall. intros x Hx%list_elem_of_In. auto. }
    rewrite !Hfb; [done|naive_solver..].
Qed.

(** C8, on the code.  The version [5.] is not of the specification's
    pattern, and a store that records it is accepted all the same:
    [replace('.', '', 1)] turns [5.] into [5], which [isdigit] passes. *)
Theorem validate_package_database_accepts_trailing_point :
  Spec.version_pattern "5." = false
  /\ Dict.get "INSTALLED" Sample.dotted_store = Some [("scripta", "5.")]
  /\ validate_package_database Sample.test_hdb Sample.dotted_world
     = (Ret (VBool true), Sample.dotted_world).
Proof. repeat split. Qed.

(** ** Source trees *)

Lemma listdir_world p w : snd (Os.listdir p w) = w.
Proof. unfold Os.listdir. by destruct (stat w p) as [[| |]|]. Qed.

(** When both listings succeed, the answer is the conjunction of the
    two checks. *)
Lemma validate_source_directory_returns source_location w top inner :
  Os.listdir source_location w = (Ret top, w) ->
  Os.listdir (source_location ++ [basename source_location]) w = (Ret inner, w) ->
  validate_source_directory source_location w
  = (Ret (VBool
       (Nat.eqb (length top) 2 && contains "metadata" top
        && contains (basename source_location) top
        && (Nat.eqb (length inner) 3 && contains "etc" inner && contains "lib" inner))),
     w).
Proof.
  intros Htop Hinner. unfold validate_source_directory, mbind, M_bind.
  by rewrite Htop, Hinner.
Qed.

(** A tree of the expected shape is accepted. *)
Lemma validate_source_directory_accepts source_location w top inner :
  Os.listdir source_location w = (Ret top, w) ->
  Os.listdir (source_location ++ [basename source_location]) w = (Ret inner, w) ->
  length top = 2 -> "metadata" ∈ top -> basename source_location ∈ top ->
  length inner = 3 -> "etc" ∈ inner -> "lib" ∈ inner ->
  validate_source_directory source_location w = (Ret (VBool true), w).
Proof.
  intros Htop Hinner Hl2 Hm Hb Hl3 He Hl.
  rewrite (validate_source_directory_returns _ _ _ _ Htop Hinner).
  apply contains_true in Hm, Hb, He, Hl.
  by rewrite Hl2, Hl3, Hm, Hb, He, Hl.
Qed.

(** With the inner directory in place, any other number of entries at
    either level, or a missing [etc] or [lib], is refused. *)
Lemma validate_source_directory_refuses source_location w top inner :
  Os.listdir source_location w = (Ret top, w) ->
  Os.listdir (source_location ++ [basename source_location]) w = (Ret inner, w) ->
  length top <> 2 \/ length inner <> 3 \/ "metadata" ∉ top
  \/ "etc" ∉ inner \/ "lib" ∉ inner ->
  validate_source_directory source_location w = (Ret (VBool false), w).
Proof.
  intros Htop Hinner Hbad.
  rewrite (validate_source_directory_returns _ _ _ _ Htop Hinner).
  do 3 f_equal.
  destruct Hbad as [H|[H|[H|[H|H]]]].
  - apply Nat.eqb_neq in H. by rewrite H.
  - apply Nat.eqb_neq in H. rewrite H. simpl. apply andb_false_r.
  - apply contains_false in H. rewrite H. by rewrite andb_false_r.
  - apply contains_false in H. rewrite H. by rewrite !andb_false_r.
  - apply contains_false in H. rewrite H. by rewrite !andb_false_r.
Qed.

(** Without a directory of the root's name the second listing raises,
    whatever the first check found. *)
Lemma validate_source_directory_raises source_location w top e :
  Os.listdir source_location w = (Ret top, w) ->
  Os.listdir (source_location ++ [basename source_location]) w = (Raise e, w) ->
  validate_source_directory source_location w = (Raise e, w).
Proof.
  intros Htop Hinner. unfold validate_source_directory, mbind, M_bind.
  by rewrite Htop, Hinner.
Qed.

(** The validation boundary of the test suite: the tree passes, fails
    with [bad.file] next to [metadata], and passes again once that file
    is removed. *)
Lemma validate_source_directory_boundary :
  validate_source_directory Sample.testsrc Sample.source_world
    = (Ret (VBool true), Sample.source_world)
  /\ validate_source_directory Sample.testsrc Sample.crowded_world
    = (Ret (VBool false), Sample.crowded_world)
  /\ Os.remove (Sample.testsrc ++ ["bad.file"]) Sample.crowded_world
    = (Ret tt, Sample.source_world).
Proof. repeat split. Qed.

(** C9, on the code.  The top level holds [metadata] and a directory
    named [source] instead of [testsrc]: the first check fails, and the
    listing of [testsrc/testsrc] then raises [FileNotFoundError], so
    that no [False] is returned. *)
Theorem validate_source_directory_wrong_inner_name :
  Os.listdir Sample.testsrc Sample.misnamed_world
    = (Ret ["source"; "metadata"], Sample.misnamed_world)
  /\ validate_source_directory Sample.testsrc Sample.misnamed_world
    = (Raise FileNotFoundError, Sample.misnamed_world).
Proof. split; reflexivity. Qed.

(** ** The clean-up loop of [update_repo] *)

Lemma list_remove_length x l l' :
  list_remove x l = Ret l' -> length l = S (length l').
Proof.
  revert l'. induction l as [|y l IH]; intros l'; simpl; [done|].
  destruct (String.eqb y x); [by intros [= <-]|].
  destruct (list_remove x l) as [r|e]; [|done].
  intros [= <-]. simpl. f_equal. by apply IH.
Qed.

Lemma list_remove_elem x l : x ∈ l -> exists l', list_remove x l = Ret l'.
Proof.
  induction l as [|y l IH]; [by intros ?%elem_of_nil|].
  intros Hin. simpl. destruct (String.eqb y x) eqn:E; [by eexists|].
  apply String.eqb_neq in E.
  apply elem_of_cons in Hin as [?|Hin]; [congruence|].
  destruct (IH Hin) as [l' ->]. by eexists.
Qed.

(** Removing a name that the checked part of the list does not have
    takes out the entry at the cursor. *)
Lemma list_remove_at l i x :
  l !! i = Some x -> x ∉ take i l ->
  list_remove x l = Ret (take i l ++ drop (S i) l).
Proof.
  revert i. induction l as [|y l IH]; intros [|i]; simpl; try done.
  - intros [= ->] _. by rewrite String.eqb_refl, drop_0.
  - intros Hi [Hne Hnin]%not_elem_of_cons.
    assert (String.eqb y x = false) as -> by (apply String.eqb_neq; congruence).
    by rewrite (IH i Hi Hnin).
Qed.

(** Once an entry has been removed the fixed range runs past the end
    of the list. *)
Lemma drop_non_hkg_short l i todo :
  0 < todo -> length l < i + todo -> drop_non_hkg l i todo = Raise IndexError.
Proof.
  revert l i. induction todo as [|todo IH]; intros l i Hpos Hlen; [lia|].
  simpl. destruct (l !! i) as [name|] eqn:Hi; [|done].
  apply lookup_lt_Some in Hi as Hlt.
  assert (0 < todo) by lia.
  destruct (negb (is_hkg name)).
  - destruct (list_remove name l) as [l'|e] eqn:Hrm.
    + apply list_remove_length in Hrm. apply IH; lia.
    + assert (name ∈ l) as Hin by (by eapply list_elem_of_lookup_2).
      destruct (list_remove_elem _ _ Hin) as [l' Hl']. congruence.
  - apply IH; lia.
Qed.

Lemma is_hkg_filter_all l :
  Forall (fun name => is_hkg name = true) l -> List.filter is_hkg l = l.
Proof.
  induction 1 as [|x l Hx _ IH]; simpl; [done|]. by rewrite Hx, IH.
Qed.

(** When the loop comes to its end, it has kept the [.hkg] entries and
    nothing else. *)
Lemma drop_non_hkg_filter l i todo l' :
  length l = i + todo ->
  Forall (fun name => is_hkg name = true) (take i l) ->
  drop_non_hkg l i todo = Ret l' ->
  l' = List.filter is_hkg l.
Proof.
  revert l i. induction todo as [|todo IH]; intros l i Hlen Hchecked; simpl.
  - intros [= <-]. rewrite firstn_all2 in Hchecked by lia.
    by rewrite is_hkg_filter_all.
  - destruct (l !! i) as [name|] eqn:Hi; [|done].
    destruct (is_hkg name) eqn:Hname; simpl.
    + apply IH; [lia|].
      rewrite (take_S_r _ _ _ Hi). apply Forall_app. split; [done|].
      by apply Forall_singleton.
    + assert (name ∉ take i l) as Hnin.
      { intros Hin. rewrite Forall_forall in Hchecked.
        apply Hchecked in Hin. congruence. }
      rewrite (list_remove_at _ _ _ Hi Hnin).
      destruct todo as [|todo].
      * simpl. intros [= <-].
        rewrite drop_ge by lia. rewrite app_nil_r.
        rewrite <- (take_drop i l) at 2. rewrite List.filter_app.
        rewrite (drop_S _ _ _ Hi), drop_ge by lia. simpl.
        rewrite Hname. simpl. by rewrite app_nil_r, is_hkg_filter_all.
      * rewrite drop_non_hkg_short; [done|lia|].
        rewrite length_app, length_take, length_drop. lia.
Qed.

(** C4, on the code.  [README] is listed before [hello.hkg]: the loop
    removes it at index 0, and at index 1 the list, now one entry long,
    is read out of range.  [update_repo] ends in [IndexError], and no
    metadata is read. *)
Theorem update_repo_index_error :
  Os.listdir Sample.repo Sample.repo_world
    = (Ret ["packages.hdb"; "README"; "hello.hkg"], Sample.repo_world)
  /\ drop_non_hkg ["README"; "hello.hkg"] 0 2 = Raise IndexError
  /\ update_repo Sample.repo Sample.repo_world = (Raise IndexError, Sample.repo_world).
Proof. repeat split. Qed.

(** ** Installation *)

(** C1, on the code.  The archive of [broken] has no [etc] directory:
    after the extraction [bin_target.remove('etc')] raises [ValueError],
    and [install_package] ends in that exception, not in the [False] its
    malformed-package branch returns.  The [version] action of the store
    on an unknown name and the clean-up loop of [update_repo] end in
    exceptions as well. *)
Theorem install_package_missing_etc_raises :
  Sample.net "http://repo/broken.hkg"
    = Ret (Sample.archive_of "broken" "0.1"
             [(["lib"], MDir); (["broken.sh"], MFile (Data "exit"))])
  /\ fst (install_package Sample.user Sample.net "broken" "" Sample.fresh_home)
    = Raise ValueError
  /\ fst (package_database_api Sample.test_hdb "version" "AVAILABLE" "nothere" "0"
           Sample.store_world)
    = Raise KeyError
  /\ fst (update_repo Sample.repo Sample.repo_world) = Raise IndexError.
Proof. repeat split; vm_compute; reflexivity. Qed.

Lemma dirname_child (d : path) (name : string) : dirname (d ++ [name]) = d.
Proof. unfold dirname. apply removelast_last. Qed.

(** Opening for writing a path that is free, or that holds a regular
    file. *)
Lemma open_w_regular (w : world) (target : path) :
  isdir w (dirname target) = true ->
  lstat w target = None \/ (exists old, lstat w target = Some (File old)) ->
  Os.open_w target w
  = (Ret target,
     World (Dict.set target (File empty_file) (files w)) (opened w ++ [target])).
Proof.
  intros Hdir Hfree. unfold Os.open_w, realpath.
  destruct Hfree as [Hnone|[old Hold]].
  - rewrite Hnone. by rewrite Hnone, Hdir.
  - rewrite Hold. by rewrite Hold.
Qed.

(** The search loop of [install_package] passes over every source for
    which the request ends in the builtin [ConnectionError] or whose
    [AVAILABLE] section does not list the package, without any effect;
    it stops at the first source [s] that lists the package, whatever
    comes after it, and writes the archive fetched from [s] to
    [~/.cache/hkg/<pkg_name>.hkg]. *)
Lemma install_fetch_first_match :
  forall (home : path) (requests_get : string -> result content)
         (pkg_name : string) (before : list string) (s : string)
         (after : list string) (store : config) (available : options)
         (archive : content) (w : world),
    Forall (fun u =>
              requests_get (u +:+ "/packages.hdb") = Raise ConnectionError
              \/ exists c o,
                   requests_get (u +:+ "/packages.hdb") = Ret (Plain (Config c))
                   /\ Dict.get "AVAILABLE" c = Some o
                   /\ pkg_name ∉ Dict.keys o) before ->
    requests_get (s +:+ "/packages.hdb") = Ret (Plain (Config store)) ->
    Dict.get "AVAILABLE" store = Some available ->
    pkg_name ∈ Dict.keys available ->
    requests_get (s +:+ "/" +:+ pkg_name +:+ ".hkg") = Ret archive ->
    isdir w (cache_dir home) = true ->
    (lstat w (cache_dir home ++ [pkg_name +:+ ".hkg"]) = None
     \/ exists old, lstat w (cache_dir home ++ [pkg_name +:+ ".hkg"]) = Some (File old)) ->
    install_fetch home requests_get pkg_name (before ++ s :: after) w
    = (Ret (Some (cache_dir home ++ [pkg_name +:+ ".hkg"])),
       World (Dict.set (cache_dir home ++ [pkg_name +:+ ".hkg"]) (File archive) (files w))
             (opened w ++ [cache_dir home ++ [pkg_name +:+ ".hkg"]])).
Proof.
  intros home requests_get pkg_name before s after store available archive w
    Hbefore Hstore Havail Hin Harchive Hcache Hfree.
  induction Hbefore as [|u before Hu _ IH]; simpl.
  - rewrite Hstore. unfold mbind, M_bind, lift. simpl.
    unfold ConfigParser.keys, section. rewrite Havail.
    apply contains_true in Hin. rewrite Hin, Harchive.
    rewrite open_w_regular by (by rewrite ?dirname_child).
    unfold Os.write, set_node, mret, M_ret. simpl.
    by rewrite dict_set_set.
  - destruct Hu as [->|(c & o & -> & Ho & Hnin)]; [exact IH|].
    unfold mbind, M_bind, lift. simpl.
    unfold ConfigParser.keys, section. rewrite Ho.
    apply contains_false in Hnin. by rewrite Hnin.
Qed.

Lemma install_fetch_first_match_witness :
  install_fetch Sample.user Sample.net "hello"
    (["http://down"; "http://other"] ++ "http://repo" :: ["http://down"])
    Sample.hello_home
  = (Ret (Some (cache_dir Sample.user ++ ["hello" +:+ ".hkg"])),
     World (Dict.set (cache_dir Sample.user ++ ["hello" +:+ ".hkg"])
              (File (Sample.archive_of "hello" "1.2" (Sample.hello_inner "colour = blue")))
              (files Sample.hello_home))
           (opened Sample.hello_home ++ [cache_dir Sample.user ++ ["hello" +:+ ".hkg"]])).
Proof.
  apply (install_fetch_first_match Sample.user Sample.net "hello"
           ["http://down"; "http://other"] "http://repo" ["http://down"]
           [("INSTALLED", []); ("AVAILABLE", [("hello", "1.2"); ("broken", "0.1")])]
           [("hello", "1.2"); ("broken", "0.1")]).
  - apply Forall_cons. split; [left; reflexivity|].
    apply Forall_cons. split; [|by apply Forall_nil].
    right. exists [("INSTALLED", []); ("AVAILABLE", [("tool", "2.0")])], [("tool", "2.0")].
    split; [reflexivity|]. split; [reflexivity|].
    intros Hin. apply list_elem_of_singleton in Hin. discriminate Hin.
  - reflexivity.
  - reflexivity.
  - apply elem_of_cons. left. reflexivity.
  - reflexivity.
  - reflexivity.
  - left. reflexivity.
Defined.

(** Only [ConnectionError] is caught in the loop: any other exception of
    the request for the store of a source ends the search, and the
    sources after it are not tried. *)
Lemma install_fetch_other_exception home requests_get pkg_name s rest e w :
  requests_get (s +:+ "/packages.hdb") = Raise e ->
  e <> ConnectionError ->
  install_fetch home requests_get pkg_name (s :: rest) w = (Raise e, w).
Proof.
  intros Hget Hne. simpl. rewrite Hget. by destruct e.
Qed.

(** When the request for every source ends in the builtin
    [ConnectionError] the loop runs into its [else] branch and nothing
    is written. *)
Lemma install_fetch_all_down home requests_get pkg_name sources w :
  Forall (fun u => requests_get (u +:+ "/packages.hdb") = Raise ConnectionError)
         sources ->
  install_fetch home requests_get pkg_name sources w = (Ret None, w).
Proof.
  induction 1 as [|u sources Hu _ IH]; simpl; [done|].
  by rewrite Hu.
Qed.

(** C2, on the code.  For a source that cannot be reached [requests.get]
    raises [requests.exceptions.ConnectionError]; the handler of the
    search loop names the builtin [ConnectionError], which is another
    class.  With the first of the three configured sources unreachable
    and the third one listing [hello], [install_package] ends in that
    exception: the sources after the first are not tried and nothing is
    downloaded.  The same call returns [True] when the request for the
    first source ends in the builtin class. *)
Theorem install_package_unreachable_source_raises :
  ConfigParser.keys Sample.sources_conf "SOURCES"
    = Ret ["http://down"; "http://other"; "http://repo"]
  /\ Sample.unreachable "http://down/packages.hdb"
     = Raise Sample.requests_ConnectionError
  /\ Sample.unreachable "http://repo/packages.hdb"
     = Ret (Plain (Config [("INSTALLED", []);
                           ("AVAILABLE", [("hello", "1.2"); ("broken", "0.1")])]))
  /\ fst (install_package Sample.user Sample.unreachable "hello" "" Sample.fresh_home)
     = Raise Sample.requests_ConnectionError
  /\ lstat (snd (install_package Sample.user Sample.unreachable "hello" ""
                   Sample.fresh_home))
       (cache_dir Sample.user ++ ["hello.hkg"]) = None
  /\ fst (install_package Sample.user Sample.net "hello" "" Sample.fresh_home)
     = Ret (VBool true).
Proof. repeat split; vm_compute; reflexivity. Qed.

(** ** Repository synchronisation *)

(** *** The store file within the world *)

Lemma store_at_read w db c : store_at w db c -> read_config db w = (Ret c, w).
Proof. unfold store_at, read_config, stat. by intros ->. Qed.

Lemma read_store_at w db c sec :
  read_config db w = (Ret c, w) -> is_Some (Dict.get sec c) -> store_at w db c.
Proof. apply read_config_section. Qed.

Lemma store_at_nonempty w db c : store_at w db c -> realpath w db <> [].
Proof. unfold store_at. intros H E. rewrite E in H. discriminate. Qed.

Lemma store_at_get w db c :
  store_at w db c ->
  Dict.get (realpath w db) (files w) = Some (File (Plain (Config c))).
Proof. apply lstat_file_get. Qed.

Section WithStore.
Context (w : world) (db : path) (c0 : config).
Hypothesis Hstore : store_at w db c0.

Lemma with_store_lstat_ne c log q :
  q <> realpath w db -> lstat (with_store w db c log) q = lstat w q.
Proof.
  intros Hne. unfold lstat, with_store. simpl.
  destruct q; [done|]. by rewrite dict_get_set_ne.
Qed.

Lemma with_store_lstat_eq c log :
  lstat (with_store w db c log) (realpath w db) = Some (File (Plain (Config c))).
Proof.
  pose proof (store_at_nonempty _ _ _ Hstore) as Hne.
  unfold lstat, with_store. simpl.
  destruct (realpath w db); [done|]. by rewrite dict_get_set_eq.
Qed.

Lemma with_store_realpath c log p :
  realpath (with_store w db c log) p = realpath w p.
Proof.
  unfold realpath at 1.
  destruct (decide (p = realpath w db)) as [->|Hne].
  - rewrite with_store_lstat_eq. symmetry. unfold realpath at 1.
    unfold store_at in Hstore. by rewrite Hstore.
  - by rewrite with_store_lstat_ne.
Qed.

Lemma with_store_store_at c log : store_at (with_store w db c log) db c.
Proof. unfold store_at. rewrite with_store_realpath. apply with_store_lstat_eq. Qed.

Lemma with_store_again c log c' log' :
  with_store (with_store w db c log) db c' log' = with_store w db c' log'.
Proof.
  unfold with_store at 1. rewrite with_store_realpath.
  unfold with_store. simpl. by rewrite dict_set_set.
Qed.

Lemma with_store_self : with_store w db c0 (opened w) = w.
Proof.
  unfold with_store. rewrite dict_set_id by (by apply store_at_get).
  by destruct w.
Qed.

Lemma with_store_keys c log :
  Dict.keys (files (with_store w db c log)) = Dict.keys (files w).
Proof.
  unfold with_store. simpl. apply dict_keys_set_present.
  apply dict_get_is_Some. rewrite (store_at_get _ _ _ Hstore). by eexists.
Qed.

(** The kind of node found at a path does not depend on what the store
    holds. *)
Lemma with_store_stat c log p :
  stat (with_store w db c log) p = stat w p
  \/ (exists d, stat w p = Some (File (Plain (Config d))))
     /\ stat (with_store w db c log) p = Some (File (Plain (Config c))).
Proof.
  unfold stat. rewrite with_store_realpath.
  destruct (decide (realpath w p = realpath w db)) as [Heq|Hne].
  - right. rewrite Heq, with_store_lstat_eq.
    unfold store_at in Hstore. rewrite Hstore. split; [by eexists|done].
  - left. by rewrite with_store_lstat_ne.
Qed.

Lemma with_store_isfile c log p :
  isfile (with_store w db c log) p = isfile w p.
Proof.
  unfold isfile.
  destruct (with_store_stat c log p) as [->|[[d ->] ->]]; done.
Qed.

End WithStore.

(** *** The actions of the store, on a world that has one *)

Lemma open_w_store w db c :
  store_at w db c ->
  Os.open_w db w
  = (Ret (realpath w db),
     World (Dict.set (realpath w db) (File empty_file) (files w)) (opened w ++ [db])).
Proof. unfold store_at, Os.open_w. by intros ->. Qed.

Lemma api_check w db c sec n v :
  store_at w db c ->
  package_database_api db "check" sec n v w
  = (match ConfigParser.keys c sec with
     | Ret ks => Ret (VBool (contains n ks))
     | Raise e => Raise e
     end, w).
Proof.
  intros Hstore. unfold package_database_api, mbind, M_bind.
  rewrite (store_at_read _ _ _ Hstore). simpl. unfold lift.
  by destruct (ConfigParser.keys c sec).
Qed.

Lemma api_version w db c sec n v :
  store_at w db c ->
  package_database_api db "version" sec n v w
  = (match getitem c sec n with
     | Ret old => Ret (VStr old)
     | Raise e => Raise e
     end, w).
Proof.
  intros Hstore. unfold package_database_api, mbind, M_bind.
  rewrite (store_at_read _ _ _ Hstore). simpl. unfold lift.
  by destruct (getitem c sec n).
Qed.

Lemma api_assign w db c sec o n v action :
  store_at w db c ->
  Dict.get sec c = Some o ->
  action = "create" \/ action = "update" ->
  package_database_api db action sec n v w
  = (Ret (VBool true),
     with_store w db (Dict.set sec (Dict.set (optionxform n) v o) c)
       (opened w ++ [db])).
Proof.
  intros Hstore Ho Haction. unfold package_database_api, mbind, M_bind.
  rewrite (store_at_read _ _ _ Hstore).
  destruct Haction as [-> | ->]; simpl; unfold lift;
    rewrite (setitem_section _ _ _ _ _ Ho), (open_w_store _ _ _ Hstore);
    unfold Os.write, set_node, mret, M_ret, with_store; simpl;
    by rewrite dict_set_set.
Qed.

Lemma api_delete w db c sec o n v :
  store_at w db c ->
  Dict.get sec c = Some o ->
  package_database_api db "delete" sec n v w
  = (Ret (VBool true),
     with_store w db (Dict.set sec (Dict.del (optionxform n) o) c)
       (opened w ++ [db])).
Proof.
  intros Hstore Ho. unfold package_database_api, mbind, M_bind.
  rewrite (store_at_read _ _ _ Hstore). simpl. unfold lift.
  rewrite (setitem_section _ _ _ _ _ Ho), (open_w_store _ _ _ Hstore).
  unfold delitem. rewrite dict_get_set_eq.
  assert (Dict.mem (optionxform n) (Dict.set (optionxform n) v o) = true) as ->.
  { apply dict_mem_true, dict_elem_of_keys_set. by left. }
  unfold Os.write, set_node, mret, M_ret, with_store. simpl.
  by rewrite !dict_set_set, dict_del_set.
Qed.

(** An action that fails to find its section leaves the world alone. *)
Lemma api_missing_section w db c sec n v action :
  store_at w db c ->
  Dict.get sec c = None ->
  action = "check" \/ action = "create" ->
  package_database_api db action sec n v w = (Raise KeyError, w).
Proof.
  intros Hstore Ho Haction. unfold package_database_api, mbind, M_bind.
  rewrite (store_at_read _ _ _ Hstore).
  destruct Haction as [-> | ->]; simpl; unfold lift, ConfigParser.keys, section, setitem;
    by rewrite Ho.
Qed.

(** *** The scan of the directory does not depend on the store *)

Lemma children_keys fs fs' d :
  Dict.keys fs = Dict.keys fs' -> children fs d = children fs' d.
Proof.
  unfold Dict.keys, children. revert fs'.
  induction fs as [|[q n] fs IH]; intros [|[q' n'] fs']; simpl; try done.
  intros [= -> Hkeys].
  change (list_omap _ _ (child_name d) fs) with (omap (child_name d) fs).
  change (list_omap _ _ (child_name d) fs') with (omap (child_name d) fs').
  rewrite (IH fs' Hkeys).
  by change (child_name d (q', n)) with (child_name d (q', n')).
Qed.

Section Oblivious.
Context (w : world) (db : path) (c0 : config).
Hypothesis Hstore : store_at w db c0.

Lemma oblivious_readonly {A : Type} (m : M A) :
  oblivious w db m -> m w = (fst (m w), w).
Proof.
  intros Hm. specialize (Hm c0 (opened w)).
  by rewrite (with_store_self _ _ _ Hstore) in Hm.
Qed.

Lemma oblivious_ret {A : Type} (a : A) : oblivious w db (mret a).
Proof. by intros c log. Qed.

Lemma oblivious_lift {A : Type} (r : result A) : oblivious w db (lift r).
Proof. by intros c log. Qed.

Lemma oblivious_bind {A B : Type} (m : M A) (k : A -> M B) :
  oblivious w db m -> (forall a, oblivious w db (k a)) ->
  oblivious w db (m ≫= k).
Proof.
  intros Hm Hk c log. unfold mbind, M_bind.
  rewrite (Hm c log), (oblivious_readonly m Hm).
  destruct (fst (m w)) as [a|e]; [apply Hk|done].
Qed.

Lemma oblivious_listdir p : oblivious w db (Os.listdir p).
Proof.
  intros c log. unfold Os.listdir.
  rewrite (with_store_realpath _ _ _ Hstore).
  rewrite (children_keys _ (files w)) by apply (with_store_keys _ _ _ Hstore).
  destruct (with_store_stat _ _ _ Hstore c log p) as [->|[[d Hd] ->]].
  - by destruct (stat w p) as [[| |]|].
  - by rewrite Hd.
Qed.

Lemma oblivious_open_r p : oblivious w db (Tarfile.open_r p).
Proof.
  intros c log. unfold Tarfile.open_r.
  destruct (with_store_stat _ _ _ Hstore c log p) as [->|[[d Hd] ->]].
  - by destruct (stat w p) as [[|[|]|]|].
  - by rewrite Hd.
Qed.

Lemma oblivious_archive_version repo i :
  oblivious w db (archive_version repo i).
Proof.
  unfold archive_version.
  apply oblivious_bind; [apply oblivious_open_r|]. intros ms.
  apply oblivious_bind; [apply oblivious_lift|]. intros d.
  apply oblivious_bind; [apply oblivious_lift|]. intros c.
  apply oblivious_lift.
Qed.

Lemma oblivious_read_versions repo l d :
  oblivious w db (read_versions repo l d).
Proof.
  revert d. induction l as [|i l IH]; intros d; simpl.
  - apply oblivious_ret.
  - apply oblivious_bind; [apply oblivious_archive_version|]. intros v. apply IH.
Qed.

Lemma oblivious_repo_versions repo : oblivious w db (repo_versions repo).
Proof.
  unfold repo_versions.
  apply oblivious_bind; [apply oblivious_listdir|]. intros l0.
  apply oblivious_bind; [apply oblivious_lift|]. intros l1.
  apply oblivious_bind.
  - destruct (Nat.ltb 0 (length l1)); [apply oblivious_lift|apply oblivious_ret].
  - intros l2. apply oblivious_read_versions.
Qed.

End Oblivious.

(** *** Reconciliation *)

Lemma ascii_compare_refl (a : ascii) : Ascii.compare a a = Eq.
Proof. unfold Ascii.compare. apply N.compare_refl. Qed.

Lemma string_compare_refl (s : string) : String.compare s s = Eq.
Proof. induction s as [|a s IH]; simpl; [done|]. by rewrite ascii_compare_refl. Qed.

Lemma str_gt_irrefl (v : string) : str_gt v v = false.
Proof. unfold str_gt, String.ltb. by rewrite string_compare_refl. Qed.

Lemma up_to_date_set_other o e n v :
  fst e <> n -> up_to_date o e -> up_to_date (Dict.set n v o) e.
Proof.
  intros Hne [Hin (stored & Hget & Hgt)]. split.
  - apply dict_elem_of_keys_set. by right.
  - exists stored. by rewrite dict_get_set_ne.
Qed.

Lemma up_to_date_del_other o e k :
  fst e <> k -> up_to_date o e -> up_to_date (Dict.del k o) e.
Proof.
  intros Hne [Hin (stored & Hget & Hgt)]. split.
  - by apply dict_elem_of_keys_del.
  - exists stored. by rewrite dict_get_del_ne.
Qed.

Lemma available_at_with_store w db c0 c o log :
  store_at w db c0 ->
  Dict.get "AVAILABLE" c = Some o ->
  available_at (with_store w db c log) db o.
Proof. intros Hstore Ho. exists c. split; [by eapply with_store_store_at|done]. Qed.

(** One round of the first loop: the store gains or refreshes the
    entry, or stays as it is. *)
Lemma add_or_update_step W db o n v r W' :
  available_at W db o ->
  optionxform n = n ->
  add_or_update db (n, v) W = (r, W') ->
  r = Ret tt
  /\ exists o',
       available_at W' db o'
       /\ (o' = o /\ W' = W
           \/ o' = Dict.set n v o /\ exists c, W' = with_store W db c (opened W ++ [db]))
       /\ up_to_date o' (n, v).
Proof.
  intros (c & Hstore & Ho) Hn. unfold add_or_update, mbind, M_bind. simpl fst. simpl snd.
  rewrite (api_check _ _ _ _ _ _ Hstore).
  unfold ConfigParser.keys, section. rewrite Ho.
  assert (forall action, action = "create" \/ action = "update" ->
            package_database_api db action "AVAILABLE" n v W
            = (Ret (VBool true),
               with_store W db (Dict.set "AVAILABLE" (Dict.set n v o) c)
                 (opened W ++ [db]))) as Hassign.
  { intros action Haction.
    rewrite (api_assign _ _ _ _ _ _ _ _ Hstore Ho Haction). by rewrite Hn. }
  assert (exists o',
            available_at
              (with_store W db (Dict.set "AVAILABLE" (Dict.set n v o) c) (opened W ++ [db]))
              db o'
            /\ (o' = o /\
                with_store W db (Dict.set "AVAILABLE" (Dict.set n v o) c) (opened W ++ [db]) = W
                \/ o' = Dict.set n v o /\
                   exists c',
                     with_store W db (Dict.set "AVAILABLE" (Dict.set n v o) c) (opened W ++ [db])
                     = with_store W db c' (opened W ++ [db]))
            /\ up_to_date o' (n, v)) as Hwritten.
  { exists (Dict.set n v o). split; [|split].
    - eapply available_at_with_store; [done|]. by rewrite dict_get_set_eq.
    - right. split; [done|]. by eexists.
    - split; simpl.
      + apply dict_elem_of_keys_set. by left.
      + exists v. rewrite dict_get_set_eq. split; [done|apply str_gt_irrefl]. }
  destruct (contains n (Dict.keys o)) eqn:Hknown; simpl.
  - rewrite (api_version _ _ _ _ _ _ Hstore).
    unfold getitem. rewrite Ho, Hn.
    apply contains_true in Hknown.
    destruct (Dict.get n o) as [old|] eqn:Hold.
    2:{ apply dict_get_None in Hold. done. }
    destruct (str_gt v old) eqn:Hgt.
    + rewrite (Hassign "update") by (by right). simpl.
      intros [= <- <-]. split; [done|]. exact Hwritten.
    + intros [= <- <-]. split; [done|]. exists o. split; [by exists c|].
      split; [by left|]. split; [done|]. by exists old.
  - rewrite (Hassign "create") by (by left). simpl.
    intros [= <- <-]. split; [done|]. exact Hwritten.
Qed.

(** One round of the second loop. *)
Lemma delete_stale_step W db o on_disk k r W' :
  available_at W db o ->
  optionxform k = k ->
  delete_stale db on_disk k W = (r, W') ->
  r = Ret tt
  /\ exists o',
       available_at W' db o'
       /\ (o' = o /\ W' = W /\ k ∈ on_disk
           \/ o' = Dict.del k o /\ (k ∉ on_disk)
              /\ exists c, W' = with_store W db c (opened W ++ [db])).
Proof.
  intros (c & Hstore & Ho) Hk. unfold delete_stale.
  destruct (contains k on_disk) eqn:Hdisk; simpl.
  - intros [= <- <-]. split; [done|]. exists o. split; [by exists c|].
    left. by apply contains_true in Hdisk.
  - unfold mbind, M_bind. rewrite (api_delete _ _ _ _ _ _ _ Hstore Ho), Hk. simpl.
    intros [= <- <-]. split; [done|]. exists (Dict.del k o). split.
    + eapply available_at_with_store; [done|]. by rewrite dict_get_set_eq.
    + right. split; [done|]. split; [by apply contains_false|by eexists].
Qed.

Lemma for_each_cons {A : Type} (x : A) (l : list A) (body : A -> M unit) W :
  for_each (x :: l) body W
  = match body x W with
    | (Ret _, W1) => for_each l body W1
    | (Raise e, W1) => (Raise e, W1)
    end.
Proof. reflexivity. Qed.

(** The first loop, run to its end: every entry of the dictionary is
    up to date, and the world differs from the one before by its store
    only. *)
Lemma add_or_update_all db d :
  forall W o r W',
    available_at W db o ->
    normal_names (Dict.keys d) ->
    NoDup (Dict.keys d) ->
    for_each d (add_or_update db) W = (r, W') ->
    r = Ret tt
    /\ exists o',
         available_at W' db o'
         /\ (exists c log, W' = with_store W db c log)
         /\ Forall (up_to_date o') d
         /\ (forall k, k ∈ Dict.keys o' -> k ∈ Dict.keys o \/ k ∈ Dict.keys d)
         /\ (forall e, fst e ∉ Dict.keys d -> up_to_date o e -> up_to_date o' e).
Proof.
  induction d as [|[n v] d IH]; intros W o r W' Havail Hnormal Hnodup.
  - simpl. intros [= <- <-]. split; [done|]. exists o. split; [done|].
    destruct Havail as (c & Hstore & Ho). split.
    { exists c, (opened W). by rewrite (with_store_self _ _ _ Hstore). }
    split; [by apply Forall_nil|]. split; [by left|done].
  - rewrite for_each_cons.
    destruct (add_or_update db (n, v) W) as [r1 W1] eqn:Hstep.
    unfold normal_names, Dict.keys in Hnormal. simpl in Hnormal.
    apply Forall_cons in Hnormal as [Hn Hnormal].
    unfold Dict.keys in Hnodup. simpl in Hnodup.
    apply NoDup_cons in Hnodup as [Hfresh Hnodup].
    destruct (add_or_update_step _ _ _ _ _ _ _ Havail Hn Hstep)
      as (-> & o1 & Havail1 & Hshape & Hnow).
    intros Hrest.
    destruct (IH W1 o1 r W' Havail1 Hnormal Hnodup Hrest)
      as (-> & o' & Havail' & (c' & log' & HW') & Hall & Hkeys & Hkeep).
    split; [done|]. exists o'. split; [done|].
    destruct Havail as (c & Hstore & Ho).
    split; [|split; [|split]].
    + destruct Hshape as [[-> ->]|[-> [c1 ->]]]; [by eauto|].
      rewrite (with_store_again _ _ _ Hstore) in HW'. eauto.
    + apply Forall_cons. split; [|done]. by apply Hkeep.
    + intros k Hk. unfold Dict.keys at 2. simpl. rewrite elem_of_cons.
      destruct (Hkeys k Hk) as [Hk1|Hk1]; [|by right; right].
      destruct Hshape as [[-> _]|[-> _]]; [by left|].
      apply dict_elem_of_keys_set in Hk1 as [->|?]; [right; by left|by left].
    + intros e He Hup. unfold Dict.keys in He. simpl in He.
      apply not_elem_of_cons in He as [Hne He].
      apply Hkeep; [done|].
      destruct Hshape as [[-> _]|[-> _]]; [done|]. by apply up_to_date_set_other.
Qed.

(** The second loop, run to its end: no name is left in the section
    that is both in the list walked and off the disk. *)
Lemma delete_stale_all db on_disk ks :
  forall W o r W',
    available_at W db o ->
    normal_names ks ->
    for_each ks (delete_stale db on_disk) W = (r, W') ->
    r = Ret tt
    /\ exists o',
         available_at W' db o'
         /\ (exists c log, W' = with_store W db c log)
         /\ (forall k, k ∈ Dict.keys o' ->
               k ∈ Dict.keys o /\ (k ∈ ks -> k ∈ on_disk))
         /\ (forall e, fst e ∈ on_disk -> up_to_date o e -> up_to_date o' e).
Proof.
  induction ks as [|k ks IH]; intros W o r W' Havail Hnormal.
  - simpl. intros [= <- <-]. split; [done|]. exists o. split; [done|].
    destruct Havail as (c & Hstore & Ho). split.
    { exists c, (opened W). by rewrite (with_store_self _ _ _ Hstore). }
    split; [|done]. intros k Hk. split; [done|]. by intros ?%elem_of_nil.
  - rewrite for_each_cons.
    destruct (delete_stale db on_disk k W) as [r1 W1] eqn:Hstep.
    apply Forall_cons in Hnormal as [Hk Hnormal].
    destruct (delete_stale_step _ _ _ _ _ _ _ Havail Hk Hstep)
      as (-> & o1 & Havail1 & Hshape).
    intros Hrest.
    destruct (IH W1 o1 r W' Havail1 Hnormal Hrest)
      as (-> & o' & Havail' & (c' & log' & HW') & Hkeys & Hkeep).
    split; [done|]. exists o'. split; [done|].
    destruct Havail as (c & Hstore & Ho).
    split; [|split].
    + destruct Hshape as [(-> & -> & _)|(-> & _ & c1 & ->)]; [by eauto|].
      rewrite (with_store_again _ _ _ Hstore) in HW'. eauto.
    + intros k' Hk'. destruct (Hkeys k' Hk') as [Hk1 Hdisk].
      destruct Hshape as [(-> & _ & Hin)|(-> & _ & _)].
      * split; [done|]. intros [->|?]%elem_of_cons; auto.
      * apply dict_elem_of_keys_del in Hk1 as [Hne Hk1].
        split; [done|]. intros [->|?]%elem_of_cons; [done|auto].
    + intros e He Hup. apply Hkeep; [done|].
      destruct Hshape as [(-> & _ & _)|(-> & Hoff & _)]; [done|].
      apply up_to_date_del_other; [|done]. intros E. by rewrite E in He.
Qed.

(** On a store where every entry is up to date the first loop writes
    nothing. *)
Lemma add_or_update_noop W db o d :
  available_at W db o ->
  normal_names (Dict.keys d) ->
  Forall (up_to_date o) d ->
  for_each d (add_or_update db) W = (Ret tt, W).
Proof.
  intros (c & Hstore & Ho). induction d as [|[n v] d IH]; [done|].
  intros [Hn Hnormal]%Forall_cons [(Hin & stored & Hget & Hgt) Hall]%Forall_cons.
  simpl in Hn, Hin, Hget, Hgt.
  rewrite for_each_cons.
  assert (add_or_update db (n, v) W = (Ret tt, W)) as ->; [|by apply IH].
  unfold add_or_update, mbind, M_bind. simpl fst. simpl snd.
  rewrite (api_check _ _ _ _ _ _ Hstore).
  unfold ConfigParser.keys, section. rewrite Ho.
  apply contains_true in Hin. rewrite Hin. simpl.
  rewrite (api_version _ _ _ _ _ _ Hstore).
  unfold getitem. by rewrite Ho, Hn, Hget, Hgt.
Qed.

(** And the second loop writes nothing when every name walked is on
    the disk. *)
Lemma delete_stale_noop W db on_disk ks :
  Forall (fun k => k ∈ on_disk) ks ->
  for_each ks (delete_stale db on_disk) W = (Ret tt, W).
Proof.
  induction 1 as [|k ks Hk _ IH]; [done|].
  rewrite for_each_cons. unfold delete_stale at 1.
  apply contains_true in Hk. by rewrite Hk.
Qed.

(** *** What the scan returns *)

Lemma open_r_world p w : snd (Tarfile.open_r p w) = w.
Proof. unfold Tarfile.open_r. by destruct (stat w p) as [[|[|]|]|]. Qed.

Lemma archive_version_world repo i w : snd (archive_version repo i w) = w.
Proof.
  unfold archive_version, mbind, M_bind, lift.
  pose proof (open_r_world (repo ++ [i]) w) as Hw.
  destruct (Tarfile.open_r (repo ++ [i]) w) as [[ms|e] w']; simpl in Hw; subst w'; [|done].
  destruct (Tarfile.read_member ms _) as [d|e]; [|done].
  by destruct (read_string d) as [c|e].
Qed.

Lemma read_versions_world repo l d w : snd (read_versions repo l d w) = w.
Proof.
  revert d. induction l as [|i l IH]; intros d; simpl; [done|].
  unfold mbind, M_bind.
  pose proof (archive_version_world repo i w) as Hw.
  destruct (archive_version repo i w) as [[v|e] w']; simpl in Hw; subst w'; [|done].
  apply IH.
Qed.

Lemma repo_versions_world repo w : snd (repo_versions repo w) = w.
Proof.
  unfold repo_versions, mbind, M_bind, lift.
  pose proof (listdir_world repo w) as Hw.
  destruct (Os.listdir repo w) as [[l0|e] w']; simpl in Hw; subst w'; [|done].
  destruct (list_remove "packages.hdb" l0) as [l1|e]; [|done].
  destruct (Nat.ltb 0 (length l1)).
  - destruct (drop_non_hkg l1 0 (length l1)) as [l2|e]; [|done].
    apply read_versions_world.
  - apply read_versions_world.
Qed.

Lemma list_remove_subseteq x l l' : list_remove x l = Ret l' -> l' ⊆ l.
Proof.
  revert l'. induction l as [|y l IH]; intros l'; simpl; [done|].
  destruct (String.eqb y x).
  - intros [= <-]. by apply list_subseteq_cons.
  - destruct (list_remove x l) as [r|e]; [|done].
    intros [= <-]. intros z [->|Hz]%elem_of_cons; [by left|].
    right. by apply (IH r).
Qed.

(** The names in the dictionary are names of [.hkg] entries of the
    directory, without their suffix; no name comes twice. *)
Lemma read_versions_keys repo l :
  forall d0 w d w',
    read_versions repo l d0 w = (Ret d, w') ->
    NoDup (Dict.keys d0) ->
    NoDup (Dict.keys d)
    /\ forall k, k ∈ Dict.keys d ->
         k ∈ Dict.keys d0 \/ exists i, i ∈ l /\ k = slice_but_last 4 i.
Proof.
  induction l as [|i l IH]; intros d0 w d w'; simpl.
  - intros [= <- <-] Hnd. split; [done|]. by left.
  - unfold mbind, M_bind.
    destruct (archive_version repo i w) as [[v|e] w1]; [|done].
    intros Hrest Hnd.
    destruct (IH _ _ _ _ Hrest (dict_keys_NoDup_set _ v _ Hnd)) as [Hnd' Hkeys].
    split; [done|]. intros k Hk.
    destruct (Hkeys k Hk) as [Hk0|(j & Hj & ->)].
    + apply dict_elem_of_keys_set in Hk0 as [->|?]; [|by left].
      right. exists i. split; [by left|done].
    + right. exists j. split; [by right|done].
Qed.

Lemma repo_versions_keys repo w d w' :
  repo_versions repo w = (Ret d, w') ->
  NoDup (Dict.keys d)
  /\ exists names,
       Os.listdir repo w = (Ret names, w)
       /\ forall k, k ∈ Dict.keys d ->
            exists i, i ∈ names /\ is_hkg i = true /\ k = slice_but_last 4 i.
Proof.
  unfold repo_versions, mbind, M_bind, lift.
  pose proof (listdir_world repo w) as Hw.
  destruct (Os.listdir repo w) as [[l0|e] w0]; simpl in Hw; subst w0; [|done].
  destruct (list_remove "packages.hdb" l0) as [l1|e] eqn:Hl1; [|done].
  apply list_remove_subseteq in Hl1.
  assert (forall l2, l2 = List.filter is_hkg l1 ->
            read_versions repo l2 [] w = (Ret d, w') ->
            NoDup (Dict.keys d)
            /\ exists names,
                 (Ret l0 : result (list string), w) = (Ret names, w)
                 /\ forall k, k ∈ Dict.keys d ->
                      exists i, i ∈ names /\ is_hkg i = true /\ k = slice_but_last 4 i)
    as Hscan.
  { intros l2 -> Hread.
    destruct (read_versions_keys _ _ _ _ _ _ Hread) as [Hnd Hkeys];
      [by apply NoDup_nil|].
    split; [done|]. exists l0. split; [done|]. intros k Hk.
    destruct (Hkeys k Hk) as [?%elem_of_nil|(i & Hi & ->)]; [done|].
    apply list_elem_of_In, List.filter_In in Hi as [Hi Hhkg].
    exists i. split; [|done]. apply Hl1. by apply list_elem_of_In. }
  destruct (Nat.ltb 0 (length l1)) eqn:Hlen.
  - destruct (drop_non_hkg l1 0 (length l1)) as [l2|e] eqn:Hl2; [|done].
    apply drop_non_hkg_filter in Hl2; [|done|by apply Forall_nil].
    by apply Hscan.
  - apply Nat.ltb_ge in Hlen. destruct l1; [|simpl in Hlen; lia].
    by apply Hscan.
Qed.

Lemma lower_slice_but_last n s : lower s = s -> lower (slice_but_last n s) = slice_but_last n s.
Proof.
  unfold lower, slice_but_last. intros Hs.
  apply (f_equal list_ascii_of_string) in Hs.
  rewrite list_ascii_of_string_of_list_ascii in Hs.
  rewrite list_ascii_of_string_of_list_ascii.
  rewrite <- List.firstn_map, Hs. done.
Qed.

(** *** Idempotence *)

Lemma read_config_of_file w db :
  isfile w db = true ->
  (exists c, store_at w db c) \/ read_config db w = (Raise ParsingError, w).
Proof.
  unfold isfile, store_at, read_config, stat.
  destruct (lstat w (realpath w db)) as [[|[[|]|]|]|]; try done; eauto.
Qed.

Lemma api_read_fails w db e action sec n v :
  read_config db w = (Raise e, w) ->
  package_database_api db action sec n v w = (Raise e, w).
Proof. intros Hread. unfold package_database_api, mbind, M_bind. by rewrite Hread. Qed.

(** A run of both loops that comes to its end has found a store with
    an [AVAILABLE] section. *)
Lemma reconcile_needs_available db d w wB c ks :
  isfile w db = true ->
  for_each d (add_or_update db) w = (Ret tt, wB) ->
  read_config db wB = (Ret c, wB) ->
  ConfigParser.keys c "AVAILABLE" = Ret ks ->
  exists o, available_at w db o.
Proof.
  intros Hfile Hloop Hread Hkeys.
  assert (is_Some (Dict.get "AVAILABLE" c)) as Hsec.
  { unfold ConfigParser.keys, section in Hkeys.
    destruct (Dict.get "AVAILABLE" c); [by eexists|done]. }
  destruct d as [|[n v] d].
  - simpl in Hloop. injection Hloop as <-.
    destruct Hsec as [o Ho]. exists o, c. split; [|done].
    eapply read_store_at; [done|by eexists].
  - rewrite for_each_cons in Hloop.
    destruct (read_config_of_file _ _ Hfile) as [[c0 Hstore]|Hbad].
    + destruct (Dict.get "AVAILABLE" c0) as [o|] eqn:Ho; [by exists o, c0|].
      unfold add_or_update, mbind, M_bind in Hloop. simpl fst in Hloop.
      rewrite (api_missing_section _ _ _ _ _ _ "check" Hstore Ho) in Hloop by (by left).
      done.
    + unfold add_or_update, mbind, M_bind in Hloop. simpl fst in Hloop.
      by rewrite (api_read_fails _ _ _ _ _ _ _ Hbad) in Hloop.
Qed.

(** The course of a run of [update_repo] that returns. *)
Lemma update_repo_returns repo w v w1 :
  update_repo repo w = (Ret v, w1) ->
  isfile w (packages_hdb repo) = false /\ v = VBool false /\ w1 = w
  \/ isfile w (packages_hdb repo) = true /\ v = VBool true
     /\ exists d wB cB ks,
          repo_versions repo w = (Ret d, w)
          /\ for_each d (add_or_update (packages_hdb repo)) w = (Ret tt, wB)
          /\ read_config (packages_hdb repo) wB = (Ret cB, wB)
          /\ ConfigParser.keys cB "AVAILABLE" = Ret ks
          /\ for_each ks (delete_stale (packages_hdb repo) (Dict.keys d)) wB
             = (Ret tt, w1).
Proof.
  unfold update_repo, mbind, M_bind, gets, lift.
  destruct (isfile w (packages_hdb repo)) eqn:Hfile; simpl.
  2:{ intros [= <- <-]. by left. }
  pose proof (repo_versions_world repo w) as HwA.
  destruct (repo_versions repo w) as [[d|e] wA] eqn:Hscan;
    simpl in HwA; subst wA; [|done].
  destruct (for_each d (add_or_update (packages_hdb repo)) w) as [[[]|e] wB] eqn:HloopB;
    [|done].
  pose proof (read_config_world (packages_hdb repo) wB) as HwB.
  destruct (read_config (packages_hdb repo) wB) as [[cB|e] wB'] eqn:Hread;
    simpl in HwB; subst wB'; [|done].
  destruct (ConfigParser.keys cB "AVAILABLE") as [ks|e] eqn:Hks; [|done].
  destruct (for_each ks (delete_stale (packages_hdb repo) (Dict.keys d)) wB)
    as [[[]|e] wC] eqn:HloopC; [|done].
  intros [= <- <-]. right. split; [done|]. split; [done|].
  by exists d, wB, cB, ks.
Qed.

Lemma update_repo_run repo w d wB cB ks w1 :
  isfile w (packages_hdb repo) = true ->
  repo_versions repo w = (Ret d, w) ->
  for_each d (add_or_update (packages_hdb repo)) w = (Ret tt, wB) ->
  read_config (packages_hdb repo) wB = (Ret cB, wB) ->
  ConfigParser.keys cB "AVAILABLE" = Ret ks ->
  for_each ks (delete_stale (packages_hdb repo) (Dict.keys d)) wB = (Ret tt, w1) ->
  update_repo repo w = (Ret (VBool true), w1).
Proof.
  intros Hfile Hscan HloopB Hread Hks HloopC.
  unfold update_repo, mbind, M_bind, gets, lift.
  rewrite Hfile. simpl. rewrite Hscan, HloopB, Hread, Hks. by rewrite HloopC.
Qed.

(** The names that the scan puts in the dictionary are in lower case
    when the package names of the archives on disk are, and come once
    each. *)
Lemma scan_names repo w d :
  (forall names, Os.listdir repo w = (Ret names, w) ->
     Forall (fun name => is_hkg name = true ->
               lower (slice_but_last 4 name) = slice_but_last 4 name) names) ->
  repo_versions repo w = (Ret d, w) ->
  normal_names (Dict.keys d) /\ NoDup (Dict.keys d).
Proof.
  intros Hnames Hscan.
  destruct (repo_versions_keys _ _ _ _ Hscan) as (Hnodup & names & Hlist & Hkeys).
  split; [|done]. apply Forall_forall. intros k Hk.
  destruct (Hkeys k Hk) as (i & Hi & Hhkg & ->).
  specialize (Hnames names Hlist). rewrite Forall_forall in Hnames.
  by apply Hnames.
Qed.

(** A run that returns is followed by a run that writes nothing. *)
Lemma update_repo_again repo w v w1 :
  (forall names, Os.listdir repo w = (Ret names, w) ->
     Forall (fun name => is_hkg name = true ->
               lower (slice_but_last 4 name) = slice_but_last 4 name) names) ->
  (forall c o, read_config (packages_hdb repo) w = (Ret c, w) ->
     Dict.get "AVAILABLE" c = Some o -> normal_names (Dict.keys o)) ->
  update_repo repo w = (Ret v, w1) ->
  update_repo repo w1 = (Ret v, w1).
Proof.
  intros Hnames Hnormal Hrun.
  destruct (update_repo_returns _ _ _ _ Hrun)
    as [(Hfile & -> & ->)|(Hfile & -> & d & wB & cB & ks & Hscan & HloopB & HreadB & Hks & HloopC)];
    [done|].
  set (db := packages_hdb repo) in *. rename w1 into wC.
  (* the store before the first run *)
  destruct (reconcile_needs_available _ _ _ _ _ _ Hfile HloopB HreadB Hks) as [o Havail].
  pose proof Havail as (c & Hstore & Ho).
  (* the names in the dictionary *)
  destruct (scan_names _ _ _ Hnames Hscan) as [Hd Hnodup].
  assert (normal_names (Dict.keys o)) as Ho_normal.
  { apply (Hnormal c); [by apply store_at_read|done]. }
  (* the first loop *)
  destruct (add_or_update_all db d w o _ _ Havail Hd Hnodup HloopB)
    as (_ & oB & HavailB & (cB' & logB & HwB) & HallB & HkeysB & _).
  assert (ks = Dict.keys oB) as ->.
  { destruct HavailB as (cB2 & HstoreB & HoB).
    rewrite (store_at_read _ _ _ HstoreB) in HreadB. injection HreadB as <-.
    unfold ConfigParser.keys, section in Hks. rewrite HoB in Hks. by injection Hks. }
  assert (normal_names (Dict.keys oB)) as HoB_normal.
  { apply Forall_forall. intros k Hk.
    unfold normal_names in Ho_normal, Hd. rewrite Forall_forall in Ho_normal, Hd.
    destruct (HkeysB k Hk); auto. }
  (* the second loop *)
  destruct (delete_stale_all db (Dict.keys d) (Dict.keys oB) wB oB _ _
              HavailB HoB_normal HloopC)
    as (_ & oC & HavailC & (cC & logC & HwC) & HkeysC & HkeepC).
  assert (wC = with_store w db cC logC) as HwC'.
  { rewrite HwC, HwB. apply (with_store_again _ _ _ Hstore). }
  assert (Forall (up_to_date oC) d) as HallC.
  { rewrite Forall_forall in HallB. apply Forall_forall. intros e He.
    apply HkeepC; [|by apply HallB].
    unfold Dict.keys. apply list_elem_of_fmap. by exists e. }
  (* the second run *)
  destruct HavailC as (cC2 & HstoreC & HoC).
  apply (update_repo_run repo wC d wC cC2 (Dict.keys oC)).
  - by rewrite HwC', (with_store_isfile _ _ _ Hstore).
  - rewrite HwC'.
    by rewrite (oblivious_repo_versions _ _ _ Hstore repo cC logC), Hscan.
  - apply (add_or_update_noop _ _ oC); [by exists cC2|done..].
  - by apply store_at_read.
  - unfold ConfigParser.keys, section. by rewrite HoC.
  - apply delete_stale_noop, Forall_forall. intros k Hk.
    destruct (HkeysC k Hk) as [HkB Hdisk]. by apply Hdisk.
Qed.


(** A run that ends in an exception has written nothing: the scan only
    reads, the first action on a store that cannot be read or has no
    [AVAILABLE] section raises before any write, and on a store that
    has one both loops come to their end. *)
Lemma update_repo_raise_no_write repo w e w1 :
  (forall names, Os.listdir repo w = (Ret names, w) ->
     Forall (fun name => is_hkg name = true ->
               lower (slice_but_last 4 name) = slice_but_last 4 name) names) ->
  (forall c o, read_config (packages_hdb repo) w = (Ret c, w) ->
     Dict.get "AVAILABLE" c = Some o -> normal_names (Dict.keys o)) ->
  update_repo repo w = (Raise e, w1) ->
  w1 = w.
Proof.
  intros Hnames Hnormal.
  unfold update_repo, mbind, M_bind, gets, lift.
  set (db := packages_hdb repo) in *.
  destruct (isfile w db) eqn:Hfile; simpl; [|done].
  pose proof (repo_versions_world repo w) as HwA.
  destruct (repo_versions repo w) as [[d|e0] wA] eqn:Hscan;
    simpl in HwA; subst wA; [|by intros [= _ <-]].
  destruct (scan_names _ _ _ Hnames Hscan) as [Hd Hnodup].
  destruct (read_config_of_file _ _ Hfile) as [[c Hstore]|Hbad].
  - destruct (Dict.get "AVAILABLE" c) as [o|] eqn:Ho.
    + assert (available_at w db o) as Havail by (by exists c).
      assert (normal_names (Dict.keys o)) as Ho_normal.
      { apply (Hnormal c); [by apply store_at_read|done]. }
      destruct (for_each d (add_or_update db) w) as [rB wB] eqn:HloopB.
      destruct (add_or_update_all db d w o _ _ Havail Hd Hnodup HloopB)
        as (-> & oB & HavailB & _ & _ & HkeysB & _).
      pose proof HavailB as (cB & HstoreB & HoB).
      rewrite (store_at_read _ _ _ HstoreB).
      unfold ConfigParser.keys, section. rewrite HoB.
      destruct (for_each (Dict.keys oB) (delete_stale db (Dict.keys d)) wB)
        as [rC wC] eqn:HloopC.
      assert (normal_names (Dict.keys oB)) as HoB_normal.
      { apply Forall_forall. intros k Hk.
        unfold normal_names in Ho_normal, Hd. rewrite Forall_forall in Ho_normal, Hd.
        destruct (HkeysB k Hk); auto. }
      destruct (delete_stale_all db (Dict.keys d) (Dict.keys oB) wB oB _ _
                  HavailB HoB_normal HloopC) as (-> & _).
      done.
    + destruct d as [|[n v] d].
      * simpl. rewrite (store_at_read _ _ _ Hstore).
        unfold ConfigParser.keys, section. rewrite Ho. by intros [= _ <-].
      * rewrite for_each_cons. unfold add_or_update, mbind, M_bind. simpl fst.
        rewrite (api_missing_section _ _ _ _ _ _ "check" Hstore Ho) by (by left).
        by intros [= _ <-].
  - destruct d as [|[n v] d].
    + simpl. rewrite Hbad. by intros [= _ <-].
    + rewrite for_each_cons. unfold add_or_update, mbind, M_bind. simpl fst.
      rewrite (api_read_fails _ _ _ _ _ _ _ Hbad). by intros [= _ <-].
Qed.

Lemma valid_name_lower s : valid_name s = true -> lower s = s.
Proof.
  unfold valid_name, islower, lower. intros H.
  apply andb_true_iff in H as [H _]. apply andb_true_iff in H as [_ H].
  rewrite <- (string_of_list_ascii_of_string s) at 2. f_equal.
  induction (list_ascii_of_string s) as [|c l IH]; [done|].
  simpl in *. apply andb_true_iff in H as [Hc Hl].
  rewrite (IH Hl). unfold lower_char.
  by destruct (is_upper c).
Qed.

(** Archives named after packages in lower-case letters give names in
    lower case, and a store of such names is one of lower-case names. *)
Lemma valid_archives_lower repo w :
  (forall names, Os.listdir repo w = (Ret names, w) ->
     Forall (fun name => is_hkg name = true ->
               valid_name (slice_but_last 4 name) = true) names) ->
  forall names, Os.listdir repo w = (Ret names, w) ->
    Forall (fun name => is_hkg name = true ->
              lower (slice_but_last 4 name) = slice_but_last 4 name) names.
Proof.
  intros Hnames names Hlist. eapply Forall_impl; [by apply Hnames|].
  intros name Hname Hhkg. by apply valid_name_lower, Hname.
Qed.

Lemma valid_store_normal db w :
  (forall c, read_config db w = (Ret c, w) ->
     Dict.get "DEFAULT" c = None
     /\ forall o, Dict.get "AVAILABLE" c = Some o ->
          Forall (fun entry => valid_name (fst entry) = true
                               /\ version_ok (snd entry) = true) o) ->
  forall c o, read_config db w = (Ret c, w) ->
    Dict.get "AVAILABLE" c = Some o -> normal_names (Dict.keys o).
Proof.
  intros Hstore c o Hread Ho. destruct (Hstore c Hread) as [_ Hentries].
  specialize (Hentries o Ho). unfold normal_names, Dict.keys.
  apply Forall_fmap. eapply Forall_impl; [exact Hentries|].
  intros entry [Hentry _]. by apply valid_name_lower.
Qed.

(** C6, amended.  On a repository whose archives are named after
    packages in lower-case letters and record versions that
    [version_ok] accepts, with a store that has no [DEFAULT] section and
    whose [AVAILABLE] section holds such names and versions: a second
    run of [update_repo], right after a first one, ends as the first did
    and leaves the world exactly as the first run left it: the same
    files -- so the same store, with the same [AVAILABLE] section -- and
    the same log of files opened for writing, that is, no write at
    all. *)
Theorem update_repo_idempotent :
  forall (repo_location : path) (w : world) (r : result value) (w1 : world),
    (forall names, Os.listdir repo_location w = (Ret names, w) ->
       Forall (fun name => is_hkg name = true ->
                 valid_name (slice_but_last 4 name) = true) names) ->
    (forall d, repo_versions repo_location w = (Ret d, w) ->
       Forall (fun entry => version_ok (snd entry) = true) d) ->
    (forall c, read_config (packages_hdb repo_location) w = (Ret c, w) ->
       Dict.get "DEFAULT" c = None
       /\ forall o, Dict.get "AVAILABLE" c = Some o ->
            Forall (fun entry => valid_name (fst entry) = true
                                 /\ version_ok (snd entry) = true) o) ->
    update_repo repo_location w = (r, w1) ->
    update_repo repo_location w1 = (r, w1).
Proof.
  intros repo w r w1 Hnames _ Hstore Hrun.
  pose proof (valid_archives_lower _ _ Hnames) as Hlower.
  pose proof (valid_store_normal _ _ Hstore) as Hnormal.
  destruct r as [v|e].
  - by eapply update_repo_again.
  - pose proof (update_repo_raise_no_write _ _ _ _ Hlower Hnormal Hrun) as ->.
    exact Hrun.
Qed.

Lemma update_repo_idempotent_witness :
  update_repo Sample.repo (snd (update_repo Sample.repo Sample.tidy_repo_world))
  = (Ret (VBool true), snd (update_repo Sample.repo Sample.tidy_repo_world)).
Proof.
  apply (update_repo_idempotent Sample.repo Sample.tidy_repo_world (Ret (VBool true))).
  - intros names Hlist. vm_compute in Hlist. injection Hlist as <-.
    repeat constructor.
  - intros d Hscan. vm_compute in Hscan. injection Hscan as <-.
    repeat constructor.
  - intros c Hread. vm_compute in Hread. injection Hread as <-.
    split; [reflexivity|]. intros o Ho.
    vm_compute in Ho. injection Ho as <-.
    repeat constructor.
  - vm_compute. reflexivity.
Defined.

(** C6, as the claim has it, fails.  The repository holds one archive,
    [Hello.hkg]: the first loop does not find [Hello] among the names
    of the store, which are in lower case, and creates the entry; the
    second loop does not find [hello] among the names on disk and
    deletes it.  Every run does both: the first run opens the store for
    writing twice, and so does the second, on a repository that has not
    changed. *)
Lemma update_repo_capital_name_writes_again :
  fst (update_repo Sample.repo Sample.capital_repo_world) = Ret (VBool true)
  /\ opened (snd (update_repo Sample.repo Sample.capital_repo_world))
     = [packages_hdb Sample.repo; packages_hdb Sample.repo]
  /\ fst (update_repo Sample.repo
            (snd (update_repo Sample.repo Sample.capital_repo_world)))
     = Ret (VBool true)
  /\ opened (snd (update_repo Sample.repo
                    (snd (update_repo Sample.repo Sample.capital_repo_world))))
     = [packages_hdb Sample.repo; packages_hdb Sample.repo;
        packages_hdb Sample.repo; packages_hdb Sample.repo].
Proof. repeat split; vm_compute; reflexivity. Qed.

(** The scenarios of the specification: a fresh repository, a version
    bump, and a stale entry. *)
Lemma update_repo_scenario :
  exists w',
    update_repo Sample.repo Sample.tidy_repo_world = (Ret (VBool true), w')
    /\ (c ← read_config (packages_hdb Sample.repo);
        lift (section c "AVAILABLE")) w'
       = (Ret [("hello", "1.0"); ("tool", "2.0")], w').
Proof. eexists. split; vm_compute; reflexivity. Qed.

(** ** Paths *)

Lemma strip_prefix_Some d q r : strip_prefix d q = Some r <-> q = d ++ r.
Proof.
  revert q. induction d as [|x d IH]; intros q; simpl.
  - split; [by intros [= ->]|by intros ->].
  - destruct q as [|y q]; [done|].
    destruct (decide (x = y)) as [->|Hne].
    + rewrite IH. split; [by intros ->|by intros [= ->]].
    + split; [done|]. intros [= ? _]. done.
Qed.

Lemma under_true d q : under d q = true <-> exists r, q = d ++ r.
Proof.
  unfold under. destruct (strip_prefix d q) as [r|] eqn:E.
  - apply strip_prefix_Some in E. split; [by eexists|done].
  - split; [done|]. intros [r Hr]. apply strip_prefix_Some in Hr. congruence.
Qed.

Lemma under_false d q : under d q = false <-> forall r, q <> d ++ r.
Proof.
  rewrite <- not_true_iff_false, under_true. split.
  - intros Hno r Hr. apply Hno. by exists r.
  - intros Hno [r Hr]. by apply (Hno r).
Qed.

Lemma under_refl d : under d d = true.
Proof. apply under_true. exists []. by rewrite app_nil_r. Qed.

Lemma under_app d r : under d (d ++ r) = true.
Proof. apply under_true. by exists r. Qed.

Lemma under_same_root h a b : under (h ++ a) (h ++ b) = under a b.
Proof.
  unfold under. induction h as [|x h IH]; simpl; [done|].
  by rewrite decide_True.
Qed.




Lemma lstat_get w q : q <> [] -> lstat w q = Dict.get q (files w).
Proof. by destruct q. Qed.

(** ** Frames *)

Section DictEntries.
Context {K V : Type} `{EqDecision K}.
Implicit Types (k : K) (v : V) (d : list (K * V)).

Lemma dict_elem_of_set e k v d : e ∈ Dict.set k v d -> e = (k, v) \/ e ∈ d.
Proof.
  induction d as [|[k0 v0] d IH]; simpl.
  - intros ->%list_elem_of_singleton. by left.
  - destruct (decide (k0 = k)) as [->|Hne].
    + intros [->|?]%elem_of_cons; [by left|right; by right].
    + intros [->|Hin]%elem_of_cons; [right; by left|].
      destruct (IH Hin); [by left|right; by right].
Qed.

End DictEntries.

Section Keeps.
Context (d : path).

Lemma keeps_weaken {A : Type} (m : M A) (post post' : A -> Prop) :
  keeps d m post -> (forall a, post a -> post' a) -> keeps d m post'.
Proof.
  intros Hm Himp w r w' Hrun Hlinks.
  destruct (Hm w r w' Hrun Hlinks) as (? & ? & Hpost). repeat split; auto.
Qed.

Lemma keeps_ret {A : Type} (a : A) (post : A -> Prop) :
  post a -> keeps d (mret a) post.
Proof. intros Hpost w r w' [= <- <-] Hlinks. repeat split; [done..|]. by intros ? [= <-]. Qed.

Lemma keeps_raise {A : Type} (e : exn) (post : A -> Prop) : keeps d (raise e) post.
Proof. intros w r w' [= <- <-] Hlinks. repeat split; done. Qed.

Lemma keeps_bind {A B : Type} (m : M A) (k : A -> M B) post1 post2 :
  keeps d m post1 ->
  (forall a, post1 a -> keeps d (k a) post2) ->
  keeps d (m ≫= k) post2.
Proof.
  intros Hm Hk w r w' Hrun Hlinks. unfold mbind, M_bind in Hrun.
  destruct (m w) as [[a|e] w1] eqn:Hm1.
  - destruct (Hm _ _ _ Hm1 Hlinks) as (Hlinks1 & Hframe1 & Hpost1).
    destruct (Hk a (Hpost1 a eq_refl) _ _ _ Hrun Hlinks1) as (? & Hframe2 & ?).
    repeat split; [done| |done].
    intros q Hq. by rewrite Hframe2, Hframe1.
  - injection Hrun as <- <-.
    destruct (Hm _ _ _ Hm1 Hlinks) as (? & ? & ?). repeat split; done.
Qed.

(** A computation that leaves the world as it is. *)
Lemma keeps_readonly {A : Type} (m : M A) :
  (forall w, snd (m w) = w) -> keeps d m (fun _ => True).
Proof.
  intros Hm w r w' Hrun Hlinks. specialize (Hm w). rewrite Hrun in Hm.
  simpl in Hm. subst w'. repeat split; done.
Qed.

Lemma keeps_lift {A : Type} (r : result A) : keeps d (lift r) (fun _ => True).
Proof. by apply keeps_readonly. Qed.

Lemma keeps_gets {A : Type} (f : world -> A) : keeps d (gets f) (fun _ => True).
Proof. by apply keeps_readonly. Qed.


(** The path that a write through [p] reaches is not below [d]. *)
Lemma realpath_away w p :
  no_links_into d w -> under d p = false -> under d (realpath w p) = false.
Proof.
  intros Hlinks Hp. unfold realpath.
  destruct (lstat w p) as [[| |t]|] eqn:Hl; try done.
  apply (Hlinks p). apply dict_get_elem_of.
  destruct p; [discriminate|done].
Qed.

Lemma keeps_open_w p :
  under d p = false -> keeps d (Os.open_w p) (fun f => under d f = false).
Proof.
  intros Hp w r w' Hrun Hlinks.
  pose proof (realpath_away w p Hlinks Hp) as Hq.
  unfold Os.open_w in Hrun.
  assert (forall w2,
            w2 = World (Dict.set (realpath w p) (File empty_file) (files w))
                       (opened w ++ [p]) ->
            no_links_into d w2
            /\ (forall q, under d q = true -> Dict.get q (files w2) = Dict.get q (files w)))
    as Hset.
  { intros w2 ->. simpl. split.
    - intros p' t [[=]|Hin]%dict_elem_of_set. by eapply Hlinks.
    - intros q Hq'. apply dict_get_set_ne. intros E. congruence. }
  destruct (lstat w (realpath w p)) as [[| |t]|].
  - injection Hrun as <- <-. repeat split; done.
  - injection Hrun as <- <-. destruct (Hset _ eq_refl). repeat split; [done..|].
    by intros a [= <-].
  - injection Hrun as <- <-. repeat split; done.
  - destruct (isdir w (dirname (realpath w p))).
    + injection Hrun as <- <-. destruct (Hset _ eq_refl). repeat split; [done..|].
      by intros a [= <-].
    + injection Hrun as <- <-. repeat split; done.
Qed.







End Keeps.

(** *** The operations of [hkg.py] away from a directory *)

Ltac keeps_step :=
  lazymatch goal with
  | |- keeps _ (mret _) _ => by apply keeps_ret
  | |- keeps _ (raise _) _ => apply keeps_raise
  | |- keeps _ (lift _) _ => apply keeps_lift
  | |- keeps _ (gets _) _ => apply keeps_gets
  | |- keeps _ (Os.open_w _ ≫= _) _ =>
      eapply keeps_bind; [apply keeps_open_w|intros ? ?]
  | |- keeps _ (_ ≫= _) _ =>
      eapply (keeps_bind _ _ _ (fun _ => True)); [|intros ? _]
  | |- keeps _ (if ?b then _ else _) _ => destruct b
  end.

Section KeepsOps.
Context (d : path).

Lemma keeps_for_each {A : Type} (l : list A) (body : A -> M unit) :
  (forall x, keeps d (body x) (fun _ => True)) ->
  keeps d (for_each l body) (fun _ => True).
Proof.
  intros Hbody. induction l as [|x l IH]; simpl; [by apply keeps_ret|].
  keeps_step; [apply Hbody|apply IH].
Qed.












End KeepsOps.

(** *** The staging area and the engines *)



Section KeepsEngines.
Context (home : path) (requests_get : string -> result content).










End KeepsEngines.

(** ** Update: the staging of configuration files *)

(** *** Renaming *)

Lemma list_ascii_of_string_append (a b : string) :
  list_ascii_of_string (a +:+ b) = list_ascii_of_string a ++ list_ascii_of_string b.
Proof.
  induction a as [|c a IH]; [done|].
  change (String c a +:+ b) with (String c (a +:+ b)).
  change (list_ascii_of_string (String c (a +:+ b)))
    with (c :: list_ascii_of_string (a +:+ b)).
  by rewrite IH.
Qed.





Section Rekey.
Context (src dst : path).
Hypothesis Haway1 : under src dst = false.
Hypothesis Haway2 : under dst src = false.











End Rekey.

(** *** Moving the entries of a directory *)


(** *** Directories made and removed *)

Lemma stat_absent w q :
  q <> [] -> Dict.get q (files w) = None -> stat w q = None.
Proof.
  intros Hq Hget. unfold stat, realpath. rewrite (lstat_get _ _ Hq), Hget.
  by rewrite (lstat_get _ _ Hq), Hget.
Qed.

(** [makedirs] touches the path it is given and what lies above it,
    and adds directories only. *)
Lemma makedirs_from_frame walked rest :
  forall w r w',
    Os.makedirs_from walked rest w = (r, w') ->
    (forall q, under q (walked ++ rest) = false ->
       Dict.get q (files w') = Dict.get q (files w))
    /\ (forall d, no_links_into d w -> no_links_into d w').
Proof.
  revert walked. induction rest as [|x rest IH]; intros walked w r w'; simpl.
  - by intros [= <- <-].
  - unfold mbind, M_bind, gets.
    assert (walked ++ x :: rest = (walked ++ [x]) ++ rest) as Eq
      by (by rewrite <- app_assoc).
    destruct (stat w (walked ++ [x])) as [[| |]|].
    + rewrite Eq. apply IH.
    + by intros [= <- <-].
    + by intros [= <- <-].
    + unfold set_node. intros Hrest. apply IH in Hrest as [Hframe Hlinks].
      simpl in Hframe. split.
      * intros q Hq. rewrite Hframe by (by rewrite <- Eq).
        apply dict_get_set_ne. intros <-.
        by rewrite Eq, under_app in Hq.
      * intros d Hd. apply Hlinks.
        intros p t [[=]|Hin]%dict_elem_of_set. by eapply Hd.
Qed.

(** A directory that was not there is there afterwards. *)
Lemma makedirs_from_made rest :
  forall walked x w w',
    Os.makedirs_from walked (rest ++ [x]) w = (Ret tt, w') ->
    Dict.get (walked ++ rest ++ [x]) (files w) = None ->
    Dict.get (walked ++ rest ++ [x]) (files w') = Some Dir.
Proof.
  induction rest as [|y rest IH]; intros walked x w w'; simpl.
  - unfold mbind, M_bind, gets. intros Hrun Hnone.
    rewrite stat_absent in Hrun by (done || by destruct walked).
    unfold set_node in Hrun. simpl in Hrun. injection Hrun as <-. simpl.
    apply dict_get_set_eq.
  - unfold mbind, M_bind, gets.
    assert (walked ++ y :: rest ++ [x] = (walked ++ [y]) ++ rest ++ [x]) as Eq
      by (by rewrite <- app_assoc).
    rewrite Eq.
    destruct (stat w (walked ++ [y])) as [[| |]|]; try done.
    + apply IH.
    + unfold set_node. intros Hrun Hnone. apply (IH _ _ _ _ Hrun). simpl.
      rewrite dict_get_set_ne; [done|].
      intros E. apply (f_equal length) in E. rewrite !length_app in E.
      simpl in E. lia.
Qed.

Lemma get_filter_away (fs : list (path * node)) p q :
  under p q = false ->
  Dict.get q (List.filter (fun e => negb (under p (fst e))) fs) = Dict.get q fs.
Proof.
  intros Hq. induction fs as [|[q0 n0] fs IH]; simpl; [done|].
  destruct (under p q0) eqn:Hq0; simpl.
  - rewrite decide_False; [done|]. intros ->. congruence.
  - by rewrite IH.
Qed.



(** An entry of the table is listed in its directory. *)
Lemma elem_of_children (fs : list (path * node)) d name :
  is_Some (Dict.get (d ++ [name]) fs) -> name ∈ children fs d.
Proof.
  unfold children. induction fs as [|[q n] fs IH]; simpl.
  - by intros [? ?].
  - change (list_omap _ _ (child_name d) fs) with (omap (child_name d) fs).
    destruct (decide (q = d ++ [name])) as [->|Hne].
    + intros _. unfold child_name. simpl.
      rewrite (proj2 (strip_prefix_Some d (d ++ [name]) [name]) eq_refl). by left.
    + intros Hsome. specialize (IH Hsome).
      destruct (child_name d (q, n)); [by right|done].
Qed.

(** *** Staging and the way back *)

Lemma under_longer (a : path) (x : string) : under (a ++ [x]) a = false.
Proof.
  apply under_false. intros r E. apply (f_equal length) in E.
  rewrite !length_app in E. simpl in E. lia.
Qed.

Lemma listdir_dir w d :
  d <> [] -> Dict.get d (files w) = Some Dir ->
  Os.listdir d w = (Ret (children (files w) d), w).
Proof.
  intros Hd Hget. unfold Os.listdir, stat, realpath.
  rewrite (lstat_get _ _ Hd), Hget. by rewrite (lstat_get _ _ Hd), Hget.
Qed.


Section Staging.
Context (home : path) (requests_get : string -> result content).






End Staging.

Lemma lstat_child w (d : path) (x : string) :
  lstat w (d ++ [x]) = Dict.get (d ++ [x]) (files w).
Proof. apply lstat_get. by destruct d. Qed.




(** The update is what the loop over the sources runs for a source
    whose [AVAILABLE] section has a version that string-compares greater
    than the installed one. *)
Lemma update_over_sources_newer home requests_get local_pkg_db p no_preserve_flag
    s rest post_update_cleanup remote available remote_version local_version w :
  requests_get (s +:+ "/packages.hdb") = Ret (Plain (Config remote)) ->
  Dict.get "AVAILABLE" remote = Some available ->
  p ∈ Dict.keys available ->
  getitem remote "AVAILABLE" p = Ret remote_version ->
  getitem local_pkg_db "INSTALLED" p = Ret local_version ->
  str_gt remote_version local_version = true ->
  update_over_sources home requests_get local_pkg_db p no_preserve_flag (s :: rest)
    post_update_cleanup w
  = (flag ← update_from home requests_get p s no_preserve_flag post_update_cleanup;
     update_over_sources home requests_get local_pkg_db p no_preserve_flag rest flag) w.
Proof.
  intros Hget Havail Hin%contains_true Hremote Hlocal Hgt. simpl.
  rewrite Hget. unfold mbind at 1 2, M_bind at 1 2, lift at 1 2. simpl.
  unfold ConfigParser.keys, section. rewrite Havail, Hin.
  unfold mbind at 1 2, M_bind at 1 2, lift at 1 2.
  by rewrite Hremote, Hlocal, Hgt.
Qed.

(** ** More on the package record store *)

Lemma store_at_isfile w db c : store_at w db c -> isfile w db = true.
Proof.
  unfold store_at, isfile, stat. by intros ->.
Qed.



(** [check] compares the name as it is given with the names as the
    parser keeps them, in lower case.  For a store without a [DEFAULT]
    section, a name made of letters and a version that [version_ok]
    accepts: right after [create], a name in lower case is found, and a
    name with a capital letter is not, unless the section already had
    that very spelling. *)
Theorem create_then_check :
  forall (db : path) (sec n v any : string) (w : world) (c : config) (o : options),
    read_config db w = (Ret c, w) ->
    Dict.get "DEFAULT" c = None ->
    Dict.get sec c = Some o ->
    isalpha n = true ->
    version_ok v = true ->
    exists w',
      package_database_api db "create" sec n v w = (Ret (VBool true), w')
      /\ (optionxform n = n ->
            package_database_api db "check" sec n any w' = (Ret (VBool true), w'))
      /\ (optionxform n <> n -> n ∉ Dict.keys o ->
            package_database_api db "check" sec n any w' = (Ret (VBool false), w')).
Proof.
  intros db sec n v any w c o Hread _ Ho _ _.
  assert (store_at w db c) as Hstore by (by apply (read_store_at _ _ _ sec)).
  eexists. split; [apply (api_assign _ _ c sec o); auto|].
  set (c' := Dict.set sec (Dict.set (optionxform n) v o) c).
  assert (store_at (with_store w db c' (opened w ++ [db])) db c') as Hstore'
    by (by apply (with_store_store_at _ _ c)).
  assert (ConfigParser.keys c' sec = Ret (Dict.keys (Dict.set (optionxform n) v o)))
    as Hkeys.
  { unfold ConfigParser.keys, section, c'. by rewrite dict_get_set_eq. }
  split.
  - intros Hn. rewrite (api_check _ _ c') by done. rewrite Hkeys.
    do 2 f_equal. f_equal. apply contains_true, dict_elem_of_keys_set. left. by rewrite Hn.
  - intros Hn Hnew. rewrite (api_check _ _ c') by done. rewrite Hkeys.
    do 2 f_equal. f_equal. apply contains_false.
    intros [E|Hin]%dict_elem_of_keys_set; [by apply Hn|by apply Hnew].
Qed.

Lemma create_then_check_witness :
  exists w',
    package_database_api Sample.test_hdb "create" "INSTALLED" "Hello" "3.1"
      Sample.store_world = (Ret (VBool true), w')
    /\ (optionxform "Hello" = "Hello" ->
          package_database_api Sample.test_hdb "check" "INSTALLED" "Hello" "" w'
          = (Ret (VBool true), w'))
    /\ (optionxform "Hello" <> "Hello" ->
        "Hello" ∉ Dict.keys [("scripta", "1.1")] ->
          package_database_api Sample.test_hdb "check" "INSTALLED" "Hello" "" w'
          = (Ret (VBool false), w')).
Proof.
  apply (create_then_check Sample.test_hdb "INSTALLED" "Hello" "3.1" ""
           Sample.store_world Sample.test_store [("scripta", "1.1")]);
    reflexivity.
Defined.



(** Without the section nothing is done: whatever the action, a store
    that lacks the section -- a store file that is not there reads as a
    store with no section at all -- gives [KeyError], and no file is
    opened or created.  The section [DEFAULT] is the exception: the
    parser has it for every store, so the statement is for the other
    names. *)
Theorem actions_need_section :
  forall (db : path) (action sec n v : string) (w : world) (c : config),
    read_config db w = (Ret c, w) ->
    sec <> "DEFAULT" ->
    Dict.get sec c = None ->
    action ∈ ["create"; "delete"; "update"; "check"; "version"; "list"] ->
    package_database_api db action sec n v w = (Raise KeyError, w).
Proof.
  intros db action sec n v w c Hread _ Hnone Haction.
  unfold package_database_api, mbind, M_bind. rewrite Hread.
  unfold lift, setitem, getitem, ConfigParser.keys, section.
  repeat (apply elem_of_cons in Haction as [->|Haction]; [simpl; by rewrite Hnone|]).
  by apply elem_of_nil in Haction.
Qed.

Lemma actions_need_section_witness :
  package_database_api ["tmp"; "no.hdb"] "create" "INSTALLED" "hello" "1.0"
    Sample.store_world
  = (Raise KeyError, Sample.store_world).
Proof.
  apply (actions_need_section ["tmp"; "no.hdb"] "create" "INSTALLED" "hello" "1.0"
           Sample.store_world []).
  - reflexivity.
  - discriminate.
  - reflexivity.
  - apply elem_of_cons. by left.
Defined.

(** ** The settings file *)

Lemma add_repo_run prefix url w c o :
  store_at w (settings_conf prefix) c ->
  Dict.get "SOURCES" c = Some o ->
  add_repo prefix url w
  = (Ret (VBool true),
     with_store w (settings_conf prefix)
       (Dict.set "SOURCES" (Dict.set (optionxform url) "enabled" o) c)
       (opened w ++ [settings_conf prefix])).
Proof.
  intros Hstore Ho. unfold add_repo, mbind, M_bind.
  rewrite (store_at_read _ _ _ Hstore). unfold lift.
  rewrite (setitem_section _ _ _ _ _ Ho), (open_w_store _ _ _ Hstore).
  unfold Os.write, set_node, mret, M_ret, with_store. simpl.
  by rewrite dict_set_set.
Qed.


Lemma del_repo_unknown prefix url w c o :
  read_config (settings_conf prefix) w = (Ret c, w) ->
  Dict.get "SOURCES" c = Some o ->
  url ∉ Dict.keys o ->
  del_repo prefix url w = (Ret (VBool false), w).
Proof.
  intros Hread Ho Hnin. unfold del_repo, mbind, M_bind. rewrite Hread.
  unfold lift, ConfigParser.keys, section. rewrite Ho.
  by rewrite (proj2 (contains_false _ _) Hnin).
Qed.



(** The parser keeps option names in lower case, and [del_repo] looks
    for the URL as it is given.  For settings without a [DEFAULT]
    section and a URL made of letters, digits and [_ - . / :]
    ([is_url]): a URL with a capital letter that [add_repo] has just
    added is in the list -- in lower case -- but [del_repo] with the
    same URL does not find it, returns [False] and writes nothing. *)
Theorem del_repo_misses_capitals :
  forall (prefix : path) (repo_url : string) (w : world) (settings : config)
         (sources : options),
    read_config (settings_conf prefix) w = (Ret settings, w) ->
    Dict.get "DEFAULT" settings = None ->
    Dict.get "SOURCES" settings = Some sources ->
    is_url repo_url = true ->
    optionxform repo_url <> repo_url ->
    repo_url ∉ Dict.keys sources ->
    exists w1 settings1,
      add_repo prefix repo_url w = (Ret (VBool true), w1)
      /\ read_config (settings_conf prefix) w1 = (Ret settings1, w1)
      /\ contains (optionxform repo_url) (default [] (Dict.keys <$> Dict.get "SOURCES" settings1))
         = true
      /\ del_repo prefix repo_url w1 = (Ret (VBool false), w1).
Proof.
  intros prefix url w c o Hread _ Ho _ Hcase Hnew.
  assert (store_at w (settings_conf prefix) c) as Hstore
    by (apply (read_store_at _ _ _ "SOURCES"); [done|by eexists]).
  set (p := settings_conf prefix) in *.
  set (c1 := Dict.set "SOURCES" (Dict.set (optionxform url) "enabled" o) c).
  assert (store_at (with_store w p c1 (opened w ++ [p])) p c1) as Hstore1
    by (by apply (with_store_store_at _ _ c)).
  exists (with_store w p c1 (opened w ++ [p])), c1.
  split; [by apply add_repo_run|].
  split; [by apply store_at_read|].
  assert (Dict.get "SOURCES" c1 = Some (Dict.set (optionxform url) "enabled" o)) as Ho1
    by (unfold c1; by rewrite dict_get_set_eq).
  split.
  - rewrite Ho1. simpl. apply contains_true, dict_elem_of_keys_set. by left.
  - apply (del_repo_unknown _ _ _ c1 (Dict.set (optionxform url) "enabled" o));
      [by apply store_at_read|done|].
    intros [E|Hin]%dict_elem_of_keys_set; [by apply Hcase|by apply Hnew].
Qed.

Lemma del_repo_misses_capitals_witness :
  exists w1 settings1,
    add_repo Sample.testhome "http://Mirror/hkg" Sample.settings_world
      = (Ret (VBool true), w1)
    /\ read_config (settings_conf Sample.testhome) w1 = (Ret settings1, w1)
    /\ contains (optionxform "http://Mirror/hkg")
         (default [] (Dict.keys <$> Dict.get "SOURCES" settings1)) = true
    /\ del_repo Sample.testhome "http://Mirror/hkg" w1 = (Ret (VBool false), w1).
Proof.
  apply (del_repo_misses_capitals Sample.testhome "http://Mirror/hkg"
           Sample.settings_world Sample.one_source
           [("http://127.0.0.1/tmp/hkg", "enabled")]).
  - reflexivity.
  - reflexivity.
  - reflexivity.
  - reflexivity.
  - discriminate.
  - intros Hin. apply list_elem_of_singleton in Hin. discriminate Hin.
Defined.

(** ** Directories that are made on the way *)

(** A directory made where nothing could be reached leaves what could
    be reached as it was. *)
Lemma fresh_dir_keeps w p x :
  stat w p = None ->
  is_Some (stat w x) ->
  let w' := World (Dict.set p Dir (files w)) (opened w) in
  lstat w' x = lstat w x /\ stat w' x = stat w x.
Proof.
  intros Hp Hx w'.
  assert (forall y, y <> p -> lstat w' y = lstat w y) as Hother.
  { intros y Hy. unfold lstat, w'. destruct y; [done|]. simpl files.
    by rewrite dict_get_set_ne. }
  assert (x <> p) as Hxp.
  { intros ->. rewrite Hp in Hx. by destruct Hx. }
  assert (realpath w x <> p) as Hrp.
  { intros E. unfold stat in Hx, Hp. rewrite E in Hx.
    unfold realpath in Hp.
    destruct (lstat w p) as [[| |t]|] eqn:Hl; rewrite ?Hl in Hp; try done;
      by destruct Hx. }
  split; [by apply Hother|].
  unfold stat, realpath. rewrite (Hother x Hxp).
  fold (realpath w x). by rewrite (Hother _ Hrp).
Qed.

Lemma makedirs_from_preserves rest :
  forall walked w r w' x,
    Os.makedirs_from walked rest w = (r, w') ->
    is_Some (stat w x) ->
    lstat w' x = lstat w x /\ stat w' x = stat w x.
Proof.
  induction rest as [|y rest IH]; intros walked w r w' x Hrun Hx.
  - by injection Hrun as _ <-.
  - simpl in Hrun. unfold mbind, M_bind, gets in Hrun.
    destruct (stat w (walked ++ [y])) as [[| |]|] eqn:Hq.
    + by apply (IH _ _ _ _ _ Hrun).
    + by injection Hrun as _ <-.
    + by injection Hrun as _ <-.
    + unfold set_node in Hrun.
      destruct (fresh_dir_keeps w (walked ++ [y]) x Hq Hx) as [Hl Hs].
      destruct (IH _ _ _ _ x Hrun) as [Hl' Hs']; [by rewrite Hs|].
      by rewrite Hl', Hs'.
Qed.

Lemma set_dir_isdir w p :
  p <> [] -> isdir (World (Dict.set p Dir (files w)) (opened w)) p = true.
Proof.
  intros Hp. unfold isdir, stat, realpath, lstat. simpl files.
  destruct p; [done|]. by rewrite !dict_get_set_eq.
Qed.

Lemma makedirs_from_isdir rest :
  forall walked w w',
    Os.makedirs_from walked rest w = (Ret tt, w') ->
    isdir w walked = true ->
    isdir w' (walked ++ rest) = true.
Proof.
  induction rest as [|y rest IH]; intros walked w w' Hrun Hdir.
  - injection Hrun as <-. by rewrite app_nil_r.
  - simpl in Hrun. unfold mbind, M_bind, gets in Hrun.
    replace (walked ++ y :: rest) with ((walked ++ [y]) ++ rest)
      by (by rewrite <- app_assoc).
    destruct (stat w (walked ++ [y])) as [[| |]|] eqn:Hq; try done.
    + apply (IH _ _ _ Hrun). unfold isdir. by rewrite Hq.
    + unfold set_node in Hrun. apply (IH _ _ _ Hrun).
      apply set_dir_isdir. by destruct walked.
Qed.

Lemma makedirs_isdir p w w' :
  Os.makedirs p w = (Ret tt, w') -> isdir w' p = true.
Proof.
  intros Hrun. apply (makedirs_from_isdir p [] w w' Hrun). reflexivity.
Qed.

Lemma makedirs_log rest :
  forall walked w r w', Os.makedirs_from walked rest w = (r, w') -> opened w' = opened w.
Proof.
  induction rest as [|y rest IH]; intros walked w r w' Hrun.
  - by injection Hrun as _ <-.
  - simpl in Hrun. unfold mbind, M_bind, gets in Hrun.
    destruct (stat w (walked ++ [y])) as [[| |]|] eqn:Hq.
    + by apply (IH _ _ _ _ Hrun).
    + by injection Hrun as _ <-.
    + by injection Hrun as _ <-.
    + unfold set_node in Hrun. by rewrite (IH _ _ _ _ Hrun).
Qed.

Section EnsureDir.
Context (home : path).

Lemma ensure_dir_returns d w w' :
  ensure_dir d w = (Ret tt, w') -> isdir w' d = true.
Proof.
  unfold ensure_dir, mbind, M_bind, gets.
  destruct (isdir w d) eqn:Hd.
  - by intros [= <-].
  - apply makedirs_isdir.
Qed.

Lemma ensure_dir_preserves d w r w' x :
  ensure_dir d w = (r, w') ->
  is_Some (stat w x) ->
  lstat w' x = lstat w x /\ stat w' x = stat w x.
Proof.
  unfold ensure_dir, mbind, M_bind, gets.
  destruct (isdir w d) eqn:Hd.
  - by intros [= _ <-].
  - apply makedirs_from_preserves.
Qed.

Lemma ensure_dir_log d w r w' : ensure_dir d w = (r, w') -> opened w' = opened w.
Proof.
  unfold ensure_dir, mbind, M_bind, gets.
  destruct (isdir w d) eqn:Hd.
  - by intros [= _ <-].
  - apply makedirs_log.
Qed.

Lemma isdir_preserved w w' x :
  stat w' x = stat w x -> isdir w' x = isdir w x.
Proof. unfold isdir. by intros ->. Qed.

Lemma isfile_preserved w w' x :
  stat w' x = stat w x -> isfile w' x = isfile w x.
Proof. unfold isfile. by intros ->. Qed.

Lemma isdir_is_Some w x : isdir w x = true -> is_Some (stat w x).
Proof. unfold isdir. destruct (stat w x); [by eexists|done]. Qed.

Lemma isfile_is_Some w x : isfile w x = true -> is_Some (stat w x).
Proof. unfold isfile. destruct (stat w x); [by eexists|done]. Qed.

(** Three directories made sure of, one after the other. *)
Lemma ensure_dirs_keep d1 d2 d3 w w1 w2 w3 r1 r2 r3 x :
  ensure_dir d1 w = (r1, w1) ->
  ensure_dir d2 w1 = (r2, w2) ->
  ensure_dir d3 w2 = (r3, w3) ->
  is_Some (stat w x) ->
  lstat w3 x = lstat w x /\ stat w3 x = stat w x.
Proof.
  intros H1 H2 H3 Hx.
  destruct (ensure_dir_preserves _ _ _ _ x H1 Hx) as [L1 S1].
  destruct (ensure_dir_preserves _ _ _ _ x H2) as [L2 S2]; [by rewrite S1|].
  destruct (ensure_dir_preserves _ _ _ _ x H3) as [L3 S3]; [by rewrite S2, S1|].
  split; congruence.
Qed.

(** The steps of a run of [check_config_exists] that returns. *)
Lemma check_config_exists_steps prefix w v w' :
  check_config_exists home prefix w = (Ret v, w') ->
  exists w1 w2,
    ensure_dir (cache_dir home) w = (Ret tt, w1)
    /\ ensure_dir (install_dir home) w1 = (Ret tt, w2)
    /\ ensure_dir (bin_dir home) w2 = (Ret tt, w')
    /\ v = VBool (isfile w' (settings_conf prefix)).
Proof.
  unfold check_config_exists, mbind, M_bind, gets, mret, M_ret.
  destruct (ensure_dir (cache_dir home) w) as [[[]|e] w1] eqn:H1; [|done].
  destruct (ensure_dir (install_dir home) w1) as [[[]|e] w2] eqn:H2; [|done].
  destruct (ensure_dir (bin_dir home) w2) as [[[]|e] w3] eqn:H3; [|done].
  intros [= <- <-]. by exists w1, w2.
Qed.

End EnsureDir.

(** ** First run: directories, default settings, a new store *)

(** When [check_config_exists] returns, the cache, install and bin
    directories are there, its answer tells whether the settings file
    is, no file was opened for writing, and whatever could be reached
    before is as it was: the directories it makes are new ones. *)
Theorem check_config_exists_prepares :
  forall (home prefix : path) (w : world) (v : value) (w' : world),
    check_config_exists home prefix w = (Ret v, w') ->
    v = VBool (isfile w' (settings_conf prefix))
    /\ isdir w' (cache_dir home) = true
    /\ isdir w' (install_dir home) = true
    /\ isdir w' (bin_dir home) = true
    /\ opened w' = opened w
    /\ (forall x, is_Some (stat w x) -> lstat w' x = lstat w x /\ stat w' x = stat w x).
Proof.
  intros home prefix w v w3 Hrun.
  destruct (check_config_exists_steps _ _ _ _ _ Hrun) as (w1 & w2 & H1 & H2 & H3 & Hv).
  pose proof (ensure_dir_returns _ _ _ H1) as D1.
  pose proof (ensure_dir_returns _ _ _ H2) as D2.
  pose proof (ensure_dir_returns _ _ _ H3) as D3.
  assert (forall x, is_Some (stat w2 x) -> stat w3 x = stat w2 x) as Hkeep3.
  { intros x Hx. by apply (ensure_dir_preserves _ _ _ _ x H3). }
  assert (forall x, is_Some (stat w1 x) -> stat w2 x = stat w1 x) as Hkeep2.
  { intros x Hx. by apply (ensure_dir_preserves _ _ _ _ x H2). }
  split; [done|]. split.
  { rewrite (isdir_preserved w2 w3 (cache_dir home)).
    - rewrite (isdir_preserved w1 w2 (cache_dir home)); [done|].
      apply Hkeep2. by apply isdir_is_Some.
    - apply Hkeep3. rewrite Hkeep2 by (by apply isdir_is_Some). by apply isdir_is_Some. }
  split.
  { rewrite (isdir_preserved w2 w3 (install_dir home)); [done|].
    apply Hkeep3. by apply isdir_is_Some. }
  split; [done|]. split.
  { rewrite (ensure_dir_log _ _ _ _ H3), (ensure_dir_log _ _ _ _ H2).
    by apply (ensure_dir_log _ _ _ _ H1). }
  intros x Hx. by apply (ensure_dirs_keep _ _ _ _ _ _ _ _ _ _ _ H1 H2 H3).
Qed.

Lemma check_config_exists_prepares_witness :
  VBool true = VBool (isfile (snd (check_config_exists Sample.user Sample.user Sample.fresh_home))
                        (settings_conf Sample.user))
  /\ isdir (snd (check_config_exists Sample.user Sample.user Sample.fresh_home))
       (cache_dir Sample.user) = true
  /\ isdir (snd (check_config_exists Sample.user Sample.user Sample.fresh_home))
       (install_dir Sample.user) = true
  /\ isdir (snd (check_config_exists Sample.user Sample.user Sample.fresh_home))
       (bin_dir Sample.user) = true
  /\ opened (snd (check_config_exists Sample.user Sample.user Sample.fresh_home))
     = opened Sample.fresh_home
  /\ (forall x, is_Some (stat Sample.fresh_home x) ->
        lstat (snd (check_config_exists Sample.user Sample.user Sample.fresh_home)) x
        = lstat Sample.fresh_home x
        /\ stat (snd (check_config_exists Sample.user Sample.user Sample.fresh_home)) x
           = stat Sample.fresh_home x).
Proof.
  apply (check_config_exists_prepares Sample.user Sample.user Sample.fresh_home).
  vm_compute. reflexivity.
Defined.

(** What [open(p, 'w')] and the [write] after it leave at [p]. *)
Lemma open_w_write_stat p w f w1 c :
  Os.open_w p w = (Ret f, w1) ->
  stat (World (Dict.set f (File c) (files w1)) (opened w1)) p = Some (File c).
Proof.
  unfold Os.open_w. intros Hopen.
  set (q := realpath w p) in *.
  assert (q <> [] -> (p = q \/ lstat w p = Some (Symlink q))) as Hp.
  { intros Hq. unfold q, realpath.
    destruct (lstat w p) as [[| |t]|] eqn:Hl; auto. }
  assert (f = q /\ files w1 = Dict.set q (File empty_file) (files w) /\ q <> [])
    as (-> & Hfiles & Hq).
  { destruct (lstat w q) as [[| |t]|] eqn:Hl; try done.
    - injection Hopen as <- <-. split; [done|split; [done|]]. by intros E; rewrite E in Hl.
    - destruct (isdir w (dirname q)); [|done].
      injection Hopen as <- <-. split; [done|split; [done|]]. by intros E; rewrite E in Hl. }
  rewrite Hfiles, dict_set_set.
  specialize (Hp Hq). clear Hopen Hfiles. clearbody q.
  set (w3 := World _ _).
  assert (lstat w3 q = Some (File c)) as Hlq.
  { rewrite lstat_get by done. unfold w3. simpl files. by rewrite dict_get_set_eq. }
  assert (realpath w3 p = q) as Hr.
  { destruct Hp as [->|Hlink].
    - unfold realpath. by rewrite Hlq.
    - destruct (decide (p = q)) as [->|Hne]; [unfold realpath; by rewrite Hlq|].
      unfold realpath.
      assert (lstat w3 p = lstat w p) as ->.
      { unfold lstat, w3. destruct p; [done|]. simpl files.
        by rewrite dict_get_set_ne. }
      by rewrite Hlink. }
  unfold stat. by rewrite Hr, Hlq.
Qed.

(** [create_default_config] starts the settings over: whenever it
    returns, it returns [True] and the settings file holds two empty
    sections, [SOURCES] and [OPTIONS], whatever sources it listed
    before. *)
Theorem create_default_config_resets :
  forall (home prefix : path) (w : world) (v : value) (w' : world),
    create_default_config home prefix w = (Ret v, w') ->
    v = VBool true
    /\ load_config prefix w' = (Ret default_config, w')
    /\ list_repo prefix w' = (Ret (VBool true), w').
Proof.
  intros home prefix w v w'.
  unfold create_default_config, mbind, M_bind, gets.
  set (p := settings_conf prefix).
  destruct ((if exists_ w (dirname p) then mret tt else makedirs_new (dirname p)) w)
    as [[[]|e] w1] eqn:H1; [|done].
  destruct (Os.open_w p w1) as [[f|e] w2] eqn:H2; [|done].
  unfold Os.write, set_node.
  set (w3 := World _ _).
  intros Hcheck.
  pose proof (open_w_write_stat p w1 f w2 (Plain (Config default_config)) H2) as Hstat.
  fold w3 in Hstat.
  destruct (check_config_exists_steps _ _ _ _ _ Hcheck) as (wa & wb & Ha & Hb & Hc & Hv).
  destruct (ensure_dirs_keep _ _ _ _ _ _ _ _ _ _ p Ha Hb Hc) as [_ Hs];
    [rewrite Hstat; by eexists|].
  rewrite Hstat in Hs.
  assert (isfile w' p = true) as Hfile by (unfold isfile; by rewrite Hs).
  assert (read_config p w' = (Ret default_config, w')) as Hread
    by (unfold read_config; by rewrite Hs).
  split; [rewrite Hv; fold p; by rewrite Hfile|].
  split; [exact Hread|].
  unfold list_repo, mbind, M_bind, gets. fold p. rewrite Hfile.
  change (negb true) with false. cbv beta iota. by rewrite Hread.
Qed.

Lemma create_default_config_resets_witness :
  VBool true = VBool true
  /\ load_config Sample.user
       (snd (create_default_config Sample.user Sample.user Sample.fresh_home))
     = (Ret default_config,
        snd (create_default_config Sample.user Sample.user Sample.fresh_home))
  /\ list_repo Sample.user
       (snd (create_default_config Sample.user Sample.user Sample.fresh_home))
     = (Ret (VBool true),
        snd (create_default_config Sample.user Sample.user Sample.fresh_home)).
Proof.
  apply (create_default_config_resets Sample.user Sample.user Sample.fresh_home).
  vm_compute. reflexivity.
Defined.

(** The skeleton written where there was no store. *)
Lemma append_skeleton_fresh w loc :
  isdir w loc = true ->
  lstat w (packages_hdb loc) = None ->
  append_skeleton (packages_hdb loc) w
  = (Ret tt,
     World (Dict.set (packages_hdb loc) (File (Plain (Config skeleton))) (files w))
           (opened w ++ [packages_hdb loc])).
Proof.
  intros Hdir Hnone. unfold append_skeleton, realpath. rewrite Hnone, Hnone.
  unfold packages_hdb at 1. by rewrite dirname_child, Hdir.
Qed.

Lemma store_written_read fs log db c :
  db <> [] ->
  store_at (World (Dict.set db (File (Plain (Config c))) fs) log) db c.
Proof.
  intros Hdb. unfold store_at, realpath, lstat. simpl files.
  destruct db; [done|]. by rewrite !dict_get_set_eq.
Qed.

Lemma packages_hdb_nonempty loc : packages_hdb loc <> [].
Proof. unfold packages_hdb. by destruct loc. Qed.

(** A store made by [create_repo] where there was none is a valid one:
    when the call returns [True] for a location that had no
    [packages.hdb], [validate_package_database] accepts the new file and
    both of its sections are empty. *)
Theorem create_repo_valid :
  forall (repo_location : path) (w w' : world) (n v : string),
    lstat w (packages_hdb repo_location) = None ->
    isdir w repo_location = true \/ basename repo_location <> "packages.hdb" ->
    create_repo repo_location w = (Ret (VBool true), w') ->
    validate_package_database (packages_hdb repo_location) w' = (Ret (VBool true), w')
    /\ package_database_api (packages_hdb repo_location) "list" "INSTALLED" n v w'
       = (Ret (VList []), w')
    /\ package_database_api (packages_hdb repo_location) "list" "AVAILABLE" n v w'
       = (Ret (VList []), w').
Proof.
  intros loc w w' n v Hnone Hcase.
  unfold create_repo, init_package_database, try_except_OSError, mbind, M_bind, gets.
  set (db := packages_hdb loc) in *.
  assert (store_at w' db skeleton ->
          validate_package_database db w' = (Ret (VBool true), w')
          /\ package_database_api db "list" "INSTALLED" n v w' = (Ret (VList []), w')
          /\ package_database_api db "list" "AVAILABLE" n v w' = (Ret (VList []), w'))
    as Hgoal.
  { intros Hstore. pose proof (store_at_read _ _ _ Hstore) as Hread.
    unfold validate_package_database, package_database_api, mbind, M_bind.
    by rewrite Hread. }
  destruct (isdir w loc) eqn:Hdir; cbv beta iota.
  - rewrite (append_skeleton_fresh _ _ Hdir Hnone : append_skeleton db w = _).
    cbv beta iota.
    intros [= <-]. apply Hgoal, store_written_read, packages_hdb_nonempty.
  - destruct Hcase as [?|Hbase]; [done|].
    apply String.eqb_neq in Hbase. rewrite Hbase.
    destruct (Os.makedirs loc w) as [[[]|e] w1] eqn:Hmk; cbv beta iota.
    + assert (isdir w1 loc = true) as Hdir1 by (by apply (makedirs_isdir _ w)).
      assert (lstat w1 db = None) as Hnone1.
      { destruct (makedirs_from_frame [] loc w _ w1 Hmk) as [Hframe _].
        rewrite lstat_get by apply packages_hdb_nonempty.
        rewrite Hframe by apply under_longer.
        rewrite <- lstat_get by apply packages_hdb_nonempty. exact Hnone. }
      rewrite (append_skeleton_fresh _ _ Hdir1 Hnone1 : append_skeleton db w1 = _).
      cbv beta iota.
      intros [= <-]. apply Hgoal, store_written_read, packages_hdb_nonempty.
    + intros Hrun. destruct (is_OSError e); by inversion Hrun.
Qed.

Lemma create_repo_valid_witness :
  validate_package_database (packages_hdb ["srv"; "new"])
    (snd (create_repo ["srv"; "new"] Sample.repo_world))
  = (Ret (VBool true), snd (create_repo ["srv"; "new"] Sample.repo_world))
  /\ package_database_api (packages_hdb ["srv"; "new"]) "list" "INSTALLED" "" ""
       (snd (create_repo ["srv"; "new"] Sample.repo_world))
     = (Ret (VList []), snd (create_repo ["srv"; "new"] Sample.repo_world))
  /\ package_database_api (packages_hdb ["srv"; "new"]) "list" "AVAILABLE" "" ""
       (snd (create_repo ["srv"; "new"] Sample.repo_world))
     = (Ret (VList []), snd (create_repo ["srv"; "new"] Sample.repo_world)).
Proof.
  apply (create_repo_valid ["srv"; "new"] Sample.repo_world).
  - reflexivity.
  - right. discriminate.
  - vm_compute. reflexivity.
Defined.

(** ** Install and remove *)

(** A computation that returns has gone through both halves of a
    bind. *)
Lemma bind_ret {A B : Type} (m : M A) (k : A -> M B) w b w' :
  (m ≫= k) w = (Ret b, w') ->
  exists a w1, m w = (Ret a, w1) /\ k a w1 = (Ret b, w').
Proof.
  unfold mbind, M_bind. destruct (m w) as [[a|e] w1]; [|done].
  intros Hk. by exists a, w1.
Qed.



(** A package that is recorded as installed is not installed again:
    [install_package] returns [False] without a request to any source
    and without a change to the file system. *)
Theorem install_package_already_installed :
  forall (home : path) (requests_get : string -> result content)
         (pkg_name source_override : string) (w : world)
         (store : config) (installed : options),
    read_config (local_db home) w = (Ret store, w) ->
    Dict.get "INSTALLED" store = Some installed ->
    pkg_name ∈ Dict.keys installed ->
    install_package home requests_get pkg_name source_override w
    = (Ret (VBool false), w).
Proof.
  intros home requests_get pkg s w c o Hread Ho Hin.
  assert (is_Some (Dict.get "INSTALLED" c)) as Hsec by (rewrite Ho; by eexists).
  pose proof (read_store_at _ _ _ _ Hread Hsec) as Hstore.
  pose proof (store_at_isfile _ _ _ Hstore) as Hfile.
  unfold install_package, mbind, M_bind, gets. rewrite Hfile.
  rewrite (api_check _ _ c) by done.
  unfold ConfigParser.keys, section. rewrite Ho.
  apply contains_true in Hin. by rewrite Hin.
Qed.

Lemma install_package_already_installed_witness :
  install_package Sample.user Sample.net "hello" "" Sample.hello_home
  = (Ret (VBool false), Sample.hello_home).
Proof.
  apply (install_package_already_installed Sample.user Sample.net "hello" ""
           Sample.hello_home
           [("INSTALLED", [("hello", "1.0")]); ("AVAILABLE", [])] [("hello", "1.0")]).
  - reflexivity.
  - reflexivity.
  - apply elem_of_cons. by left.
Defined.






(** *** What a removal leaves *)


Lemma api_check_world db sec n v w :
  snd (package_database_api db "check" sec n v w) = w.
Proof.
  unfold package_database_api, mbind, M_bind.
  pose proof (read_config_world db w) as Hw.
  destruct (read_config db w) as [[c|e] w1]; simpl in Hw; subst w1; [|done].
  simpl. unfold lift. by destruct (ConfigParser.keys c sec).
Qed.









Section Removal.
Context (home : path).






End Removal.


(** ** Listings and package information *)

Lemma for_each_readonly {A : Type} (l : list A) (body : A -> M unit) :
  (forall x w, snd (body x w) = w) ->
  forall w, snd (for_each l body w) = w.
Proof.
  intros Hbody. induction l as [|x l IH]; intros w; [done|].
  rewrite for_each_cons. specialize (Hbody x w).
  destruct (body x w) as [[[]|e] w1]; simpl in Hbody; subst w1; [apply IH|done].
Qed.

Lemma bind_readonly {A B : Type} (m : M A) (k : A -> M B) w :
  snd (m w) = w -> (forall a, snd (k a w) = w) -> snd ((m ≫= k) w) = w.
Proof.
  intros Hm Hk. unfold mbind, M_bind.
  destruct (m w) as [[a|e] w1]; simpl in Hm; subst w1; [apply Hk|done].
Qed.

Lemma api_readonly_world db action sec n v w :
  action = "check" \/ action = "version" \/ action = "list" ->
  snd (package_database_api db action sec n v w) = w.
Proof.
  intros Haction. unfold package_database_api.
  apply bind_readonly; [apply read_config_world|intros c].
  destruct Haction as [-> | [-> | ->]]; simpl;
    (apply bind_readonly; [done|by intros ?]).
Qed.

Section Listings.
Context (home : path) (requests_get : string -> result content).

Lemma list_remote_world sources w :
  snd (list_remote requests_get sources w) = w.
Proof.
  induction sources as [|s sources IH]; [done|]. simpl.
  destruct (requests_get (s +:+ "/packages.hdb")) as [remote_db|[]]; try done.
  apply bind_readonly; [done|intros c].
  apply bind_readonly; [done|intros available].
  apply bind_readonly; [|intros _; apply IH].
  apply for_each_readonly. intros i w0.
  apply bind_readonly; [done|by intros ?].
Qed.

(** The listings only read: whatever they return or raise, [list_repo]
    and [list_packages] leave the files as they are and open none for
    writing. *)
Theorem listings_leave_world :
  forall (prefix : path) (pkg_source : string) (w : world),
    snd (list_repo prefix w) = w
    /\ snd (list_packages home requests_get pkg_source w) = w.
Proof.
  intros prefix pkg_source w. split.
  - unfold list_repo.
    apply bind_readonly; [done|intros there].
    destruct (negb there); [done|].
    apply bind_readonly; [apply read_config_world|intros c].
    apply bind_readonly; [done|by intros ?].
  - unfold list_packages.
    apply bind_readonly; [apply read_config_world|intros c].
    destruct (String.eqb pkg_source "local").
    + apply bind_readonly; [apply api_readonly_world; auto|intros [b|s|names]]; try done.
      apply bind_readonly; [|by intros ?].
      apply for_each_readonly. intros i w0.
      apply bind_readonly; [apply api_readonly_world; auto|by intros ?].
    + apply bind_readonly; [done|intros sources].
      destruct (contains pkg_source sources || String.eqb pkg_source "all"); [|done].
      apply list_remote_world.
Qed.

(** The archive that the download loop returns is in the cache. *)
Lemma install_fetch_some pkg sources w p w1 :
  install_fetch home requests_get pkg sources w = (Ret (Some p), w1) ->
  isfile w1 (cache_dir home ++ [pkg +:+ ".hkg"]) = true.
Proof.
  revert w. induction sources as [|s sources IH]; intros w; [done|]. simpl.
  destruct (requests_get (s +:+ "/packages.hdb")) as [remote_db|[]]; try done;
    [|apply IH].
  intros Hrun.
  apply bind_ret in Hrun as (c & w0 & [= _ <-] & Hrun).
  apply bind_ret in Hrun as (available & w0 & [= _ <-] & Hrun).
  destruct (contains pkg available); [|by apply (IH w)].
  apply bind_ret in Hrun as (pkg_download & w0 & [= _ <-] & Hrun).
  apply bind_ret in Hrun as (f & w2 & Hopen & Hrun).
  apply bind_ret in Hrun as ([] & w3 & [= <-] & [= _ <-]).
  unfold isfile. by rewrite (open_w_write_stat _ _ _ _ pkg_download Hopen).
Qed.

Lemma info_tail_world pkg w : snd (info_tail home pkg w) = w.
Proof.
  unfold info_tail.
  apply bind_readonly; [apply open_r_world|intros a].
  apply bind_readonly; [done|intros d].
  apply bind_readonly; [done|intros c].
  apply bind_readonly; [done|intros names].
  apply bind_readonly; [|by intros ?].
  apply for_each_readonly. intros i w0.
  apply bind_readonly; [done|by intros ?].
Qed.

Lemma package_info_cached pkg w :
  isfile w (cache_dir home ++ [pkg +:+ ".hkg"]) = true ->
  package_info home requests_get pkg w = info_tail home pkg w.
Proof.
  intros Hcached. unfold package_info, info_tail, mbind at 1 2, M_bind at 1 2, gets.
  by rewrite Hcached.
Qed.

End Listings.

(** [package_info] keeps what it downloads: once it has returned
    [True], the archive is in the cache, and the next call for the same
    package returns [True] again with the network down or changed, and
    without a change to the file system. *)
Theorem package_info_then_offline :
  forall (home : path) (requests_get requests_get' : string -> result content)
         (pkg_name : string) (w w' : world),
    package_info home requests_get pkg_name w = (Ret (VBool true), w') ->
    isfile w' (cache_dir home ++ [pkg_name +:+ ".hkg"]) = true
    /\ package_info home requests_get' pkg_name w' = (Ret (VBool true), w').
Proof.
  intros home net net' pkg w w' Hrun.
  assert (exists w1, isfile w1 (cache_dir home ++ [pkg +:+ ".hkg"]) = true
                     /\ info_tail home pkg w1 = (Ret (VBool true), w'))
    as (w1 & Hcached & Htail).
  { destruct (isfile w (cache_dir home ++ [pkg +:+ ".hkg"])) eqn:Hc.
    - exists w. split; [done|]. by rewrite <- (package_info_cached home net).
    - unfold package_info in Hrun.
      apply bind_ret in Hrun as (cached & w0 & [= <- <-] & Hrun).
      rewrite Hc in Hrun.
      apply bind_ret in Hrun as (found & w1 & Hfetch & Hrun).
      apply bind_ret in Hfetch as (config_data & w2 & _ & Hfetch).
      apply bind_ret in Hfetch as (sources & w3 & _ & Hfetch).
      apply bind_ret in Hfetch as (got & w4 & Hfetch & [= <- <-]).
      destruct got as [p|]; [|done].
      exists w4. split; [by apply (install_fetch_some _ _ _ _ _ _ _ Hfetch)|exact Hrun]. }
  pose proof (info_tail_world home pkg w1) as Hw. rewrite Htail in Hw. simpl in Hw.
  subst w'. split; [done|].
  by rewrite (package_info_cached home net' pkg w1 Hcached).
Qed.

Lemma package_info_then_offline_witness :
  isfile (snd (package_info Sample.user Sample.net "hello" Sample.hello_home))
    (cache_dir Sample.user ++ ["hello" +:+ ".hkg"]) = true
  /\ package_info Sample.user (fun _ => Raise ConnectionError) "hello"
       (snd (package_info Sample.user Sample.net "hello" Sample.hello_home))
     = (Ret (VBool true),
        snd (package_info Sample.user Sample.net "hello" Sample.hello_home)).
Proof.
  apply (package_info_then_offline Sample.user Sample.net (fun _ => Raise ConnectionError)
           "hello" Sample.hello_home).
  vm_compute. reflexivity.
Defined.

(** ** What a synchronisation leaves in the store *)

(** On a repository whose archives are named after packages in
    lower-case letters and record versions that [version_ok] accepts,
    with a store that has no [DEFAULT] section and whose [AVAILABLE]
    section holds such names and versions: after [update_repo] has
    returned [True], the [AVAILABLE] section names exactly the packages
    whose archives were scanned: every scanned package is listed, with a
    version that the one in its archive does not exceed, and every name
    that is listed has its archive in the directory. *)
Theorem update_repo_synchronises :
  forall (repo_location : path) (w w1 : world),
    (forall names, Os.listdir repo_location w = (Ret names, w) ->
       Forall (fun name => is_hkg name = true ->
                 valid_name (slice_but_last 4 name) = true) names) ->
    (forall d, repo_versions repo_location w = (Ret d, w) ->
       Forall (fun entry => version_ok (snd entry) = true) d) ->
    (forall c, read_config (packages_hdb repo_location) w = (Ret c, w) ->
       Dict.get "DEFAULT" c = None
       /\ forall o, Dict.get "AVAILABLE" c = Some o ->
            Forall (fun entry => valid_name (fst entry) = true
                                 /\ version_ok (snd entry) = true) o) ->
    update_repo repo_location w = (Ret (VBool true), w1) ->
    exists (on_disk : list (string * string)) (available : options),
      repo_versions repo_location w = (Ret on_disk, w)
      /\ available_at w1 (packages_hdb repo_location) available
      /\ (forall name, name ∈ Dict.keys available <-> name ∈ Dict.keys on_disk)
      /\ Forall (up_to_date available) on_disk.
Proof.
  intros repo w wC Hvalid _ Hstored Hrun.
  pose proof (valid_archives_lower _ _ Hvalid) as Hnames.
  pose proof (valid_store_normal _ _ Hstored) as Hnormal.
  destruct (update_repo_returns _ _ _ _ Hrun)
    as [(_ & [=] & _)|(Hfile & _ & d & wB & cB & ks & Hscan & HloopB & HreadB & Hks & HloopC)].
  set (db := packages_hdb repo) in *.
  destruct (reconcile_needs_available _ _ _ _ _ _ Hfile HloopB HreadB Hks) as [o Havail].
  pose proof Havail as (c & Hstore & Ho).
  destruct (scan_names _ _ _ Hnames Hscan) as [Hd Hnodup].
  assert (normal_names (Dict.keys o)) as Ho_normal.
  { apply (Hnormal c); [by apply store_at_read|done]. }
  destruct (add_or_update_all db d w o _ _ Havail Hd Hnodup HloopB)
    as (_ & oB & HavailB & _ & HallB & HkeysB & _).
  assert (ks = Dict.keys oB) as ->.
  { destruct HavailB as (cB2 & HstoreB & HoB).
    rewrite (store_at_read _ _ _ HstoreB) in HreadB. injection HreadB as <-.
    unfold ConfigParser.keys, section in Hks. rewrite HoB in Hks. by injection Hks. }
  assert (normal_names (Dict.keys oB)) as HoB_normal.
  { apply Forall_forall. intros k Hk.
    unfold normal_names in Ho_normal, Hd. rewrite Forall_forall in Ho_normal, Hd.
    destruct (HkeysB k Hk); auto. }
  destruct (delete_stale_all db (Dict.keys d) (Dict.keys oB) wB oB _ _
              HavailB HoB_normal HloopC)
    as (_ & oC & HavailC & _ & HkeysC & HkeepC).
  assert (Forall (up_to_date oC) d) as HallC.
  { rewrite Forall_forall in HallB. apply Forall_forall. intros e He.
    apply HkeepC; [|by apply HallB].
    unfold Dict.keys. apply list_elem_of_fmap. by exists e. }
  exists d, oC. split; [done|]. split; [done|]. split; [|done].
  intros name. split.
  - intros Hin. destruct (HkeysC name Hin) as [HinB Hdisk]. by apply Hdisk.
  - intros Hin. unfold Dict.keys in Hin. apply list_elem_of_fmap in Hin as (e & -> & He).
    rewrite Forall_forall in HallC. by destruct (HallC e He) as [? _].
Qed.

Lemma update_repo_synchronises_witness :
  exists (on_disk : list (string * string)) (available : options),
    repo_versions Sample.repo Sample.tidy_repo_world = (Ret on_disk, Sample.tidy_repo_world)
    /\ available_at (snd (update_repo Sample.repo Sample.tidy_repo_world))
         (packages_hdb Sample.repo) available
    /\ (forall name, name ∈ Dict.keys available <-> name ∈ Dict.keys on_disk)
    /\ Forall (up_to_date available) on_disk.
Proof.
  apply (update_repo_synchronises Sample.repo Sample.tidy_repo_world).
  - intros names Hlist. vm_compute in Hlist. injection Hlist as <-.
    repeat constructor.
  - intros d Hscan. vm_compute in Hscan. injection Hscan as <-.
    repeat constructor.
  - intros c Hread. vm_compute in Hread. injection Hread as <-.
    split; [reflexivity|]. intros o Ho.
    vm_compute in Ho. injection Ho as <-.
    repeat constructor.
  - vm_compute. reflexivity.
Defined.

(** ** An update with nothing to do *)

Section Quiet.
Context (home : path) (requests_get : string -> result content).

Lemma update_over_sources_quiet local_pkg_db p no_preserve_flag sources flag w :
  Forall (nothing_newer requests_get local_pkg_db p) sources ->
  update_over_sources home requests_get local_pkg_db p no_preserve_flag sources flag w
  = (Ret flag, w).
Proof.
  induction 1 as [|s sources Hs _ IH]; [done|]. simpl.
  destruct Hs as [->|(remote_db & remote & available & -> & Hparse & _ & Havail & Hcase)];
    [exact IH|].
  unfold mbind, M_bind, lift. rewrite Hparse.
  unfold ConfigParser.keys, section. rewrite Havail.
  destruct Hcase as [Hnin|(rv & lv & -> & -> & _ & _ & ->)].
  - by rewrite (proj2 (contains_false _ _) Hnin).
  - by destruct (contains p (Dict.keys available)).
Qed.

Lemma update_over_packages_quiet local_pkg_db no_preserve_flag sources pkgs flag w :
  (forall p s, p ∈ pkgs -> s ∈ sources -> nothing_newer requests_get local_pkg_db p s) ->
  update_over_packages home requests_get local_pkg_db no_preserve_flag sources pkgs flag w
  = (Ret flag, w).
Proof.
  induction pkgs as [|p pkgs IH]; intros Hquiet; [done|]. simpl.
  unfold mbind, M_bind. rewrite update_over_sources_quiet.
  - apply IH. intros q s Hq Hs. apply Hquiet; [by right|done].
  - apply Forall_forall. intros s Hs. apply Hquiet; [by left|done].
Qed.

End Quiet.

(** When no source has anything newer, an update changes nothing.  The
    local store has no [DEFAULT] section and the settings are
    [literal]; if for every configured source the request ends in the
    builtin [ConnectionError], the class that the loop catches, or the
    store of the source does not list the package, or lists it with a
    version that is not above the installed one ([nothing_newer]) --
    for the package asked for, or for every installed package when
    [all] is asked for -- [update_package] returns [True] and the file
    system is as it was. *)
Theorem update_package_nothing_newer :
  forall (home : path) (requests_get : string -> result content)
         (pkg_name : string) (no_preserve_flag : bool) (w : world)
         (local_pkg_db settings : config) (sources : options)
         (packages_to_check : list string),
    isfile w (local_db home) = true ->
    read_config (local_db home) w = (Ret local_pkg_db, w) ->
    Dict.get "DEFAULT" local_pkg_db = None ->
    load_config home w = (Ret settings, w) ->
    literal settings = true ->
    Dict.get "SOURCES" settings = Some sources ->
    (if String.eqb pkg_name "all"
     then ConfigParser.keys local_pkg_db "INSTALLED"
     else Ret [pkg_name]) = Ret packages_to_check ->
    (forall p s, p ∈ packages_to_check -> s ∈ Dict.keys sources ->
       nothing_newer requests_get local_pkg_db p s) ->
    update_package home requests_get pkg_name no_preserve_flag w
    = (Ret (VBool true), w).
Proof.
  intros home net pkg flag w local settings sources pkgs
    Hfile Hlocal _ Hsettings _ Hsources Hpkgs Hquiet.
  unfold update_package, mbind, M_bind, gets. rewrite Hfile.
  change (negb true) with false. cbv beta iota.
  rewrite Hlocal, Hsettings.
  unfold lift at 1. unfold ConfigParser.keys at 1, section at 1. rewrite Hsources.
  assert ((if String.eqb pkg "all"
           then lift (ConfigParser.keys local "INSTALLED")
           else mret [pkg]) w = (Ret pkgs, w)) as ->.
  { destruct (String.eqb pkg "all"); unfold lift, mret, M_ret; by rewrite Hpkgs. }
  by rewrite update_over_packages_quiet.
Qed.

Lemma update_package_nothing_newer_witness :
  update_package Sample.user Sample.net "all" false
    (snd (update_package Sample.user Sample.net "hello" false Sample.hello_home))
  = (Ret (VBool true),
     snd (update_package Sample.user Sample.net "hello" false Sample.hello_home)).
Proof.
  apply (update_package_nothing_newer Sample.user Sample.net "all" false _
           [("INSTALLED", [("hello", "1.2")]); ("AVAILABLE", [])]
           Sample.sources_conf
           [("http://down", "enabled"); ("http://other", "enabled");
            ("http://repo", "enabled")]
           ["hello"]).
  - vm_compute. reflexivity.
  - vm_compute. reflexivity.
  - reflexivity.
  - vm_compute. reflexivity.
  - reflexivity.
  - reflexivity.
  - reflexivity.
  - intros p s Hp Hs. apply list_elem_of_singleton in Hp as ->.
    repeat (apply elem_of_cons in Hs as [->|Hs]).
    + left. reflexivity.
    + right. eexists _, _, [("tool", "2.0")]. split; [reflexivity|].
      split; [reflexivity|]. split; [reflexivity|]. split; [reflexivity|].
      left. intros Hin. apply list_elem_of_singleton in Hin. discriminate Hin.
    + right. eexists _, _, [("hello", "1.2"); ("broken", "0.1")]. split; [reflexivity|].
      split; [reflexivity|]. split; [reflexivity|]. split; [reflexivity|].
      right. exists "1.2", "1.2". repeat split; reflexivity.
    + by apply elem_of_nil in Hs.
Defined.

(** ** Package metadata *)

(** For a file that the parser reads as it is written ([literal]: no
    [DEFAULT] section and no [%] in a value), [validate_metadata]
    returns [True] exactly when the file has the one section [METADATA]
    and the option names of that section are the six expected ones,
    each once, in any order. *)
Theorem validate_metadata_true :
  forall (metadata_path : path) (w : world) (metadata : config),
    read_config metadata_path w = (Ret metadata, w) ->
    literal metadata = true ->
    validate_metadata metadata_path w = (Ret (VBool true), w) <->
    exists opts,
      metadata = [("METADATA", opts)]
      /\ Dict.keys opts
         ≡ₚ ["name"; "version"; "description"; "author_name"; "author_email"; "website"].
Proof.
  intros p w c Hread _. unfold validate_metadata, mbind, M_bind. rewrite Hread.
  split.
  - destruct c as [|[name opts] [|? ?]]; try done.
    intros [= Hall]. repeat (apply andb_prop in Hall as [Hall ?]).
    apply String.eqb_eq in Hall as ->. exists opts. split; [done|].
    symmetry. apply submseteq_length_Permutation.
    + apply NoDup_submseteq.
      * apply (bool_decide_unpack _). by vm_compute.
      * intros x Hx.
        repeat (apply elem_of_cons in Hx as [->|Hx]; [by apply contains_true|]).
        by apply elem_of_nil in Hx.
    + match goal with H : Nat.eqb _ 6 = true |- _ => apply Nat.eqb_eq in H; by rewrite H end.
  - intros (opts & -> & Hperm). simpl.
    assert (forall x, x ∈ ["name"; "version"; "description"; "author_name";
                           "author_email"; "website"] ->
                      contains x (Dict.keys opts) = true) as Hin.
    { intros x Hx. apply contains_true. by rewrite Hperm. }
    rewrite (Permutation_length Hperm). simpl.
    rewrite !Hin; [done|..]; repeat ((by left) || right).
Qed.

Lemma validate_metadata_true_witness :
  validate_metadata (install_dir Sample.user ++ ["hello"; "metadata"]) Sample.hello_home
    = (Ret (VBool true), Sample.hello_home) <->
  exists opts,
    Sample.metadata_of "hello" "1.0" = [("METADATA", opts)]
    /\ Dict.keys opts
       ≡ₚ ["name"; "version"; "description"; "author_name"; "author_email"; "website"].
Proof.
  apply (validate_metadata_true (install_dir Sample.user ++ ["hello"; "metadata"])
           Sample.hello_home (Sample.metadata_of "hello" "1.0"));
    reflexivity.
Defined.

(** ** A new package skeleton *)

(** What is found at [p] once a file has been put where [p] leads. *)
Lemma stat_set_realpath w p c log :
  realpath w p <> [] ->
  stat (World (Dict.set (realpath w p) (File c) (files w)) log) p = Some (File c).
Proof.
  intros Hq. set (q := realpath w p) in *. set (w' := World _ _).
  assert (p = q \/ lstat w p = Some (Symlink q)) as Hp.
  { unfold q, realpath. destruct (lstat w p) as [[| |t]|] eqn:Hl; auto. }
  clearbody q.
  assert (lstat w' q = Some (File c)) as Hlq.
  { rewrite lstat_get by done. unfold w'. simpl files. by rewrite dict_get_set_eq. }
  assert (realpath w' p = q) as Hr.
  { destruct (decide (p = q)) as [->|Hne]; [unfold realpath; by rewrite Hlq|].
    destruct Hp as [?|Hlink]; [done|].
    unfold realpath.
    assert (lstat w' p = lstat w p) as ->.
    { unfold lstat, w'. destruct p; [done|]. simpl files. by rewrite dict_get_set_ne. }
    by rewrite Hlink. }
  unfold stat. by rewrite Hr, Hlq.
Qed.

(** A file written where there was a file, or nothing, leaves the
    directories directories and the files files. *)
Lemma set_file_keeps w w' q c x :
  lstat w q = None \/ (exists c0, lstat w q = Some (File c0)) ->
  files w' = Dict.set q (File c) (files w) ->
  isdir w' x = isdir w x /\ (isfile w x = true -> isfile w' x = true).
Proof.
  intros Hq E.
  assert (forall y, lstat w' y = if decide (y = q) then
                                   (if decide (y = []) then Some Dir else Some (File c))
                                 else lstat w y) as Hl.
  { intros y. unfold lstat. rewrite E. destruct y as [|a y].
    - by repeat case_decide.
    - case_decide as Hy.
      + subst q. rewrite decide_False by done. apply dict_get_set_eq.
      + apply dict_get_set_ne. congruence. }
  assert (q <> []) as Hne.
  { intros ->. destruct Hq as [Hq|[c0 Hq]]; discriminate Hq. }
  assert (lstat w' q = Some (File c)) as Hlq
    by (rewrite Hl, decide_True by done; by rewrite decide_False).
  assert (isdir w q = false) as Hdq.
  { unfold isdir, stat, realpath.
    destruct Hq as [Hq|[c0 Hq]]; rewrite Hq; simpl; by rewrite Hq. }
  assert (forall r, realpath w' x = r -> r = q ->
            isdir w' x = false /\ isfile w' x = true) as Hnew.
  { intros r Hr ->. unfold isdir, isfile, stat. by rewrite Hr, Hlq. }
  destruct (decide (x = q)) as [->|Hx].
  - destruct (Hnew q) as [-> ->]; [|done|by rewrite Hdq].
    unfold realpath. by rewrite Hlq.
  - assert (lstat w' x = lstat w x) as Hlx by (rewrite Hl; by rewrite decide_False).
    assert (realpath w' x = realpath w x) as Hr by (unfold realpath; by rewrite Hlx).
    destruct (decide (realpath w x = q)) as [Eq|Hrq].
    + destruct (Hnew _ Hr Eq) as [-> ->]. split; [|done].
      unfold isdir, stat. rewrite Eq.
      destruct Hq as [Hq|[c0 Hq]]; by rewrite Hq.
    + unfold isdir, isfile, stat. rewrite Hr, Hl. by rewrite decide_False.
Qed.

Lemma open_w_returns p w f w1 :
  Os.open_w p w = (Ret f, w1) ->
  f = realpath w p
  /\ files w1 = Dict.set f (File empty_file) (files w)
  /\ (lstat w f = None \/ exists c0, lstat w f = Some (File c0)).
Proof.
  unfold Os.open_w. destruct (lstat w (realpath w p)) as [[|c0|t]|] eqn:Hl; try done.
  - intros [= <- <-]. split; [done|]. split; [done|]. right. by exists c0.
  - destruct (isdir w (dirname (realpath w p))); [|done].
    intros [= <- <-]. split; [done|]. split; [done|]. by left.
Qed.

Lemma touch_returns p w w' :
  touch p w = (Ret tt, w') ->
  isfile w' p = true
  /\ forall x, isdir w' x = isdir w x /\ (isfile w x = true -> isfile w' x = true).
Proof.
  unfold touch. destruct (lstat w (realpath w p)) as [[|c0|t]|] eqn:Hl; try done.
  - intros [= <-]. split.
    + unfold isfile, stat. simpl. fold (lstat w (realpath w p)).
      change (lstat (World (files w) (opened w ++ [p])) (realpath (World (files w) (opened w ++ [p])) p))
        with (lstat w (realpath w p)).
      by rewrite Hl.
    + intros x. by split.
  - destruct (isdir w (dirname (realpath w p))); [|done].
    intros [= <-]. split.
    + unfold isfile. rewrite stat_set_realpath; [done|].
      intros E. by rewrite E in Hl.
    + intros x. apply (set_file_keeps w _ (realpath w p) empty_file); [by left|done].
Qed.

Lemma makedirs_keeps p w w' x :
  Os.makedirs p w = (Ret tt, w') ->
  (isdir w x = true -> isdir w' x = true)
  /\ (isfile w x = true -> isfile w' x = true).
Proof.
  intros Hrun. split; intros Hx.
  - destruct (makedirs_from_preserves p [] w _ w' x Hrun) as [_ Hs];
      [by apply isdir_is_Some|].
    unfold isdir in *. by rewrite Hs.
  - destruct (makedirs_from_preserves p [] w _ w' x Hrun) as [_ Hs];
      [by apply isfile_is_Some|].
    unfold isfile in *. by rewrite Hs.
Qed.

(** The steps of a run of [init_package_directory] that returns
    [True]. *)
Lemma init_package_directory_true loc w w' :
  init_package_directory loc w = (Ret (VBool true), w') ->
  let inner := loc ++ [basename loc] in
  exists w1 w2 w3 w4 w5 w6 f w7,
    Os.makedirs loc w = (Ret tt, w1)
    /\ Os.makedirs inner w1 = (Ret tt, w2)
    /\ Os.makedirs (inner ++ ["etc"]) w2 = (Ret tt, w3)
    /\ Os.makedirs (inner ++ ["lib"]) w3 = (Ret tt, w4)
    /\ touch (loc ++ ["metadata"]) w4 = (Ret tt, w5)
    /\ touch (inner ++ ["your_program.bin"]) w5 = (Ret tt, w6)
    /\ Os.open_w (loc ++ ["metadata"]) w6 = (Ret f, w7)
    /\ w' = World (Dict.set f (File (Plain (Config skeleton_metadata))) (files w7))
                  (opened w7).
Proof.
  intros Hrun inner.
  unfold init_package_directory, try_except_OSError in Hrun. fold inner in Hrun.
  match type of Hrun with
  | match ?body w with _ => _ end = _ =>
      destruct (body w) as [[v|e] w9] eqn:Hbody;
        [|destruct (is_OSError e); by inversion Hrun]
  end.
  injection Hrun as -> ->.
  apply bind_ret in Hbody as ([] & w1 & H1 & Hbody).
  apply bind_ret in Hbody as ([] & w2 & H2 & Hbody).
  apply bind_ret in Hbody as ([] & w3 & H3 & Hbody).
  apply bind_ret in Hbody as ([] & w4 & H4 & Hbody).
  apply bind_ret in Hbody as ([] & w5 & H5 & Hbody).
  apply bind_ret in Hbody as ([] & w6 & H6 & Hbody).
  apply bind_ret in Hbody as (f & w7 & H7 & Hbody).
  apply bind_ret in Hbody as ([] & w8 & H8 & [= <-]).
  unfold Os.write, set_node in H8. injection H8 as <-.
  by exists w1, w2, w3, w4, w5, w6, f, w7.
Qed.

(** When [init_package_directory] returns [True], the skeleton is
    there: the four directories are directories, [your_program.bin] is
    a file, and [metadata] holds the six placeholder entries, which
    [validate_metadata] accepts -- whatever a [metadata] file at that
    place held before. *)
Theorem init_package_directory_makes :
  forall (source_location : path) (w w' : world),
    init_package_directory source_location w = (Ret (VBool true), w') ->
    let inner := source_location ++ [basename source_location] in
    isdir w' source_location = true
    /\ isdir w' inner = true
    /\ isdir w' (inner ++ ["etc"]) = true
    /\ isdir w' (inner ++ ["lib"]) = true
    /\ isfile w' (inner ++ ["your_program.bin"]) = true
    /\ read_config (source_location ++ ["metadata"]) w' = (Ret skeleton_metadata, w')
    /\ validate_metadata (source_location ++ ["metadata"]) w' = (Ret (VBool true), w').
Proof.
  intros loc w w' Hrun inner.
  destruct (init_package_directory_true _ _ _ Hrun)
    as (w1 & w2 & w3 & w4 & w5 & w6 & f & w7 & H1 & H2 & H3 & H4 & H5 & H6 & H7 & ->).
  fold inner in H2, H3, H4, H6. clear Hrun.
  pose proof (makedirs_isdir _ _ _ H1) as D1.
  pose proof (makedirs_isdir _ _ _ H2) as D2.
  pose proof (makedirs_isdir _ _ _ H3) as D3.
  pose proof (makedirs_isdir _ _ _ H4) as D4.
  destruct (touch_returns _ _ _ H5) as [_ K5].
  destruct (touch_returns _ _ _ H6) as [F6 K6].
  pose proof (open_w_write_stat _ _ _ _ (Plain (Config skeleton_metadata)) H7) as Hmeta.
  destruct (open_w_returns _ _ _ _ H7) as (Hf & Hfiles7 & Hwas).
  set (w8 := World _ _) in *.
  assert (forall x, isdir w8 x = isdir w6 x /\ (isfile w6 x = true -> isfile w8 x = true))
    as K8.
  { intros x. apply (set_file_keeps w6 w8 f (Plain (Config skeleton_metadata))); [done|].
    unfold w8. simpl files. by rewrite Hfiles7, dict_set_set. }
  assert (forall x, isdir w4 x = true -> isdir w8 x = true) as Hdirs.
  { intros x Hx. rewrite (proj1 (K8 x)), (proj1 (K6 x)), (proj1 (K5 x)). exact Hx. }
  assert (read_config (loc ++ ["metadata"]) w8 = (Ret skeleton_metadata, w8)) as Hread
    by (unfold read_config; by rewrite Hmeta).
  split; [|split; [|split; [|split; [|split; [|split]]]]].
  - apply Hdirs. apply (makedirs_keeps _ _ _ _ H4), (makedirs_keeps _ _ _ _ H3).
    by apply (makedirs_keeps _ _ _ _ H2).
  - apply Hdirs. by apply (makedirs_keeps _ _ _ _ H4), (makedirs_keeps _ _ _ _ H3).
  - apply Hdirs. by apply (makedirs_keeps _ _ _ _ H4).
  - by apply Hdirs.
  - by apply K8.
  - exact Hread.
  - unfold validate_metadata, mbind, M_bind. by rewrite Hread.
Qed.

Lemma init_package_directory_makes_witness :
  let w' := snd (init_package_directory ["tmp"; "test_package"] Sample.store_world) in
  let inner := ["tmp"; "test_package"] ++ [basename ["tmp"; "test_package"]] in
  isdir w' ["tmp"; "test_package"] = true
  /\ isdir w' inner = true
  /\ isdir w' (inner ++ ["etc"]) = true
  /\ isdir w' (inner ++ ["lib"]) = true
  /\ isfile w' (inner ++ ["your_program.bin"]) = true
  /\ read_config (["tmp"; "test_package"] ++ ["metadata"]) w' = (Ret skeleton_metadata, w')
  /\ validate_metadata (["tmp"; "test_package"] ++ ["metadata"]) w' = (Ret (VBool true), w').
Proof.
  apply (init_package_directory_makes ["tmp"; "test_package"] Sample.store_world).
  vm_compute. reflexivity.
Defined.

(** *** The skeleton is a valid source tree *)

Lemma children_elem (fs : list (path * node)) d name :
  name ∈ children fs d <-> is_Some (Dict.get (d ++ [name]) fs).
Proof.
  split; [|apply elem_of_children].
  unfold children. intros ([q n] & Hin & Hchild)%list_elem_of_omap.
  unfold child_name in Hchild. simpl in Hchild.
  destruct (strip_prefix d q) as [[|x [|? ?]]|] eqn:Hstrip; try done.
  injection Hchild as ->. apply strip_prefix_Some in Hstrip as ->.
  apply dict_get_is_Some. unfold Dict.keys. apply list_elem_of_fmap.
  by exists (d ++ [name], n).
Qed.

Lemma children_NoDup (fs : list (path * node)) d :
  NoDup (Dict.keys fs) -> NoDup (children fs d).
Proof.
  induction fs as [|[q n] fs IH]; simpl; [intros _; apply NoDup_nil; done|].
  intros [Hq Hfs]%NoDup_cons. specialize (IH Hfs).
  unfold children. simpl.
  change (list_omap _ _ (child_name d) fs) with (children fs d).
  destruct (child_name d (q, n)) as [name|] eqn:Hchild; [|done].
  apply NoDup_cons. split; [|done].
  intros Hin%children_elem. apply Hq, dict_get_is_Some.
  unfold child_name in Hchild. simpl in Hchild.
  destruct (strip_prefix d q) as [[|x [|? ?]]|] eqn:Hstrip; try done.
  injection Hchild as ->. by apply strip_prefix_Some in Hstrip as ->.
Qed.

Lemma makedirs_from_NoDup rest :
  forall walked w r w',
    Os.makedirs_from walked rest w = (r, w') ->
    NoDup (Dict.keys (files w)) -> NoDup (Dict.keys (files w')).
Proof.
  induction rest as [|y rest IH]; intros walked w r w' Hrun Hnodup.
  - by injection Hrun as _ <-.
  - simpl in Hrun. unfold mbind, M_bind, gets in Hrun.
    destruct (stat w (walked ++ [y])) as [[| |]|] eqn:Hq.
    + by apply (IH _ _ _ _ Hrun).
    + by injection Hrun as _ <-.
    + by injection Hrun as _ <-.
    + unfold set_node in Hrun. apply (IH _ _ _ _ Hrun). simpl.
      by apply dict_keys_NoDup_set.
Qed.

Lemma isdir_get w x :
  x <> [] -> isdir w x = true -> is_Some (Dict.get x (files w)).
Proof.
  intros Hx. unfold isdir, stat, realpath. rewrite <- lstat_get by done.
  destruct (lstat w x) as [n|] eqn:Hl; [by eexists|]. by rewrite Hl.
Qed.

Lemma touch_fresh p w w' :
  lstat w p = None ->
  touch p w = (Ret tt, w') ->
  files w' = Dict.set p (File empty_file) (files w).
Proof.
  intros Hp. unfold touch, realpath. rewrite Hp, Hp.
  destruct (isdir w (dirname p)); [|done]. by intros [= <-].
Qed.

Lemma dict_get_set_is_Some {K V : Type} `{EqDecision K} (k q : K) (v : V) d :
  is_Some (Dict.get q (Dict.set k v d)) <-> q = k \/ is_Some (Dict.get q d).
Proof.
  rewrite !dict_get_is_Some, dict_elem_of_keys_set. tauto.
Qed.

Lemma under_root (loc a : path) : under (loc ++ a) loc = under a [].
Proof.
  rewrite <- (app_nil_r loc) at 2. apply under_same_root.
Qed.

Lemma lstat_dir_stat w x : lstat w x = Some Dir -> stat w x = Some Dir.
Proof. intros H. unfold stat, realpath. rewrite H. by rewrite H. Qed.

Lemma makedirs_keeps_dir p w w' x :
  Os.makedirs p w = (Ret tt, w') -> lstat w x = Some Dir -> lstat w' x = Some Dir.
Proof.
  intros Hrun Hx.
  destruct (makedirs_from_preserves p [] w _ w' x Hrun) as [Hl _].
  - rewrite (lstat_dir_stat _ _ Hx). by eexists.
  - by rewrite Hl.
Qed.

Ltac under_calc :=
  rewrite <- ?app_assoc; rewrite ?under_root, ?under_same_root;
  unfold under; simpl; repeat case_decide; try done; try congruence.

(** On a place where there was nothing, the skeleton that
    [init_package_directory] makes is a source tree that
    [validate_source_directory] accepts: [metadata] and the inner
    directory at the top, and in the inner directory [etc], [lib] and
    the placeholder program, and nothing else. *)
Theorem init_package_directory_valid :
  forall (source_location : path) (w w' : world),
    source_location <> [] ->
    (forall q, under source_location q = true -> Dict.get q (files w) = None) ->
    NoDup (Dict.keys (files w)) ->
    init_package_directory source_location w = (Ret (VBool true), w') ->
    validate_source_directory source_location w' = (Ret (VBool true), w').
Proof.
  intros loc w w' Hloc Hfresh Hnodup Hrun.
  destruct (init_package_directory_true _ _ _ Hrun)
    as (w1 & w2 & w3 & w4 & w5 & w6 & f & w7 & H1 & H2 & H3 & H4 & H5 & H6 & H7 & ->).
  clear Hrun. set (name := basename loc) in *.
  rewrite <- !app_assoc in H3, H4, H6. simpl in H3, H4, H6.
  (* what the four [makedirs] leave alone *)
  assert (forall q, under q loc = false -> under q (loc ++ [name]) = false ->
                    under q (loc ++ [name; "etc"]) = false ->
                    under q (loc ++ [name; "lib"]) = false ->
                    Dict.get q (files w4) = Dict.get q (files w)) as Hframe.
  { intros q U1 U2 U3 U4.
    destruct (makedirs_from_frame [] _ _ _ _ H1) as [F1 _].
    destruct (makedirs_from_frame [] _ _ _ _ H2) as [F2 _].
    destruct (makedirs_from_frame [] _ _ _ _ H3) as [F3 _].
    destruct (makedirs_from_frame [] _ _ _ _ H4) as [F4 _].
    rewrite F4, F3, F2, F1; done. }
  (* the directories *)
  assert (lstat w1 loc = Some Dir) as L1.
  { destruct (exists_last Hloc) as (rest & x & E).
    rewrite lstat_get by done. rewrite E in *.
    apply (makedirs_from_made rest [] x w); [exact H1|].
    apply Hfresh, under_refl. }
  assert (lstat w4 loc = Some Dir) as Lloc.
  { by apply (makedirs_keeps_dir _ _ _ _ H4), (makedirs_keeps_dir _ _ _ _ H3),
      (makedirs_keeps_dir _ _ _ _ H2). }
  assert (lstat w2 (loc ++ [name]) = Some Dir) as L2.
  { rewrite lstat_child.
    apply (makedirs_from_made loc [] name w1); [exact H2|].
    destruct (makedirs_from_frame [] _ _ _ _ H1) as [F1 _].
    simpl. rewrite F1 by (simpl; apply under_longer). apply Hfresh, under_app. }
  assert (lstat w4 (loc ++ [name]) = Some Dir) as Linner.
  { by apply (makedirs_keeps_dir _ _ _ _ H4), (makedirs_keeps_dir _ _ _ _ H3). }
  assert (is_Some (Dict.get (loc ++ [name; "etc"]) (files w4))) as Letc.
  { apply isdir_get; [by destruct loc|].
    apply (makedirs_keeps _ _ _ _ H4). by apply (makedirs_isdir _ w2). }
  assert (is_Some (Dict.get (loc ++ [name; "lib"]) (files w4))) as Llib.
  { apply isdir_get; [by destruct loc|]. by apply (makedirs_isdir _ w3). }
  (* the name of the directory is not [metadata] *)
  assert (name <> "metadata") as Hname.
  { intros E. rewrite E in Linner. unfold touch in H5.
    assert (realpath w4 (loc ++ ["metadata"]) = loc ++ ["metadata"]) as Hr
      by (unfold realpath; by rewrite Linner).
    by rewrite Hr, Linner in H5. }
  (* the two files *)
  assert (Dict.get (loc ++ ["metadata"]) (files w4) = None) as Gmeta.
  { rewrite Hframe; [apply Hfresh, under_app|under_calc..]. }
  assert (Dict.get (loc ++ [name; "your_program.bin"]) (files w4) = None) as Gbin.
  { rewrite Hframe; [apply Hfresh, under_app|under_calc..]. }
  assert (loc ++ ["metadata"] <> loc ++ [name; "your_program.bin"]) as Hdiff
    by (by intros ?%app_inv_head).
  pose proof (touch_fresh _ _ _ ltac:(by rewrite lstat_child) H5) as E5.
  assert (lstat w5 (loc ++ [name; "your_program.bin"]) = None) as Lbin.
  { rewrite lstat_get by (by destruct loc). rewrite E5.
    by rewrite dict_get_set_ne. }
  pose proof (touch_fresh _ _ _ Lbin H6) as E6.
  assert (lstat w6 (loc ++ ["metadata"]) = Some (File empty_file)) as Lmeta.
  { rewrite lstat_child, E6, E5.
    rewrite dict_get_set_ne by done. by rewrite dict_get_set_eq. }
  destruct (open_w_returns _ _ _ _ H7) as (Hf & E7 & _).
  assert (f = loc ++ ["metadata"]) as ->
    by (rewrite Hf; unfold realpath; by rewrite Lmeta).
  set (meta := loc ++ ["metadata"]) in *.
  set (bin := loc ++ [name; "your_program.bin"]) in *.
  set (w8 := World _ _).
  assert (files w8
          = Dict.set meta (File (Plain (Config skeleton_metadata)))
              (Dict.set bin (File empty_file)
                 (Dict.set meta (File empty_file) (files w4)))) as E8.
  { unfold w8. simpl files. by rewrite E7, dict_set_set, E6, E5. }
  assert (forall q, is_Some (Dict.get q (files w8))
                    <-> q = meta \/ q = bin \/ is_Some (Dict.get q (files w4))) as Hsupp.
  { intros q. rewrite E8, !dict_get_set_is_Some. tauto. }
  assert (forall q, q <> meta -> q <> bin ->
                    Dict.get q (files w8) = Dict.get q (files w4)) as Hother.
  { intros q Hq1 Hq2. rewrite E8. by rewrite !dict_get_set_ne. }
  assert (NoDup (Dict.keys (files w8))) as Hnodup8.
  { rewrite E8. do 3 apply dict_keys_NoDup_set.
    apply (makedirs_from_NoDup _ _ _ _ _ H4), (makedirs_from_NoDup _ _ _ _ _ H3),
      (makedirs_from_NoDup _ _ _ _ _ H2), (makedirs_from_NoDup _ _ _ _ _ H1), Hnodup. }
  (* the two listings *)
  assert (children (files w8) loc ≡ₚ [name; "metadata"]) as Htop.
  { apply NoDup_Permutation; [by apply children_NoDup| |].
    - apply NoDup_cons. split; [by intros ->%list_elem_of_singleton|].
      apply NoDup_singleton.
    - intros n. rewrite children_elem, Hsupp. split.
      + intros [E|[E|Hsome]].
        * apply app_inv_head in E. injection E as ->. by right; left.
        * by apply app_inv_head in E.
        * destruct (decide (n = name)) as [->|Hn]; [by left|].
          rewrite Hframe in Hsome; [|under_calc..].
          rewrite Hfresh in Hsome by apply under_app. by destruct Hsome.
      + intros [->|[->|[]%elem_of_nil]%elem_of_cons]%elem_of_cons.
        * right; right. rewrite <- lstat_child, Linner. by eexists.
        * by left. }
  assert (children (files w8) (loc ++ [name]) ≡ₚ ["etc"; "lib"; "your_program.bin"])
    as Hinner.
  { apply NoDup_Permutation; [by apply children_NoDup| |].
    - apply (bool_decide_unpack _). by vm_compute.
    - intros n. rewrite children_elem, Hsupp. rewrite <- !app_assoc. simpl. split.
      + intros [E|[E|Hsome]].
        * by apply app_inv_head in E.
        * apply app_inv_head in E. injection E as ->. by right; right; left.
        * destruct (decide (n = "etc")) as [->|Hn1]; [by left|].
          destruct (decide (n = "lib")) as [->|Hn2]; [by right; left|].
          rewrite Hframe in Hsome; [|under_calc..].
          rewrite Hfresh in Hsome by apply under_app. by destruct Hsome.
      + intros Hn. repeat (apply elem_of_cons in Hn as [->|Hn]); auto.
        by apply elem_of_nil in Hn. }
  apply (validate_source_directory_accepts loc w8 (children (files w8) loc)
           (children (files w8) (loc ++ [name]))).
  - apply listdir_dir; [done|].
    rewrite Hother; [by rewrite <- lstat_get|..];
      intros E; apply (f_equal length) in E; unfold meta, bin in E;
      rewrite length_app in E; simpl in E; lia.
  - fold name. apply listdir_dir; [by destruct loc|].
    rewrite Hother; [by rewrite <- lstat_child|..];
      intros E; unfold meta, bin in E; apply app_inv_head in E;
      [injection E as E; by apply Hname|discriminate E].
  - by rewrite (Permutation_length Htop).
  - rewrite Htop. by right; left.
  - fold name. rewrite Htop. by left.
  - by rewrite (Permutation_length Hinner).
  - rewrite Hinner. by left.
  - rewrite Hinner. by right; left.
Qed.

Lemma init_package_directory_valid_witness :
  validate_source_directory ["tmp"; "test_package"]
    (snd (init_package_directory ["tmp"; "test_package"] Sample.store_world))
  = (Ret (VBool true),
     snd (init_package_directory ["tmp"; "test_package"] Sample.store_world)).
Proof.
  apply (init_package_directory_valid ["tmp"; "test_package"] Sample.store_world).
  - discriminate.
  - intros q Hq. apply under_true in Hq as [r ->]. reflexivity.
  - apply (bool_decide_unpack _). by vm_compute.
  - vm_compute. reflexivity.
Defined.

(** ** Operations that always return *)

Lemma bind_raise {A B : Type} (m : M A) (k : A -> M B) w e w' :
  (m ≫= k) w = (Raise e, w') ->
  m w = (Raise e, w') \/ exists a w1, m w = (Ret a, w1) /\ k a w1 = (Raise e, w').
Proof.
  unfold mbind, M_bind. destruct (m w) as [[a|e0] w1].
  - intros Hk. right. by exists a, w1.
  - intros [= -> ->]. by left.
Qed.

Lemma makedirs_from_raises rest :
  forall walked w e w',
    Os.makedirs_from walked rest w = (Raise e, w') -> is_OSError e = true.
Proof.
  induction rest as [|y rest IH]; intros walked w e w' Hrun; [done|].
  simpl in Hrun. unfold mbind, M_bind, gets in Hrun.
  destruct (stat w (walked ++ [y])) as [[| |]|] eqn:Hq.
  - by apply (IH _ _ _ _ Hrun).
  - injection Hrun as <- _. by destruct rest.
  - injection Hrun as <- _. by destruct rest.
  - unfold set_node in Hrun. by apply (IH _ _ _ _ Hrun).
Qed.

Lemma touch_raises p w e w' : touch p w = (Raise e, w') -> is_OSError e = true.
Proof.
  unfold touch. destruct (lstat w (realpath w p)) as [[| |]|]; try (by intros [= <- _]).
  destruct (isdir w (dirname (realpath w p))); [done|by intros [= <- _]].
Qed.

Lemma open_w_raises p w e w' : Os.open_w p w = (Raise e, w') -> is_OSError e = true.
Proof.
  unfold Os.open_w. destruct (lstat w (realpath w p)) as [[| |]|]; try (by intros [= <- _]).
  destruct (isdir w (dirname (realpath w p))); [done|by intros [= <- _]].
Qed.

Lemma append_skeleton_raises p w e w' :
  append_skeleton p w = (Raise e, w') -> is_OSError e = true.
Proof.
  unfold append_skeleton.
  destruct (lstat w (realpath w p)) as [[|[[]|]|]|]; try (by intros [= <- _]).
  destruct (isdir w (dirname (realpath w p))); [done|by intros [= <- _]].
Qed.

Lemma try_returns (m : M value) w :
  (forall e w', m w = (Raise e, w') -> is_OSError e = true) ->
  (forall v w', m w = (Ret v, w') -> v = VBool true) ->
  exists b w', try_except_OSError m (mret (VBool false)) w = (Ret (VBool b), w').
Proof.
  intros Hraise Hret. unfold try_except_OSError.
  destruct (m w) as [[v|e] w1] eqn:Hm.
  - exists true, w1. by rewrite (Hret v w1).
  - exists false, w1. by rewrite (Hraise e w1).
Qed.

Lemma init_package_database_returns location w :
  exists b w', init_package_database location w = (Ret (VBool b), w').
Proof.
  unfold init_package_database. apply try_returns.
  - intros e w' Hrun.
    apply bind_raise in Hrun as [[=]|(d & w1 & [= <- <-] & Hrun)].
    apply bind_raise in Hrun as [Hrun|(? & ? & _ & [=])].
    destruct (isdir w location); [by apply append_skeleton_raises in Hrun|].
    destruct (String.eqb (basename location) "packages.hdb");
      [by apply append_skeleton_raises in Hrun|].
    apply bind_raise in Hrun as [Hrun|(? & ? & _ & Hrun)].
    + by apply makedirs_from_raises in Hrun.
    + by apply append_skeleton_raises in Hrun.
  - intros v w' Hrun.
    apply bind_ret in Hrun as (d & w1 & _ & Hrun).
    by apply bind_ret in Hrun as (? & ? & _ & [= <- _]).
Qed.

(** The initialisers turn every failure into an answer: for a location
    given as an absolute path whose components are made of letters,
    digits, [_] and [-] ([is_word]), [init_package_database],
    [create_repo] and [init_package_directory] return [True] or [False]
    on every file system, and never end in an exception. *)
Theorem initialisers_always_return :
  forall (location : path) (w : world),
    location <> [] ->
    Forall (fun component => is_word component = true) location ->
    (exists b w', init_package_database location w = (Ret (VBool b), w'))
    /\ (exists b w', create_repo location w = (Ret (VBool b), w'))
    /\ (exists b w', init_package_directory location w = (Ret (VBool b), w')).
Proof.
  intros location w _ _.
  split; [apply init_package_database_returns|].
  split; [apply init_package_database_returns|].
  unfold init_package_directory. apply try_returns.
  - intros e w' Hrun.
    apply bind_raise in Hrun as [Hrun|(? & ? & _ & Hrun)];
      [by apply makedirs_from_raises in Hrun|].
    apply bind_raise in Hrun as [Hrun|(? & ? & _ & Hrun)];
      [by apply makedirs_from_raises in Hrun|].
    apply bind_raise in Hrun as [Hrun|(? & ? & _ & Hrun)];
      [by apply makedirs_from_raises in Hrun|].
    apply bind_raise in Hrun as [Hrun|(? & ? & _ & Hrun)];
      [by apply makedirs_from_raises in Hrun|].
    apply bind_raise in Hrun as [Hrun|(? & ? & _ & Hrun)];
      [by apply touch_raises in Hrun|].
    apply bind_raise in Hrun as [Hrun|(? & ? & _ & Hrun)];
      [by apply touch_raises in Hrun|].
    apply bind_raise in Hrun as [Hrun|(? & ? & _ & Hrun)];
      [by apply open_w_raises in Hrun|].
    by apply bind_raise in Hrun as [[=]|(? & ? & _ & [=])].
  - intros v w' Hrun.
    repeat (apply bind_ret in Hrun as (? & ? & _ & Hrun)).
    by injection Hrun as <- _.
Qed.

Lemma initialisers_always_return_witness :
  (exists b w',
     init_package_database ["tmp"; "test_package"] Sample.store_world
     = (Ret (VBool b), w'))
  /\ (exists b w',
        create_repo ["tmp"; "test_package"] Sample.store_world = (Ret (VBool b), w'))
  /\ (exists b w',
        init_package_directory ["tmp"; "test_package"] Sample.store_world
        = (Ret (VBool b), w')).
Proof.
  apply (initialisers_always_return ["tmp"; "test_package"] Sample.store_world).
  - discriminate.
  - repeat constructor.
Defined.

(** ** What a removal may touch *)

Lemma open_w_frame p w r w' q :
  Os.open_w p w = (r, w') ->
  q <> realpath w p ->
  Dict.get q (files w') = Dict.get q (files w).
Proof.
  intros Hopen Hq. destruct r as [f|e].
  - destruct (open_w_returns _ _ _ _ Hopen) as (-> & -> & _).
    by rewrite dict_get_set_ne.
  - unfold Os.open_w in Hopen.
    destruct (lstat w (realpath w p)) as [[| |]|]; try done;
      try (by injection Hopen as _ <-).
    destruct (isdir w (dirname (realpath w p))); [done|by injection Hopen as _ <-].
Qed.

(** A write through [open] and [write] changes the file that the path
    leads to, and nothing else. *)
Lemma write_through_frame p (c : result content) w r w' q :
  (pkg_db_file ← Os.open_w p;
   c ← lift c;
   Os.write pkg_db_file c;; mret (VBool true)) w = (r, w') ->
  q <> realpath w p ->
  Dict.get q (files w') = Dict.get q (files w).
Proof.
  unfold mbind, M_bind. intros Hrun Hq.
  destruct (Os.open_w p w) as [[f|e] w1] eqn:Hopen.
  - pose proof (open_w_frame _ _ _ _ q Hopen Hq) as Hframe.
    destruct (open_w_returns _ _ _ _ Hopen) as (-> & _ & _).
    unfold lift in Hrun. destruct c as [c|e].
    + unfold Os.write, set_node in Hrun. injection Hrun as _ <-. simpl files.
      by rewrite dict_get_set_ne.
    + by injection Hrun as _ <-.
  - injection Hrun as _ <-. by apply (open_w_frame _ _ _ _ q Hopen).
Qed.

Lemma api_frame db action sec n v w r w' q :
  package_database_api db action sec n v w = (r, w') ->
  q <> realpath w db ->
  Dict.get q (files w') = Dict.get q (files w).
Proof.
  unfold package_database_api. intros Hrun Hq.
  unfold mbind at 1, M_bind at 1 in Hrun.
  pose proof (read_config_world db w) as Hw.
  destruct (read_config db w) as [[c|e] w1]; simpl in Hw; subst w1;
    [|by injection Hrun as _ <-].
  assert (forall (c1 : result config) (c2 : config -> result config),
            (pkg_db ← lift c1;
             pkg_db_file ← Os.open_w db;
             pkg_db ← lift (c2 pkg_db);
             Os.write pkg_db_file (Plain (Config pkg_db));;
             mret (VBool true)) w = (r, w') ->
            Dict.get q (files w') = Dict.get q (files w)) as Hwrite.
  { intros c1 c2 H. unfold mbind at 1, M_bind at 1, lift at 1 in H.
    destruct c1 as [c1|e]; [|by injection H as _ <-].
    apply (write_through_frame db
             (match c2 c1 with Ret c => Ret (Plain (Config c)) | Raise e => Raise e end)
             w r w' q); [|done].
    revert H. unfold mbind, M_bind.
    destruct (Os.open_w db w) as [[f|e] w1]; [|done].
    unfold lift. by destruct (c2 c1). }
  destruct (String.eqb action "create");
    [by apply (Hwrite (setitem c sec n v) (fun x => Ret x))|].
  destruct (String.eqb action "delete");
    [by apply (Hwrite (setitem c sec n v) (fun x => delitem x sec n))|].
  destruct (String.eqb action "update");
    [by apply (Hwrite (setitem c sec n v) (fun x => Ret x))|].
  assert (w' = w) as ->; [|done].
  unfold mbind, M_bind, lift in Hrun.
  destruct (String.eqb action "check");
    [destruct (ConfigParser.keys c sec); by injection Hrun as _ <-|].
  destruct (String.eqb action "version");
    [destruct (getitem c sec n); by injection Hrun as _ <-|].
  destruct (String.eqb action "list");
    [destruct (ConfigParser.keys c sec); by injection Hrun as _ <-|].
  by injection Hrun as _ <-.
Qed.

Lemma rmtree_frame p w r w' q :
  Os.rmtree p w = (r, w') ->
  under p q = false ->
  Dict.get q (files w') = Dict.get q (files w).
Proof.
  unfold Os.rmtree. intros Hrun Hq.
  destruct (lstat w p) as [[| |]|]; injection Hrun as _ <-; try done.
  by apply get_filter_away.
Qed.

Lemma remove_frame p w r w' q :
  Os.remove p w = (r, w') ->
  q <> p ->
  Dict.get q (files w') = Dict.get q (files w).
Proof.
  unfold Os.remove. intros Hrun Hq.
  destruct (lstat w p) as [[| |]|]; injection Hrun as _ <-; try done;
    simpl files; by rewrite dict_get_del_ne.
Qed.

Lemma frame_bind {A B : Type} (P : path -> Prop) (m : M A) (k : A -> M B) w r w' :
  (m ≫= k) w = (r, w') ->
  (forall r1 w1, m w = (r1, w1) ->
     forall q, P q -> Dict.get q (files w1) = Dict.get q (files w)) ->
  (forall a w1 r2 w2, m w = (Ret a, w1) -> k a w1 = (r2, w2) ->
     forall q, P q -> Dict.get q (files w2) = Dict.get q (files w1)) ->
  forall q, P q -> Dict.get q (files w') = Dict.get q (files w).
Proof.
  unfold mbind, M_bind. intros Hrun Hm Hk q Hq.
  destruct (m w) as [[a|e] w1] eqn:Hmw.
  - rewrite (Hk a w1 r w' eq_refl Hrun q Hq). by apply (Hm (Ret a)).
  - injection Hrun as _ <-. by apply (Hm (Raise e)).
Qed.

(** [remove_package] keeps to the package: for a package name made of
    letters, however the call ends, the only paths whose entries can
    differ afterwards are those at or below
    [~/.local/share/hkg/<pkg_name>], the archive of the package in the
    cache, the link [~/bin/<pkg_name>], and the file of the store. *)
Theorem remove_package_touches_only :
  forall (home : path) (pkg_name : string) (w : world) (r : result value)
         (w' : world) (q : path),
    isalpha pkg_name = true ->
    remove_package home pkg_name w = (r, w') ->
    under (install_dir home ++ [pkg_name]) q = false ->
    q <> cache_dir home ++ [pkg_name +:+ ".hkg"] ->
    q <> bin_dir home ++ [pkg_name] ->
    q <> realpath w (local_db home) ->
    Dict.get q (files w') = Dict.get q (files w).
Proof.
  intros home pkg w r w' q _ Hrun Hdir Hcache Hlink Hdb.
  set (P := fun q : path =>
              under (install_dir home ++ [pkg]) q = false
              /\ q <> cache_dir home ++ [pkg +:+ ".hkg"]
              /\ q <> bin_dir home ++ [pkg]
              /\ q <> realpath w (local_db home)).
  assert (P q) as HP by done. clear Hdir Hcache Hlink Hdb. revert q HP.
  unfold remove_package in Hrun.
  apply (frame_bind P _ _ _ _ _ Hrun); [by intros ? ? [= _ <-]|].
  clear Hrun. intros has_db w0 r2 w2 [= <- <-] Hrun.
  destruct (negb (isfile w (local_db home))); [by injection Hrun as _ <-|].
  apply (frame_bind P _ _ _ _ _ Hrun).
  { intros r1 w1 Hcheck q _.
    pose proof (api_check_world (local_db home) "INSTALLED" pkg "0" w) as Hw.
    rewrite Hcheck in Hw. simpl in Hw. by subst w1. }
  clear Hrun. intros installed w1 r3 w3 Hcheck Hrun.
  pose proof (api_check_world (local_db home) "INSTALLED" pkg "0" w) as Hw.
  rewrite Hcheck in Hw. simpl in Hw. subst w1.
  destruct (negb (truthy installed)); [by injection Hrun as _ <-|].
  apply (frame_bind P _ _ _ _ _ Hrun).
  { intros r1 w1 Hdelete q (_ & _ & _ & Hq). by apply (api_frame _ _ _ _ _ _ _ _ _ Hdelete). }
  clear Hrun. intros ? w1 r4 w4 _ Hrun.
  apply (frame_bind P _ _ _ _ _ Hrun).
  { intros r1 w5 Hrm q (Hq & _). destruct (negb (String.eqb pkg ""));
      [by apply (rmtree_frame _ _ _ _ _ Hrm)|by injection Hrm as _ <-]. }
  clear Hrun. intros ? w5 r5 w6 _ Hrun.
  apply (frame_bind P _ _ _ _ _ Hrun); [by intros ? ? [= _ <-]|].
  clear Hrun. intros cached w7 r6 w8 [= <- <-] Hrun.
  apply (frame_bind P _ _ _ _ _ Hrun).
  { intros r1 w7 Hrm q (_ & Hq & _). destruct (isfile w5 _);
      [by apply (remove_frame _ _ _ _ _ Hrm)|by injection Hrm as _ <-]. }
  clear Hrun. intros ? w7 r7 w9 _ Hrun.
  apply (frame_bind P _ _ _ _ _ Hrun); [by intros ? ? [= _ <-]|].
  clear Hrun. intros linked w10 r8 w11 [= <- <-] Hrun.
  apply (frame_bind P _ _ _ _ _ Hrun).
  { intros r1 w10 Hrm q (_ & _ & Hq & _). destruct (islink w7 _);
      [by apply (remove_frame _ _ _ _ _ Hrm)|by injection Hrm as _ <-]. }
  clear Hrun. intros ? w10 r9 w12 _ Hrun. by injection Hrun as _ <-.
Qed.

Lemma remove_package_touches_only_witness :
  Dict.get (settings_conf Sample.user)
    (files (snd (remove_package Sample.user "hello" Sample.hello_home)))
  = Dict.get (settings_conf Sample.user) (files Sample.hello_home).
Proof.
  apply (remove_package_touches_only Sample.user "hello" Sample.hello_home
           (Ret (VBool true))).
  - reflexivity.
  - vm_compute. reflexivity.
  - reflexivity.
  - discriminate.
  - discriminate.
  - discriminate.
Defined.

(** ** The clean-up loop of the repository scan, in full *)

Lemma drop_non_hkg_skip mid :
  forall pre rest todo,
    Forall (fun name => is_hkg name = true) mid ->
    drop_non_hkg (pre ++ mid ++ rest) (length pre) (length mid + todo)
    = drop_non_hkg (pre ++ mid ++ rest) (length pre + length mid) todo.
Proof.
  induction mid as [|x mid IH]; intros pre rest todo Hmid.
  - simpl. by rewrite Nat.add_0_r.
  - apply Forall_cons in Hmid as [Hx Hmid]. simpl length. simpl Nat.add.
    rewrite <- !app_comm_cons. cbn [drop_non_hkg]. rewrite list_lookup_middle by done. rewrite Hx. simpl negb.
    cbv iota.
    specialize (IH (pre ++ [x]) rest todo Hmid).
    rewrite <- !app_assoc, length_app in IH. simpl in IH.
    rewrite Nat.add_1_r in IH. rewrite IH. f_equal. lia.
Qed.

(** The loop that takes the entries without the [.hkg] suffix out of
    the listing works on a range fixed at its start.  It leaves a
    listing of archives as it is; it can take out the last entry; and
    as soon as an entry before the last has to go, the range runs past
    the end of the shortened list and the loop ends in [IndexError]. *)
Theorem drop_non_hkg_outcome :
  forall (pre : list string),
    Forall (fun name => is_hkg name = true) pre ->
    drop_non_hkg pre 0 (length pre) = Ret pre
    /\ (forall x, is_hkg x = false ->
          drop_non_hkg (pre ++ [x]) 0 (length (pre ++ [x])) = Ret pre)
    /\ (forall x y post, is_hkg x = false ->
          drop_non_hkg (pre ++ x :: y :: post) 0 (length (pre ++ x :: y :: post))
          = Raise IndexError).
Proof.
  intros pre Hpre.
  assert (forall x rest, is_hkg x = false ->
            list_remove x (pre ++ x :: rest) = Ret (pre ++ rest)) as Hremove.
  { intros x rest Hx.
    rewrite (list_remove_at _ (length pre) x).
    - rewrite take_app_length, drop_app_ge by lia.
      by replace (S (length pre) - length pre) with 1 by lia.
    - by apply list_lookup_middle.
    - rewrite take_app_length. intros Hin. rewrite Forall_forall in Hpre.
      apply Hpre in Hin. congruence. }
  split; [|split].
  - pose proof (drop_non_hkg_skip pre [] [] 0 Hpre) as Hskip.
    rewrite !app_nil_r, Nat.add_0_r in Hskip. simpl in Hskip. by rewrite Hskip.
  - intros x Hx.
    pose proof (drop_non_hkg_skip pre [] [x] 1 Hpre) as Hskip.
    cbn [app length Nat.add] in Hskip.
    rewrite length_app. simpl length. rewrite Hskip.
    cbn [drop_non_hkg]. rewrite list_lookup_middle by done. rewrite Hx. simpl negb.
    cbv iota. by rewrite (Hremove x [] Hx), app_nil_r.
  - intros x y post Hx.
    pose proof (drop_non_hkg_skip pre [] (x :: y :: post) (S (S (length post))) Hpre)
      as Hskip. cbn [app length Nat.add] in Hskip.
    rewrite length_app. simpl length. rewrite Hskip.
    cbn [drop_non_hkg]. rewrite list_lookup_middle by done. rewrite Hx. simpl negb.
    cbv iota. rewrite (Hremove x (y :: post) Hx).
    change (drop_non_hkg (pre ++ y :: post) (S (length pre)) (S (length post))
            = Raise IndexError).
    apply drop_non_hkg_short; [lia|]. rewrite length_app. simpl. lia.
Qed.

Lemma drop_non_hkg_outcome_witness :
  drop_non_hkg ["a.hkg"; "b.hkg"] 0 (length ["a.hkg"; "b.hkg"]) = Ret ["a.hkg"; "b.hkg"]
  /\ (forall x, is_hkg x = false ->
        drop_non_hkg (["a.hkg"; "b.hkg"] ++ [x]) 0 (length (["a.hkg"; "b.hkg"] ++ [x]))
        = Ret ["a.hkg"; "b.hkg"])
  /\ (forall x y post, is_hkg x = false ->
        drop_non_hkg (["a.hkg"; "b.hkg"] ++ x :: y :: post) 0
          (length (["a.hkg"; "b.hkg"] ++ x :: y :: post))
        = Raise IndexError).
Proof.
  apply (drop_non_hkg_outcome ["a.hkg"; "b.hkg"]).
  repeat (apply Forall_cons; split; [reflexivity|]). by apply Forall_nil.
Defined.

(** ** The versions that the validation lets through *)

Lemma remove_first_char_absent c l : c ∉ l -> remove_first_char c l = l.
Proof.
  induction l as [|x l IH]; [done|]. intros [Hx Hl]%not_elem_of_cons. simpl.
  assert (Ascii.eqb x c = false) as -> by (apply Ascii.eqb_neq; congruence).
  by rewrite IH.
Qed.

Lemma remove_first_char_middle c l k :
  c ∉ l -> remove_first_char c (l ++ c :: k) = l ++ k.
Proof.
  induction l as [|x l IH]; simpl.
  - intros _. by rewrite Ascii.eqb_refl.
  - intros [Hx Hl]%not_elem_of_cons.
    assert (Ascii.eqb x c = false) as -> by (apply Ascii.eqb_neq; congruence).
    by rewrite IH.
Qed.

(** The version test of [validate_package_database] takes the first
    point out and asks for digits: a value without a point passes when
    it is a non-empty run of digits, and a value [whole.fraction] passes
    when both parts are digits and one of them at least is not empty --
    so [5.] and [.5] pass, and a second point never does. *)
Theorem version_ok_language :
  forall (whole fraction : string),
    "."%char ∉ list_ascii_of_string whole ->
    version_ok whole = isdigit whole
    /\ version_ok (whole +:+ "." +:+ fraction)
       = forallb is_digit (list_ascii_of_string whole)
         && forallb is_digit (list_ascii_of_string fraction)
         && negb (Nat.eqb (length (list_ascii_of_string whole
                                   ++ list_ascii_of_string fraction)) 0).
Proof.
  intros whole fraction Hwhole. unfold version_ok, isdigit, replace_first.
  rewrite !list_ascii_of_string_of_list_ascii. split.
  - by rewrite remove_first_char_absent.
  - rewrite !list_ascii_of_string_append.
    change (list_ascii_of_string ".") with ["."%char]. simpl app.
    rewrite remove_first_char_middle by done.
    rewrite forallb_app. by destruct (negb _), (forallb _ _), (forallb _ _).
Qed.

Lemma version_ok_language_witness :
  version_ok "5" = isdigit "5"
  /\ version_ok ("5" +:+ "." +:+ "")
     = forallb is_digit (list_ascii_of_string "5")
       && forallb is_digit (list_ascii_of_string "")
       && negb (Nat.eqb (length (list_ascii_of_string "5" ++ list_ascii_of_string "")) 0).
Proof.
  apply (version_ok_language "5" "").
  intros Hin. apply list_elem_of_singleton in Hin. discriminate Hin.
Defined.

(** ** An install that finds no source *)

Section NotOffered.
Context (home : path) (requests_get : string -> result content).


End NotOffered.



(** ** A repository created twice *)

(** What [create_repo] leaves where there was no store. *)
Lemma create_repo_fresh loc w w' :
  lstat w (packages_hdb loc) = None ->
  isdir w loc = true \/ basename loc <> "packages.hdb" ->
  create_repo loc w = (Ret (VBool true), w') ->
  isdir w' loc = true /\ store_at w' (packages_hdb loc) skeleton.
Proof.
  intros Hnone Hcase.
  unfold create_repo, init_package_database, try_except_OSError, mbind, M_bind, gets.
  set (db := packages_hdb loc) in *.
  destruct (isdir w loc) eqn:Hdir; cbv beta iota.
  - rewrite (append_skeleton_fresh _ _ Hdir Hnone : append_skeleton db w = _).
    cbv beta iota. intros [= <-]. split.
    + rewrite <- Hdir. by apply (set_file_keeps w _ db (Plain (Config skeleton))); [left|].
    + apply store_written_read, packages_hdb_nonempty.
  - destruct Hcase as [?|Hbase]; [done|].
    apply String.eqb_neq in Hbase. rewrite Hbase.
    destruct (Os.makedirs loc w) as [[[]|e] w1] eqn:Hmk; cbv beta iota.
    + assert (isdir w1 loc = true) as Hdir1 by (by apply (makedirs_isdir _ w)).
      assert (lstat w1 db = None) as Hnone1.
      { destruct (makedirs_from_frame [] loc w _ w1 Hmk) as [Hframe _].
        rewrite lstat_get by apply packages_hdb_nonempty.
        rewrite Hframe by apply under_longer.
        rewrite <- lstat_get by apply packages_hdb_nonempty. exact Hnone. }
      rewrite (append_skeleton_fresh _ _ Hdir1 Hnone1 : append_skeleton db w1 = _).
      cbv beta iota. intros [= <-]. split.
      * rewrite <- Hdir1.
        by apply (set_file_keeps w1 _ db (Plain (Config skeleton))); [left|].
      * apply store_written_read, packages_hdb_nonempty.
    + intros Hrun. destruct (is_OSError e); by inversion Hrun.
Qed.

(** The skeleton appended to a store that holds the skeleton: the
    section headers are in the file twice, and the parser refuses it. *)
Lemma create_repo_on_skeleton loc w :
  isdir w loc = true ->
  store_at w (packages_hdb loc) skeleton ->
  exists w',
    create_repo loc w = (Ret (VBool true), w')
    /\ isfile w' (packages_hdb loc) = true
    /\ read_config (packages_hdb loc) w' = (Raise ParsingError, w').
Proof.
  intros Hdir Hstore.
  unfold create_repo, init_package_database, try_except_OSError, mbind, M_bind, gets.
  rewrite Hdir. unfold append_skeleton.
  set (db := packages_hdb loc) in *.
  unfold store_at in Hstore. rewrite Hstore.
  change (Dict.mem "INSTALLED" skeleton || Dict.mem "AVAILABLE" skeleton) with true.
  cbv beta iota.
  set (q := realpath w db) in *.
  set (w' := World _ _).
  assert (q <> []) as Hq by (intros E; by rewrite E in Hstore).
  assert (lstat w' q = Some (File (Plain (Data "[INSTALLED]")))) as Hlq.
  { rewrite lstat_get by done. unfold w'. simpl files. by rewrite dict_get_set_eq. }
  assert (realpath w' db = q) as Hr.
  { destruct (decide (db = q)) as [E|Hne].
    - unfold realpath. rewrite E at 1. rewrite Hlq. by rewrite E.
    - assert (lstat w' db = lstat w db) as Hl.
      { rewrite !lstat_get by apply packages_hdb_nonempty. unfold w'. simpl files.
        by rewrite dict_get_set_ne. }
      unfold realpath. by rewrite Hl. }
  exists w'. split; [done|]. split.
  - unfold isfile, stat. by rewrite Hr, Hlq.
  - unfold read_config, stat. by rewrite Hr, Hlq.
Qed.

(** [create_repo] appends to a store that is there.  Called twice for a
    location that had no [packages.hdb], it returns [True] both times,
    but after the second call the section headers are in the file
    twice, and every later action on the store, and [update_repo], end
    in an exception of the parser. *)
Theorem create_repo_twice_breaks_store :
  forall (repo_location : path) (w w1 : world),
    lstat w (packages_hdb repo_location) = None ->
    isdir w repo_location = true \/ basename repo_location <> "packages.hdb" ->
    create_repo repo_location w = (Ret (VBool true), w1) ->
    exists w2,
      create_repo repo_location w1 = (Ret (VBool true), w2)
      /\ (forall action sec n v,
            exists e,
              package_database_api (packages_hdb repo_location) action sec n v w2
              = (Raise e, w2))
      /\ (exists e, update_repo repo_location w2 = (Raise e, w2)).
Proof.
  intros loc w w1 Hnone Hcase Hfirst.
  destruct (create_repo_fresh _ _ _ Hnone Hcase Hfirst) as [Hdir Hstore].
  destruct (create_repo_on_skeleton _ _ Hdir Hstore) as (w2 & Hsecond & Hfile & Hread).
  set (db := packages_hdb loc) in *.
  exists w2. split; [done|]. split.
  - intros action sec n v. exists ParsingError. by apply api_read_fails.
  - unfold update_repo, mbind, M_bind, gets. fold db. rewrite Hfile.
    change (negb true) with false. cbv beta iota.
    pose proof (repo_versions_world loc w2) as Hw.
    destruct (repo_versions loc w2) as [[d|e] w3] eqn:Hscan; simpl in Hw; subst w3;
      cbv beta iota; [|by eexists].
    destruct d as [|[k ver] d].
    + simpl. rewrite Hread. by eexists.
    + rewrite for_each_cons. unfold add_or_update, mbind, M_bind. simpl fst.
      rewrite (api_read_fails _ _ _ _ _ _ _ Hread). by eexists.
Qed.

Lemma create_repo_twice_breaks_store_witness :
  exists w2,
    create_repo ["srv"; "new"] (snd (create_repo ["srv"; "new"] Sample.repo_world))
      = (Ret (VBool true), w2)
    /\ (forall action sec n v,
          exists e,
            package_database_api (packages_hdb ["srv"; "new"]) action sec n v w2
            = (Raise e, w2))
    /\ (exists e, update_repo ["srv"; "new"] w2 = (Raise e, w2)).
Proof.
  apply (create_repo_twice_breaks_store ["srv"; "new"] Sample.repo_world).
  - reflexivity.
  - right. discriminate.
  - vm_compute. reflexivity.
Defined.
